(** * Scene Transition extension: a shallow embedding and its properties

    The development embeds two revisions of the extension's [index.js]:

    - [Gated]   : the revision with the [/scene style= max= background=]
                  command, free-text notes, and the stable-diffusion
                  availability probe (automatic background generation is
                  gated on the probe);
    - [Ungated] : the later revision with the parameterless generation step,
                  the ['true'] string test on [background=], and no probe.

    JavaScript values are a small tagged union, strings are held as the
    UTF-8 bytes of their text (well-formed strings, without lone
    surrogates), [async] functions are run
    sequentially (one invocation, every [await] completes before the next
    statement), exceptions and promise rejections are the left injection
    of a state-and-exception monad whose state survives a [throw] (what
    is thrown may be [undefined] or [null] as well as an object), and the
    host ([getContext()], jQuery) is a record of capabilities whose
    invocations are appended to a call log. Console and toastr output is
    not part of the model. *)

From Stdlib Require Import String Ascii List ZArith Bool Lia DecimalString.
Import ListNotations.
Open Scope string_scope.

(* ================================================================== *)
(** * JavaScript values and coercions *)
(* ================================================================== *)

(** The values that reach the extension: command arguments, persisted
    settings, and what the generation backend resolves to.  [VNum] carries
    integral Number values of magnitude below [10^21], which ToString
    prints with all their digits. *)
Inductive JsVal : Type :=
| VUndefined
| VNull
| VBool (b : bool)
| VNum (n : Z)
| VStr (s : string).

(** ToBoolean. *)
Definition truthy (v : JsVal) : bool :=
  match v with
  | VUndefined | VNull => false
  | VBool b => b
  | VNum n => negb (n =? 0)%Z
  | VStr s => negb (s =? "")
  end.

(** [a || b] *)
Definition js_or (a b : JsVal) : JsVal := if truthy a then a else b.

(** [a && b] *)
Definition js_and (a b : JsVal) : JsVal := if truthy a then b else a.

(** [a ?? b] *)
Definition js_nullish (a b : JsVal) : JsVal :=
  match a with
  | VUndefined | VNull => b
  | _ => a
  end.

(** [a === b] against a string literal. *)
Definition strict_eq_str (a : JsVal) (lit : string) : bool :=
  match a with
  | VStr s => s =? lit
  | _ => false
  end.

(** ToString, as used by [String(v)], string [+] and template literals. *)
Definition js_String (v : JsVal) : string :=
  match v with
  | VUndefined => "undefined"
  | VNull => "null"
  | VBool true => "true"
  | VBool false => "false"
  | VNum n => NilZero.string_of_int (Z.to_int n)
  | VStr s => s
  end.

(** Number values handed to the backend.  [NumOfString s] is a name for
    [Number(s)] on a string outside the short decimal fragment decided by
    [small_decimal]: which number that is, [NaN] included, is left open,
    and nothing below rests on two of these descriptions being
    different. *)
Inductive JsNum : Type :=
| NumInt (z : Z)
| NumOfString (s : string)
| NaN.

Definition digit_of (c : ascii) : option Z :=
  let n := Z.of_nat (nat_of_ascii c) in
  if ((48 <=? n) && (n <=? 57))%Z then Some (n - 48)%Z else None.

Fixpoint decimal_acc (s : string) (acc : Z) : option Z :=
  match s with
  | EmptyString => Some acc
  | String c s' =>
      match digit_of c with
      | Some d => decimal_acc s' (10 * acc + d)
      | None => None
      end
  end.

(** Between one and fifteen decimal digits: there StringToNumber is the
    exact decimal value. *)
Definition small_decimal (s : string) : option Z :=
  if ((1 <=? String.length s) && (String.length s <=? 15))%nat
  then decimal_acc s 0
  else None.

(** [Number(v)] *)
Definition Number (v : JsVal) : JsNum :=
  match v with
  | VUndefined => NaN
  | VNull => NumInt 0
  | VBool b => NumInt (if b then 1 else 0)
  | VNum n => NumInt n
  | VStr s =>
      match small_decimal s with
      | Some z => NumInt z
      | None => NumOfString s
      end
  end.

(* ================================================================== *)
(** * Strings *)
(* ================================================================== *)

Definition nl : string := String (ascii_of_nat 10) EmptyString.

Definition utf8 (bytes : list nat) : string :=
  fold_right (fun n s => String (ascii_of_nat n) s) EmptyString bytes.

(** The code points of WhiteSpace and LineTerminator, which
    [String.prototype.trim] strips, in UTF-8: TAB, LF, VT, FF, CR, SP,
    U+00A0, U+1680, U+2000 to U+200A, U+2028, U+2029, U+202F, U+205F,
    U+3000 and U+FEFF. *)
Definition WHITE_SPACE : list string :=
  map utf8
    [ [9]; [10]; [11]; [12]; [13]; [32];
      [194; 160];
      [225; 154; 128];
      [226; 128; 128]; [226; 128; 129]; [226; 128; 130]; [226; 128; 131];
      [226; 128; 132]; [226; 128; 133]; [226; 128; 134]; [226; 128; 135];
      [226; 128; 136]; [226; 128; 137]; [226; 128; 138];
      [226; 128; 168]; [226; 128; 169];
      [226; 128; 175];
      [226; 129; 159];
      [227; 128; 128];
      [239; 187; 191] ].

(** [Some rest] when [s] is [p] followed by [rest]. *)
Fixpoint strip_prefix (p s : string) : option string :=
  match p, s with
  | EmptyString, _ => Some s
  | String a p', String b s' => if Ascii.eqb a b then strip_prefix p' s' else None
  | String _ _, EmptyString => None
  end.

Fixpoint strip_first (candidates : list string) (s : string) : option string :=
  match candidates with
  | [] => None
  | p :: rest =>
      match strip_prefix p s with
      | Some r => Some r
      | None => strip_first rest s
      end
  end.

(** One white-space code point off the front of [s], if there is one. *)
Definition strip_white_space (s : string) : option string :=
  strip_first WHITE_SPACE s.

Fixpoint trimStart_fuel (fuel : nat) (s : string) : string :=
  match fuel with
  | 0 => s
  | S fuel' =>
      match strip_white_space s with
      | Some rest => trimStart_fuel fuel' rest
      | None => s
      end
  end.

(** [s.trimStart()]: every stripped code point takes at least one byte,
    so the length of [s] is fuel enough. *)
Definition trimStart (s : string) : string := trimStart_fuel (String.length s) s.

(** [s] is white space from end to end. *)
Definition all_white_space (s : string) : bool := trimStart s =? "".

(** [s.trimEnd()]: the longest suffix that is white space from end to
    end is dropped. *)
Fixpoint trimEnd (s : string) : string :=
  match s with
  | EmptyString => EmptyString
  | String c s' => if all_white_space s then EmptyString else String c (trimEnd s')
  end.

(** [s.trim()] *)
Definition trim (s : string) : string := trimEnd (trimStart s).

(** White space only, as a proposition: a sequence of white-space code
    points. *)
Inductive Blank : string -> Prop :=
| Blank_empty : Blank ""
| Blank_more ws s : In ws WHITE_SPACE -> Blank s -> Blank (ws ++ s).

(** No member of [l] is the beginning of another. *)
Definition prefix_free (l : list string) : bool :=
  forallb (fun a =>
    forallb (fun b =>
      match strip_prefix a b with
      | Some _ => String.eqb a b
      | None => true
      end) l) l.

(** [hay.includes(needle)] *)
Fixpoint includes (hay needle : string) : bool :=
  prefix needle hay ||
  match hay with
  | EmptyString => false
  | String _ hay' => includes hay' needle
  end.

Definition nonempty (s : string) : bool := negb (s =? "").

(* ================================================================== *)
(** * Errors, messages, the host context *)
(* ================================================================== *)

(** What a [throw] or a rejected promise carries: [undefined], [null],
    or any other value, of which the handlers read [.stack] and
    [.message]; [Thrown message] is a value whose [.message] reads as
    [message] ([VUndefined] for a primitive or an object without one).
    Reading a property of [undefined] or [null] throws a [TypeError];
    of any other value it does not. *)
Inductive JsError : Type :=
| ThrownUndefined
| ThrownNull
| Thrown (message : JsVal).

(** [new Error(message)], and the errors the runtime itself throws. *)
Definition mkError (message : string) : JsError := Thrown (VStr message).

(** The object built by [buildAssistantMessage]. *)
Record Message : Type := mkMessage {
  is_user : bool;
  name : option string;
  send_date : Z;
  mes : string
}.

Inductive EventType : Type :=
| MESSAGE_RECEIVED
| CHARACTER_MESSAGE_RENDERED.

(** The argument object of [generateQuietPrompt]; [maxTokens] is [None]
    when the property is not written at all. *)
Record QuietArgs : Type := mkQuietArgs {
  quietPrompt : string;
  quietToLoud : bool;
  maxTokens : option JsNum
}.

(** What a run does that can be seen from outside, in order: the calls to
    the host and to jQuery, and the availability probe. *)
Inductive Call : Type :=
| CSubstituteParams (template : string)
| CGenerateQuietPrompt (args : QuietArgs)
| CEmit (ev : EventType) (msgId : nat)
| CAddOneMessage (msg : Message)
| CSaveChat
| CProbeSD
| CClickSdBackground.

(** The persisted blob under [EXTENSION_SETTINGS_KEY]; [None] is an
    absent property, which the spread leaves to the default. *)
Record UserSettings : Type := mkUserSettings {
  us_sceneChangeInstructions : option JsVal;
  us_autoGenerateBackground : option JsVal
}.

(** [ctx.extensionSettings.sd] *)
Record SdSettings : Type := mkSd { source : JsVal }.

(** [ctx.extensionSettings] *)
Record ExtensionSettings : Type := mkExt {
  scene_transition_settings : option UserSettings;
  sd : option SdSettings
}.

(** What [getContext()], jQuery and the clock give the extension.  A
    capability that throws (or whose promise rejects) answers [inl];
    [charName] is [ctx.characters?.[ctx.characterId]?.name] and [now] is
    [Date.now()]. *)
Record Context : Type := mkContext {
  extensionSettings : option ExtensionSettings;
  charName : option string;
  now : Z;
  generateQuietPrompt : option (QuietArgs -> JsError + JsVal);
  substituteParams : string -> JsError + string;
  emit : EventType -> nat -> JsError + unit;
  addOneMessage : Message -> JsError + unit;
  saveChat : JsError + unit;
  sd_background_click : JsError + unit
}.

Definition with_click (ctx : Context) (r : JsError + unit) : Context :=
  {| extensionSettings := extensionSettings ctx;
     charName := charName ctx;
     now := now ctx;
     generateQuietPrompt := generateQuietPrompt ctx;
     substituteParams := substituteParams ctx;
     emit := emit ctx;
     addOneMessage := addOneMessage ctx;
     saveChat := saveChat ctx;
     sd_background_click := r |}.

(** The mutable part: the conversation array and the call log. *)
Record World : Type := mkWorld {
  chat : list Message;
  calls : list Call
}.

(* ================================================================== *)
(** * The execution monad *)
(* ================================================================== *)

Definition M (A : Type) : Type := World -> (JsError + A) * World.

Definition ret {A} (a : A) : M A := fun w => (inr a, w).

Definition throw {A} (e : JsError) : M A := fun w => (inl e, w).

Definition bind {A B} (c : M A) (k : A -> M B) : M B :=
  fun w =>
    match c w with
    | (inr a, w') => k a w'
    | (inl e, w') => (inl e, w')
    end.

(** [try { body } catch (error) { handler }] *)
Definition try_catch {A} (body : M A) (handler : JsError -> M A) : M A :=
  fun w =>
    match body w with
    | (inr a, w') => (inr a, w')
    | (inl e, w') => handler e w'
    end.

Declare Scope js_scope.
Delimit Scope js_scope with js.
Notation "x <- c ;; k" := (bind c (fun x => k))
  (at level 61, c at next level, right associativity) : js_scope.
Notation "c ;; k" := (bind c (fun _ => k))
  (at level 61, right associativity) : js_scope.
Open Scope js_scope.

(** Calling a host capability: the call is logged, then it answers. *)
Definition invoke {A} (c : Call) (answer : JsError + A) : M A :=
  fun w => (answer, {| chat := chat w; calls := calls w ++ [c] |}).

(** [chat.push(msg)] *)
Definition push (msg : Message) : M unit :=
  fun w => (inr tt, {| chat := chat w ++ [msg]; calls := calls w |}).

(** [chat.length] *)
Definition chat_length : M nat := fun w => (inr (List.length (chat w)), w).

Definition outcome {A} (r : (JsError + A) * World) : JsError + A := fst r.
Definition final {A} (r : (JsError + A) * World) : World := snd r.

(** The resolved settings object [{ ...DEFAULT_SETTINGS, ...userSettings }]. *)
Record Settings : Type := mkSettings {
  sceneChangeInstructions : JsVal;
  autoGenerateBackground : JsVal
}.

Definition spread (defaults : Settings) (user : UserSettings) : Settings :=
  {| sceneChangeInstructions :=
       match us_sceneChangeInstructions user with
       | Some v => v
       | None => sceneChangeInstructions defaults
       end;
     autoGenerateBackground :=
       match us_autoGenerateBackground user with
       | Some v => v
       | None => autoGenerateBackground defaults
       end |}.

Definition empty_object : UserSettings :=
  {| us_sceneChangeInstructions := None; us_autoGenerateBackground := None |}.

Definition EXTENSION_SETTINGS_KEY : string := "scene-transition-settings".

(** Reading a property of [undefined]. *)
Definition TypeError_reading (prop : string) : JsError :=
  mkError ("Cannot read properties of undefined (reading '" ++ prop ++ "')").

(** Reading a property of [null]. *)
Definition TypeError_reading_null (prop : string) : JsError :=
  mkError ("Cannot read properties of null (reading '" ++ prop ++ "')").

(** [error.stack], read for a log line: it throws when [error] is
    [undefined] or [null]. *)
Definition read_stack (error : JsError) : JsError + unit :=
  match error with
  | ThrownUndefined => inl (TypeError_reading "stack")
  | ThrownNull => inl (TypeError_reading_null "stack")
  | Thrown _ => inr tt
  end.

(** [error.message] inside a template literal: it throws when [error] is
    [undefined] or [null], and is the text of the message otherwise. *)
Definition read_message (error : JsError) : JsError + string :=
  match error with
  | ThrownUndefined => inl (TypeError_reading "message")
  | ThrownNull => inl (TypeError_reading_null "message")
  | Thrown message => inr (js_String message)
  end.

(** An expression that may throw, as a step of a run. *)
Definition lift {A} (r : JsError + A) : M A := fun w => (r, w).

Definition OUTCOME_INSERTED : string := "Scene line inserted.".
Definition OUTCOME_EMPTY : string := "No output generated.".
Definition OUTCOME_ERROR (message : string) : string := "Error: " ++ message.

Definition named_prop {N} (named : option N) (field : N -> JsVal) : JsVal :=
  match named with
  | Some n => field n
  | None => VUndefined
  end.

(** The [named] argument bag of the slash command; an argument that was
    not given is [VUndefined]. *)
Record NamedArgs : Type := mkNamed {
  style : JsVal;
  max : JsVal;
  background : JsVal
}.

(** [finalResult]: what both revisions make of the backend's answer. *)
Definition finalResult (result : JsVal) : string :=
  match result with
  | VStr s => trim s
  | _ => trim (js_String (js_nullish result (VStr "")))
  end.

(* ================================================================== *)
(** * The revision with notes, style, token limit and the probe *)
(* ================================================================== *)

Module Gated.

Definition DEFAULT_SETTINGS : Settings :=
  {| sceneChangeInstructions :=
       VStr "Write a scene transition, using the perspective of {{char}}. If the existing conversation indicates that the story hand reached the end of an event, describe the beginning of a new situation where {{char}} and {{user}} would interact again. Otherwise, transition {{char}} and {{user}} to a new location that would make sense. Describe the sight and sound of the new environment briefly, then have {{char}} start the interaction with {{user}} in this new setting. Do not write dialog for {{user}}. If the location change warrants a new outfit and there's logically a gap in the timeline where {{char}} could have changed, feel free to mention the outfit change briefly.";
     autoGenerateBackground := VBool false |}.

Definition validSources : list string :=
  ["extras"; "horde"; "auto"; "vlad"; "drawthings"; "novel"; "openai";
   "comfy"; "togetherai"; "pollinations"; "stability"; "huggingface";
   "nanogpt"; "bfl"; "falai"; "xai"; "google"].

Definition DEFAULT_INSTRUCTION : string :=
  "Allow the character to transition to a new scene that makes sense.".

(** The two [testMessage] template literals (they are the same text). *)
Definition testMessage (instruction style : JsVal) : string :=
  "[DEBUG] Scene transition test - "
  ++ js_String (js_or instruction (VStr "no instruction"))
  ++ " "
  ++ (if truthy style then "(style: " ++ js_String style ++ ")" else "").

(** The template literal passed to [substituteParams]. *)
Definition quietPromptTemplate (instructions style instruction : JsVal) : string :=
  "[OOC Scene Direction]" ++ nl
  ++ js_String instructions ++ nl
  ++ (if truthy style then "Style hint: " ++ js_String style else "") ++ nl
  ++ (if truthy instruction then "Scene notes: " ++ js_String instruction else "") ++ nl
  ++ "Return only the character's spoken or internal line (no extra narrative).".

(** [maxTokens ? Number(maxTokens) : 120] *)
Definition tokenBudget (maxTokens : JsVal) : JsNum :=
  if truthy maxTokens then Number maxTokens else NumInt 120.

(** The first four [const]s of [sceneTransitionCallback]. *)
Definition instructionOf (unnamed : JsVal) : JsVal :=
  match unnamed with
  | VStr s => if nonempty (trim s) then VStr s else VStr DEFAULT_INSTRUCTION
  | _ => VStr DEFAULT_INSTRUCTION
  end.

Definition styleOf (named : option NamedArgs) : JsVal :=
  js_or (named_prop named style) VUndefined.

Definition maxOf (named : option NamedArgs) : JsVal :=
  js_or (named_prop named max) (VStr "120").

Definition generateBgOf (named : option NamedArgs) : JsVal :=
  match named_prop named background with
  | VUndefined => VUndefined
  | v => v
  end.

(** The [if (generateBg !== undefined) ... else ...] block. *)
Definition shouldGenerateBackground
    (generateBg : JsVal) (settings : Settings) (isSDAvailable : bool) : JsVal :=
  match generateBg with
  | VUndefined => js_and (autoGenerateBackground settings) (VBool isSDAvailable)
  | v => v
  end.

Section WithContext.

Variable ctx : Context.

Definition getSettings : M Settings :=
  match extensionSettings ctx with
  | None => throw (TypeError_reading EXTENSION_SETTINGS_KEY)
  | Some es =>
      let userSettings :=
        match scene_transition_settings es with
        | Some u => u
        | None => empty_object
        end in
      ret (spread DEFAULT_SETTINGS userSettings)
  end.

Definition isStableDiffusionAvailable : M bool :=
  try_catch
    (invoke CProbeSD (inr tt) ;;
     match extensionSettings ctx with
     | None => ret false
     | Some es =>
         match sd es with
         | None => ret false
         | Some sd =>
             if negb (truthy (source sd)) then ret false
             else ret (existsb (strict_eq_str (source sd)) validSources)
         end
     end)
    (fun _ => ret false).

Definition generateBackgroundImage : M JsVal :=
  try_catch
    (invoke CClickSdBackground (sd_background_click ctx) ;; ret VUndefined)
    (fun error => lift (read_stack error) ;; ret VNull).

Definition buildAssistantMessage (text : string) : Message :=
  {| is_user := false; name := charName ctx; send_date := now ctx; mes := text |}.

Definition insertAssistantMessage (text : string) : M unit :=
  try_catch
    (let msg := buildAssistantMessage text in
     push msg ;;
     len <- chat_length ;;
     let msgId := (len - 1)%nat in
     invoke (CEmit MESSAGE_RECEIVED msgId) (emit ctx MESSAGE_RECEIVED msgId) ;;
     invoke (CAddOneMessage msg) (addOneMessage ctx msg) ;;
     invoke (CEmit CHARACTER_MESSAGE_RENDERED msgId)
            (emit ctx CHARACTER_MESSAGE_RENDERED msgId) ;;
     invoke CSaveChat (saveChat ctx))
    (fun error => throw error).

Definition generateSceneLine (instruction style maxTokens : JsVal) : M string :=
  try_catch
    (match generateQuietPrompt ctx with
     | None => ret (testMessage instruction style)
     | Some generate =>
         settings <- getSettings ;;
         let instructions :=
           js_or (sceneChangeInstructions settings)
                 (sceneChangeInstructions DEFAULT_SETTINGS) in
         let template := quietPromptTemplate instructions style instruction in
         prompt <- invoke (CSubstituteParams template) (substituteParams ctx template) ;;
         let args := {| quietPrompt := prompt;
                        quietToLoud := true;
                        maxTokens := Some (tokenBudget maxTokens) |} in
         result <- invoke (CGenerateQuietPrompt args) (generate args) ;;
         ret (finalResult result)
     end)
    (fun _ => ret (testMessage instruction style)).

Definition sceneTransitionCallback
    (named : option NamedArgs) (unnamed : JsVal) : M string :=
  try_catch
    (let instruction := instructionOf unnamed in
     let style := styleOf named in
     let max := maxOf named in
     let generateBg := generateBgOf named in
     line <- generateSceneLine instruction style max ;;
     if nonempty line then
       insertAssistantMessage line ;;
       settings <- getSettings ;;
       isSDAvailable <- isStableDiffusionAvailable ;;
       (if truthy (shouldGenerateBackground generateBg settings isSDAvailable)
        then try_catch (generateBackgroundImage ;; ret tt)
                       (fun error => lift (read_stack error) ;; ret tt)
        else ret tt) ;;
       ret OUTCOME_INSERTED
     else ret OUTCOME_EMPTY)
    (fun error =>
       lift (read_stack error) ;;
       message <- lift (read_message error) ;;
       ret (OUTCOME_ERROR message)).

End WithContext.

End Gated.

(* ================================================================== *)
(** * The later revision: no arguments to generation, no probe *)
(* ================================================================== *)

Module Ungated.

Definition DEFAULT_SETTINGS : Settings :=
  {| sceneChangeInstructions :=
       VStr "Write a scene transition in the perspective of {{char}}. If the current scene had reached its conclusion, describe the beginning of a new situation where {{char}} and {{user}} would interact again. Otherwise, transition {{char}} and {{user}} to a new location that would make sense. Describe the sight and sound of the new environment briefly, and insert a short description of a new outfit for {{char}} if this is a new situation,then have {{char}} start the interaction with {{user}} in this new setting. Do not write dialog for {{user}}.";
     autoGenerateBackground := VBool false |}.

Definition testMessage_unavailable : string := "[DEBUG] Scene transition failed".

Definition testMessage_failed (message : string) : string :=
  "[DEBUG] Scene transition failed: " ++ message.

(** [named?.background !== undefined ? (named.background === 'true') : undefined] *)
Definition generateBgOf (named : option NamedArgs) : JsVal :=
  match named_prop named background with
  | VUndefined => VUndefined
  | v => VBool (strict_eq_str v "true")
  end.

(** The [if (generateBg !== undefined) ... else ...] block. *)
Definition shouldGenerateBackground (generateBg : JsVal) (settings : Settings) : JsVal :=
  match generateBg with
  | VUndefined => autoGenerateBackground settings
  | v => v
  end.

Section WithContext.

Variable ctx : Context.

Definition getSettings : M Settings :=
  match extensionSettings ctx with
  | None => throw (TypeError_reading EXTENSION_SETTINGS_KEY)
  | Some es =>
      let userSettings :=
        match scene_transition_settings es with
        | Some u => u
        | None => empty_object
        end in
      ret (spread DEFAULT_SETTINGS userSettings)
  end.

Definition generateBackgroundImage : M unit :=
  invoke CClickSdBackground (sd_background_click ctx).

Definition buildAssistantMessage (text : string) : Message :=
  {| is_user := false; name := charName ctx; send_date := now ctx; mes := text |}.

Definition insertAssistantMessage (text : string) : M unit :=
  try_catch
    (let msg := buildAssistantMessage text in
     push msg ;;
     len <- chat_length ;;
     let msgId := (len - 1)%nat in
     invoke (CEmit MESSAGE_RECEIVED msgId) (emit ctx MESSAGE_RECEIVED msgId) ;;
     invoke (CAddOneMessage msg) (addOneMessage ctx msg) ;;
     invoke (CEmit CHARACTER_MESSAGE_RENDERED msgId)
            (emit ctx CHARACTER_MESSAGE_RENDERED msgId) ;;
     invoke CSaveChat (saveChat ctx))
    (fun error => throw error).

Definition generateSceneLine : M string :=
  try_catch
    (match generateQuietPrompt ctx with
     | None => ret testMessage_unavailable
     | Some generate =>
         settings <- getSettings ;;
         let instructions :=
           js_or (sceneChangeInstructions settings)
                 (sceneChangeInstructions DEFAULT_SETTINGS) in
         let template := js_String instructions in
         prompt <- invoke (CSubstituteParams template) (substituteParams ctx template) ;;
         let args := {| quietPrompt := prompt;
                        quietToLoud := true;
                        maxTokens := None |} in
         result <- invoke (CGenerateQuietPrompt args) (generate args) ;;
         ret (finalResult result)
     end)
    (fun error =>
       message <- lift (read_message error) ;;
       ret (testMessage_failed message)).

Definition sceneTransitionCallback
    (named : option NamedArgs) (unnamed : JsVal) : M string :=
  try_catch
    (let generateBg := generateBgOf named in
     line <- generateSceneLine ;;
     if nonempty line then
       insertAssistantMessage line ;;
       settings <- getSettings ;;
       (if truthy (shouldGenerateBackground generateBg settings)
        then try_catch (generateBackgroundImage ;; ret tt) (fun _ => ret tt)
        else ret tt) ;;
       ret OUTCOME_INSERTED
     else ret OUTCOME_EMPTY)
    (fun error =>
       message <- lift (read_message error) ;;
       ret (OUTCOME_ERROR message)).

End WithContext.

End Ungated.

(* ================================================================== *)
(** * Sample hosts and requests *)
(* ================================================================== *)

Definition empty_world : World := {| chat := []; calls := [] |}.

Definition no_extensions : ExtensionSettings :=
  {| scene_transition_settings := None; sd := None |}.

(** A host on which everything works and the backend answers [reply]. *)
Definition host_replying (reply : JsVal) : Context :=
  {| extensionSettings := Some no_extensions;
     charName := Some "Aria";
     now := 1700000000000%Z;
     generateQuietPrompt := Some (fun _ => inr reply);
     substituteParams := fun t => inr t;
     emit := fun _ _ => inr tt;
     addOneMessage := fun _ => inr tt;
     saveChat := inr tt;
     sd_background_click := inr tt |}.

Definition with_generate
    (ctx : Context) (g : option (QuietArgs -> JsError + JsVal)) : Context :=
  {| extensionSettings := extensionSettings ctx;
     charName := charName ctx;
     now := now ctx;
     generateQuietPrompt := g;
     substituteParams := substituteParams ctx;
     emit := emit ctx;
     addOneMessage := addOneMessage ctx;
     saveChat := saveChat ctx;
     sd_background_click := sd_background_click ctx |}.

Definition with_substitute
    (ctx : Context) (f : string -> JsError + string) : Context :=
  {| extensionSettings := extensionSettings ctx;
     charName := charName ctx;
     now := now ctx;
     generateQuietPrompt := generateQuietPrompt ctx;
     substituteParams := f;
     emit := emit ctx;
     addOneMessage := addOneMessage ctx;
     saveChat := saveChat ctx;
     sd_background_click := sd_background_click ctx |}.

Definition with_saveChat (ctx : Context) (r : JsError + unit) : Context :=
  {| extensionSettings := extensionSettings ctx;
     charName := charName ctx;
     now := now ctx;
     generateQuietPrompt := generateQuietPrompt ctx;
     substituteParams := substituteParams ctx;
     emit := emit ctx;
     addOneMessage := addOneMessage ctx;
     saveChat := r;
     sd_background_click := sd_background_click ctx |}.

Definition with_extensionSettings
    (ctx : Context) (es : option ExtensionSettings) : Context :=
  {| extensionSettings := es;
     charName := charName ctx;
     now := now ctx;
     generateQuietPrompt := generateQuietPrompt ctx;
     substituteParams := substituteParams ctx;
     emit := emit ctx;
     addOneMessage := addOneMessage ctx;
     saveChat := saveChat ctx;
     sd_background_click := sd_background_click ctx |}.

Definition boom : JsError := mkError "boom".

(** The backend is wired in and throws [Error("boom")] on every call. *)
Definition host_boom : Context :=
  with_generate (host_replying VUndefined) (Some (fun _ => inl boom)).

(** The backend is not wired in. *)
Definition host_unwired : Context :=
  with_generate (host_replying VUndefined) None.

(** Placeholder substitution throws. *)
Definition host_bad_template : Context :=
  with_substitute (host_replying (VStr "Hello there."))
                  (fun _ => inl (mkError "bad template")).

(** Saving the conversation rejects. *)
Definition host_save_fails : Context :=
  with_saveChat (host_replying (VStr "Hello there."))
                (inl (mkError "disk full")).

(** [ctx.extensionSettings] is missing. *)
Definition host_no_settings : Context :=
  with_extensionSettings (host_replying (VStr "Hello there.")) None.

(** The background button throws when clicked. *)
Definition host_click_fails : Context :=
  with_click (host_replying (VStr "Hello there."))
             (inl (mkError "no such button")).

(** The first notification of the insertion rejects. *)
Definition host_emit_fails : Context :=
  {| extensionSettings := Some no_extensions;
     charName := Some "Aria";
     now := 1700000000000%Z;
     generateQuietPrompt := Some (fun _ => inr (VStr "Hello there."));
     substituteParams := fun t => inr t;
     emit := fun _ _ => inl (mkError "listener failed");
     addOneMessage := fun _ => inr tt;
     saveChat := inr tt;
     sd_background_click := inr tt |}.

Definition no_named : option NamedArgs := None.

Definition named_with (s m b : JsVal) : option NamedArgs :=
  Some {| style := s; max := m; background := b |}.

(** The calls a generation step may make. *)
Definition generation_call (c : Call) : bool :=
  match c with
  | CSubstituteParams _ | CGenerateQuietPrompt _ => true
  | _ => false
  end.

(** The calls an insertion makes. *)
Definition insertion_call (c : Call) : bool :=
  match c with
  | CEmit _ _ | CAddOneMessage _ | CSaveChat => true
  | _ => false
  end.

(** The calls that follow a successful insertion. *)
Definition is_probe (c : Call) : bool :=
  match c with
  | CProbeSD => true
  | _ => false
  end.

Definition is_click (c : Call) : bool :=
  match c with
  | CClickSdBackground => true
  | _ => false
  end.

(** The [maxTokens] of every backend call in a log. *)
Definition budgets (log : list Call) : list (option JsNum) :=
  flat_map (fun c => match c with
                     | CGenerateQuietPrompt args => [maxTokens args]
                     | _ => []
                     end) log.

(** A substring, as a proposition. *)
Definition contains (hay needle : string) : Prop :=
  exists a b, hay = a ++ needle ++ b.

(* ================================================================== *)
(** * The settings store and the settings panel *)
(* ================================================================== *)

(** [ctx.extensionSettings] as the mutable object that [saveSettings] and
    [initializeSettings] write to, with the number of
    [ctx.saveSettingsDebounced()] requests made so far. *)
Record SettingsStore : Type := mkStore {
  stored : option ExtensionSettings;
  flush_requests : nat
}.

Definition Stored (A : Type) : Type :=
  SettingsStore -> (JsError + A) * SettingsStore.

(** Writing a property of [undefined]. *)
Definition TypeError_setting (prop : string) : JsError :=
  mkError ("Cannot set properties of undefined (setting '" ++ prop ++ "')").

(** A settings object as the blob it becomes once stored. *)
Definition as_blob (s : Settings) : UserSettings :=
  {| us_sceneChangeInstructions := Some (sceneChangeInstructions s);
     us_autoGenerateBackground := Some (autoGenerateBackground s) |}.

(** The settings functions are the same text in both revisions; only
    [DEFAULT_SETTINGS] differs. *)
Module Panel.

Section WithDefaults.

Variable DEFAULT_SETTINGS : Settings.

Definition getSettings : Stored Settings :=
  fun st =>
    match stored st with
    | None => (inl (TypeError_reading EXTENSION_SETTINGS_KEY), st)
    | Some es =>
        let userSettings :=
          match scene_transition_settings es with
          | Some u => u
          | None => empty_object
          end in
        (inr (spread DEFAULT_SETTINGS userSettings), st)
    end.

Definition saveSettings (settings : Settings) : Stored unit :=
  fun st =>
    match stored st with
    | None => (inl (TypeError_setting EXTENSION_SETTINGS_KEY), st)
    | Some es =>
        (inr tt,
         {| stored := Some {| scene_transition_settings := Some (as_blob settings);
                              sd := sd es |};
            flush_requests := S (flush_requests st) |})
    end.

Definition initializeSettings : Stored unit :=
  fun st =>
    match stored st with
    | None => (inl (TypeError_reading EXTENSION_SETTINGS_KEY), st)
    | Some es =>
        match scene_transition_settings es with
        | Some _ => (inr tt, st)
        | None =>
            (inr tt,
             {| stored := Some {| scene_transition_settings :=
                                    Some (as_blob DEFAULT_SETTINGS);
                                  sd := sd es |};
                flush_requests := S (flush_requests st) |})
        end
    end.

Definition and_then {A B} (c : Stored A) (k : A -> Stored B) : Stored B :=
  fun st =>
    match c st with
    | (inr a, st') => k a st'
    | (inl e, st') => (inl e, st')
    end.

(** The [input] listener of the textarea. *)
Definition instructions_input (value : string) : Stored unit :=
  and_then getSettings (fun currentSettings =>
    saveSettings
      {| sceneChangeInstructions := VStr value;
         autoGenerateBackground := autoGenerateBackground currentSettings |}).

(** The [click] listener of the reset button. *)
Definition reset_click : Stored unit :=
  and_then getSettings (fun currentSettings =>
    saveSettings
      {| sceneChangeInstructions := sceneChangeInstructions DEFAULT_SETTINGS;
         autoGenerateBackground := autoGenerateBackground currentSettings |}).

(** The [change] listener of the checkbox. *)
Definition background_change (checked : bool) : Stored unit :=
  and_then getSettings (fun currentSettings =>
    saveSettings
      {| sceneChangeInstructions := sceneChangeInstructions currentSettings;
         autoGenerateBackground := VBool checked |}).

(** [textarea.value] as [createInstructionsTextarea] sets it. *)
Definition textarea_value (settings : Settings) : string :=
  js_String (js_or (sceneChangeInstructions settings)
                   (sceneChangeInstructions DEFAULT_SETTINGS)).

(** [checkbox.checked] as [createBackgroundToggle] sets it. *)
Definition checkbox_checked (settings : Settings) : bool :=
  truthy (js_nullish (autoGenerateBackground settings)
                     (autoGenerateBackground DEFAULT_SETTINGS)).

End WithDefaults.

End Panel.

(** The host as a run sees it once the store holds [st]. *)
Definition host_with_store (ctx : Context) (st : SettingsStore) : Context :=
  with_extensionSettings ctx (stored st).

(** The argument bag [{}] of the menu button. *)
Definition empty_bag : option NamedArgs :=
  Some {| style := VUndefined; max := VUndefined; background := VUndefined |}.

(** What the click listener of the "Change Scene" menu button awaits. *)
Definition gated_menu_button_click (ctx : Context) : M string :=
  Gated.sceneTransitionCallback ctx empty_bag (VStr "").

Definition ungated_menu_button_click (ctx : Context) : M string :=
  Ungated.sceneTransitionCallback ctx empty_bag (VStr "").

(** [ctx.extensionSettings.sd.source], where all of it is there. *)
Definition sd_source (ctx : Context) : option JsVal :=
  match extensionSettings ctx with
  | Some es =>
      match sd es with
      | Some s => Some (source s)
      | None => None
      end
  | None => None
  end.

(** The configured source is a string on the allow-list. *)
Definition sd_available (ctx : Context) : bool :=
  match sd_source ctx with
  | Some (VStr s) => existsb (String.eqb s) Gated.validSources
  | _ => false
  end.

Definition is_backend_call (c : Call) : bool :=
  match c with
  | CGenerateQuietPrompt _ => true
  | _ => false
  end.

Definition count_clicks (log : list Call) : nat :=
  List.length (filter is_click log).

Definition count_probes (log : list Call) : nat :=
  List.length (filter is_probe log).

(** The stable-diffusion extension is configured with [src] as source. *)
Definition host_with_sd (ctx : Context) (src : JsVal) : Context :=
  with_extensionSettings ctx
    (Some {| scene_transition_settings :=
               match extensionSettings ctx with
               | Some es => scene_transition_settings es
               | None => None
               end;
             sd := Some {| source := src |} |}).

Definition fresh_store : SettingsStore :=
  {| stored := Some no_extensions; flush_requests := 0 |}.

(** The message of [error] can be read: it is neither [undefined] nor
    [null]. *)
Definition readable (error : JsError) : Prop :=
  exists message, error = Thrown message.

(** What the [catch] at the top of [Gated.sceneTransitionCallback] makes
    of a caught value: it reads [error.stack], then [error.message]. *)
Definition gated_top_catch (error : JsError) : JsError + string :=
  match error with
  | ThrownUndefined => inl (TypeError_reading "stack")
  | ThrownNull => inl (TypeError_reading_null "stack")
  | Thrown message => inr ("Error: " ++ js_String message)
  end.

(** The same for [Ungated.sceneTransitionCallback], which reads only
    [error.message]. *)
Definition ungated_top_catch (error : JsError) : JsError + string :=
  match error with
  | ThrownUndefined => inl (TypeError_reading "message")
  | ThrownNull => inl (TypeError_reading_null "message")
  | Thrown message => inr ("Error: " ++ js_String message)
  end.

(** What the [catch] of [Ungated.generateSceneLine] makes of a caught
    value. *)
Definition ungated_generation_catch (error : JsError) : JsError + string :=
  match error with
  | ThrownUndefined => inl (TypeError_reading "message")
  | ThrownNull => inl (TypeError_reading_null "message")
  | Thrown message => inr ("[DEBUG] Scene transition failed: " ++ js_String message)
  end.

(** Every call of the insertion that throws throws a value whose message
    can be read. *)
Definition insertion_throws_readable (ctx : Context) : Prop :=
  (forall ev msgId e, emit ctx ev msgId = inl e -> readable e)
  /\ (forall msg e, addOneMessage ctx msg = inl e -> readable e)
  /\ (forall e, saveChat ctx = inl e -> readable e).

(** The same for the calls of the generation step. *)
Definition generation_throws_readable (ctx : Context) : Prop :=
  (forall t e, substituteParams ctx t = inl e -> readable e)
  /\ (forall generate args e,
         generateQuietPrompt ctx = Some generate ->
         generate args = inl e -> readable e).

(** Saving the conversation rejects with [undefined]. *)
Definition host_save_rejects_undefined : Context :=
  with_saveChat (host_replying (VStr "Hello there.")) (inl ThrownUndefined).

(** The backend is wired in and rejects with [undefined] on every call. *)
Definition host_backend_rejects_undefined : Context :=
  with_generate (host_replying VUndefined) (Some (fun _ => inl ThrownUndefined)).

Definition nbsp : string := utf8 [194; 160].

Definition ideographic_space : string := utf8 [227; 128; 128].

(** The message of the [TypeError] for reading [prop] of [undefined]. *)
Definition reading_text (prop : string) : string :=
  "Cannot read properties of undefined (reading '" ++ prop ++ "')".

(** The values the [catch] handlers themselves can throw. *)
Definition message_TypeError (error : JsError) : Prop :=
  error = TypeError_reading "message" \/ error = TypeError_reading_null "message".

Definition stack_TypeError (error : JsError) : Prop :=
  error = TypeError_reading "stack" \/ error = TypeError_reading_null "stack".

(* ================================================================== *)
(** * Strings and coercions: basic facts *)
(* ================================================================== *)

Example trim_both_ends : trim (" " ++ nl ++ "a b  ") = "a b".
Proof. reflexivity. Qed.

Example Number_of_default : Number (VStr "120") = NumInt 120.
Proof. reflexivity. Qed.

Example Number_of_zero_string : truthy (VStr "0") = true /\ Number (VStr "0") = NumInt 0.
Proof. split; reflexivity. Qed.

Example String_of_negative : js_String (VNum (-5)) = "-5".
Proof. reflexivity. Qed.

Example finalResult_of_null : finalResult VNull = "".
Proof. reflexivity. Qed.

(** The ordinary run: one message with the generated text, the probe, no
    click, and the line reported inserted. *)
Example gated_hello_there :
  Gated.sceneTransitionCallback (host_replying (VStr " Hello there. ")) no_named
    (VStr "") empty_world
  = (inr "Scene line inserted.",
     {| chat := [{| is_user := false; name := Some "Aria";
                    send_date := 1700000000000%Z; mes := "Hello there." |}];
        calls :=
          [CSubstituteParams
             (Gated.quietPromptTemplate (sceneChangeInstructions Gated.DEFAULT_SETTINGS)
                VUndefined (VStr Gated.DEFAULT_INSTRUCTION));
           CGenerateQuietPrompt
             {| quietPrompt :=
                  Gated.quietPromptTemplate
                    (sceneChangeInstructions Gated.DEFAULT_SETTINGS)
                    VUndefined (VStr Gated.DEFAULT_INSTRUCTION);
                quietToLoud := true;
                maxTokens := Some (NumInt 120) |};
           CEmit MESSAGE_RECEIVED 0;
           CAddOneMessage {| is_user := false; name := Some "Aria";
                             send_date := 1700000000000%Z; mes := "Hello there." |};
           CEmit CHARACTER_MESSAGE_RENDERED 0;
           CSaveChat;
           CProbeSD] |}).
Proof. reflexivity. Qed.

Example ungated_hello_there :
  Ungated.sceneTransitionCallback (host_replying (VStr " Hello there. "))
    (named_with VUndefined VUndefined (VStr "true")) (VStr "") empty_world
  = (inr "Scene line inserted.",
     {| chat := [{| is_user := false; name := Some "Aria";
                    send_date := 1700000000000%Z; mes := "Hello there." |}];
        calls :=
          [CSubstituteParams
             (js_String (sceneChangeInstructions Ungated.DEFAULT_SETTINGS));
           CGenerateQuietPrompt
             {| quietPrompt :=
                  js_String (sceneChangeInstructions Ungated.DEFAULT_SETTINGS);
                quietToLoud := true;
                maxTokens := None |};
           CEmit MESSAGE_RECEIVED 0;
           CAddOneMessage {| is_user := false; name := Some "Aria";
                             send_date := 1700000000000%Z; mes := "Hello there." |};
           CEmit CHARACTER_MESSAGE_RENDERED 0;
           CSaveChat;
           CClickSdBackground] |}).
Proof. reflexivity. Qed.

Lemma prefix_append (n b : string) : prefix n (n ++ b) = true.
Proof.
  induction n as [|c n IH]; cbn.
  - destruct b; reflexivity.
  - destruct (ascii_dec c c) as [_|ne]; [exact IH | congruence].
Qed.

Lemma includes_prefix (hay needle : string) :
  prefix needle hay = true -> includes hay needle = true.
Proof. intros H. destruct hay; cbn [includes]; rewrite H; reflexivity. Qed.

Lemma includes_contains (hay needle : string) :
  contains hay needle -> includes hay needle = true.
Proof.
  intros (a & b & ->). induction a as [|c a IH].
  - cbn [append]. apply includes_prefix, prefix_append.
  - cbn [append includes]. rewrite IH. apply orb_true_r.
Qed.

Lemma append_empty_r (s : string) : s ++ "" = s.
Proof. induction s as [|c s IH]; cbn; [reflexivity | now rewrite IH]. Qed.

Lemma contains_suffix (pre s : string) : contains (pre ++ s) s.
Proof. exists pre, "". now rewrite append_empty_r. Qed.

Lemma nonempty_true_iff (s : string) : nonempty s = true <-> s <> "".
Proof.
  unfold nonempty. destruct (String.eqb_spec s ""); cbn; split; congruence.
Qed.

Example trim_non_breaking_space :
  trim (nbsp ++ " a " ++ ideographic_space ++ "b" ++ ideographic_space ++ nbsp)
  = "a " ++ ideographic_space ++ "b".
Proof. reflexivity. Qed.

Example blank_note_of_wide_spaces :
  Gated.instructionOf (VStr (ideographic_space ++ nbsp))
  = VStr Gated.DEFAULT_INSTRUCTION.
Proof. reflexivity. Qed.

Example finalResult_of_non_breaking_space : finalResult (VStr nbsp) = "".
Proof. reflexivity. Qed.

(* ================================================================== *)
(** * White space *)
(* ================================================================== *)

Lemma append_assoc (a b c : string) : (a ++ b) ++ c = a ++ (b ++ c).
Proof. induction a as [|x a IH]; cbn; [reflexivity | now rewrite IH]. Qed.

Lemma length_append (a b : string) :
  String.length (a ++ b) = String.length a + String.length b.
Proof. induction a as [|x a IH]; cbn; [reflexivity | now rewrite IH]. Qed.

Lemma append_inv_head (a x y : string) : a ++ x = a ++ y -> x = y.
Proof. induction a as [|c a IH]; cbn; [auto | intros [= H]; auto]. Qed.

Lemma strip_prefix_spec (p s r : string) : strip_prefix p s = Some r <-> s = p ++ r.
Proof.
  revert s. induction p as [|a p IH]; intros s; cbn.
  - split; [now intros [= ->] | now intros ->].
  - destruct s as [|b s]; [split; discriminate|].
    destruct (Ascii.eqb_spec a b) as [->|ne].
    + rewrite IH. split; [now intros -> | now intros [= ->]].
    + split; [discriminate | intros [= H _]; congruence].
Qed.

Lemma strip_first_some l s r :
  strip_first l s = Some r -> exists p, In p l /\ s = p ++ r.
Proof.
  induction l as [|p l IH]; cbn; [discriminate|].
  destruct (strip_prefix p s) as [r'|] eqn:E.
  - intros [= ->]. exists p. split; [now left | now apply strip_prefix_spec].
  - intros H. destruct (IH H) as (q & Hq & Hs). exists q. split; [now right | exact Hs].
Qed.

Lemma strip_first_none l s :
  strip_first l s = None -> forall p r, In p l -> s <> p ++ r.
Proof.
  induction l as [|q l IH]; cbn; [intros _ p r []|].
  destruct (strip_prefix q s) as [r'|] eqn:E; [discriminate|].
  intros H p r [-> | Hin] Hs.
  - apply strip_prefix_spec in Hs. congruence.
  - exact (IH H p r Hin Hs).
Qed.

Lemma common_start (a b x y : string) :
  a ++ x = b ++ y -> (exists z, b = a ++ z) \/ (exists z, a = b ++ z).
Proof.
  revert b. induction a as [|c a IH]; intros b H.
  - left. exists b. reflexivity.
  - destruct b as [|d b]; [right; exists (String c a); reflexivity|].
    cbn in H. injection H as -> H. destruct (IH b H) as [(z & ->) | (z & ->)].
    + left. exists z. reflexivity.
    + right. exists z. reflexivity.
Qed.

(** No white-space code point begins with another one, so the code point
    at the front of a string is determined. *)
Lemma white_space_prefix_free a b z :
  In a WHITE_SPACE -> In b WHITE_SPACE -> b = a ++ z -> a = b.
Proof.
  intros Ha Hb Hz.
  assert (Hpf : prefix_free WHITE_SPACE = true) by reflexivity.
  unfold prefix_free in Hpf. rewrite forallb_forall in Hpf.
  specialize (Hpf a Ha). rewrite forallb_forall in Hpf. specialize (Hpf b Hb).
  apply strip_prefix_spec in Hz. rewrite Hz in Hpf. now apply String.eqb_eq.
Qed.

Lemma white_space_unique a b x y :
  In a WHITE_SPACE -> In b WHITE_SPACE -> a ++ x = b ++ y -> a = b /\ x = y.
Proof.
  intros Ha Hb H.
  assert (a = b) as ->.
  { destruct (common_start _ _ _ _ H) as [(z & Hz) | (z & Hz)].
    - now apply (white_space_prefix_free a b z).
    - symmetry. now apply (white_space_prefix_free b a z). }
  split; [reflexivity | now apply append_inv_head in H].
Qed.

Lemma white_space_nonempty ws : In ws WHITE_SPACE -> 1 <= String.length ws.
Proof.
  intros H.
  assert (Hne : forallb (fun s => 1 <=? String.length s)%nat WHITE_SPACE = true)
    by reflexivity.
  rewrite forallb_forall in Hne. apply Nat.leb_le. now apply Hne.
Qed.

Lemma strip_white_space_app ws s :
  In ws WHITE_SPACE -> strip_white_space (ws ++ s) = Some s.
Proof.
  intros Hin. unfold strip_white_space.
  destruct (strip_first WHITE_SPACE (ws ++ s)) as [r|] eqn:E.
  - destruct (strip_first_some _ _ _ E) as (p & Hp & Hs).
    destruct (white_space_unique ws p s r Hin Hp Hs) as (_ & ->). reflexivity.
  - exfalso. exact (strip_first_none _ _ E ws s Hin eq_refl).
Qed.

Lemma trimStart_fuel_any n m s :
  String.length s <= n -> String.length s <= m ->
  trimStart_fuel n s = trimStart_fuel m s.
Proof.
  revert m s. induction n as [|n IH]; intros m s Hn Hm.
  - destruct s; [|cbn in Hn; lia]. destruct m; reflexivity.
  - cbn [trimStart_fuel]. destruct (strip_white_space s) as [r|] eqn:E.
    + destruct (strip_first_some _ _ _ E) as (p & Hp & ->).
      pose proof (white_space_nonempty p Hp) as Hlen.
      rewrite length_append in *.
      destruct m as [|m]; [lia|]. cbn [trimStart_fuel]. rewrite E.
      apply IH; lia.
    + destruct m; cbn [trimStart_fuel]; [reflexivity | now rewrite E].
Qed.

Lemma trimStart_step ws s : In ws WHITE_SPACE -> trimStart (ws ++ s) = trimStart s.
Proof.
  intros Hin. unfold trimStart at 1. rewrite length_append.
  pose proof (white_space_nonempty ws Hin).
  destruct (String.length ws + String.length s) as [|k] eqn:Ek; [lia|].
  cbn [trimStart_fuel]. rewrite strip_white_space_app by assumption.
  unfold trimStart. apply trimStart_fuel_any; lia.
Qed.

Lemma trimStart_fixed s : strip_white_space s = None -> trimStart s = s.
Proof.
  intros H. unfold trimStart.
  destruct (String.length s); cbn [trimStart_fuel]; [reflexivity | now rewrite H].
Qed.

(** [trimStart] takes a run of white space off the front and stops at
    something that is not white space. *)
Lemma trimStart_split s :
  exists b,
    Blank b /\ s = b ++ trimStart s /\ strip_white_space (trimStart s) = None.
Proof.
  remember (String.length s) as n eqn:Hn. revert s Hn.
  induction n as [n IH] using lt_wf_ind. intros s Hn.
  destruct (strip_white_space s) as [r|] eqn:E.
  - destruct (strip_first_some _ _ _ E) as (p & Hp & ->).
    pose proof (white_space_nonempty p Hp) as Hlen.
    rewrite length_append in Hn.
    destruct (IH (String.length r) ltac:(lia) r eq_refl) as (b & Hb & Hr & Hnone).
    exists (p ++ b). rewrite trimStart_step by assumption.
    split; [now constructor|]. split; [|assumption].
    rewrite append_assoc. now rewrite <- Hr.
  - exists "". rewrite trimStart_fixed by assumption.
    split; [constructor|]. split; [reflexivity | assumption].
Qed.

Lemma Blank_trimStart s : Blank s -> trimStart s = "".
Proof.
  induction 1 as [|ws s Hin Hb IH]; [reflexivity|].
  now rewrite trimStart_step.
Qed.

Lemma all_white_space_Blank s : all_white_space s = true <-> Blank s.
Proof.
  unfold all_white_space. rewrite String.eqb_eq. split.
  - intros H. destruct (trimStart_split s) as (b & Hb & Hs & _).
    rewrite H, append_empty_r in Hs. now subst.
  - apply Blank_trimStart.
Qed.

Lemma Blank_app a b : Blank a -> Blank b -> Blank (a ++ b).
Proof.
  induction 1 as [|ws s Hin Hs IH]; intros Hb; [exact Hb|].
  rewrite append_assoc. constructor; auto.
Qed.

Lemma trimEnd_split s : exists b, Blank b /\ s = trimEnd s ++ b.
Proof.
  induction s as [|c s IH]; [exists ""; split; [constructor | reflexivity]|].
  cbn [trimEnd]. destruct (all_white_space (String c s)) eqn:E.
  - exists (String c s). split; [now apply all_white_space_Blank | reflexivity].
  - destruct IH as (b & Hb & Hs). exists b. split; [assumption|].
    cbn. now rewrite <- Hs.
Qed.

Lemma trimEnd_no_suffix s pre ws : In ws WHITE_SPACE -> trimEnd s <> pre ++ ws.
Proof.
  intros Hin. pose proof (white_space_nonempty ws Hin) as Hl.
  revert pre. induction s as [|c s IH]; intros pre H.
  - apply (f_equal String.length) in H. rewrite length_append in H. cbn in H. lia.
  - cbn [trimEnd] in H. destruct (all_white_space (String c s)) eqn:E.
    + apply (f_equal String.length) in H. rewrite length_append in H. cbn in H. lia.
    + destruct pre as [|d pre].
      * cbn in H. destruct (trimEnd_split (String c s)) as (b & Hb & Hs).
        cbn [trimEnd] in Hs. rewrite E, H in Hs.
        assert (Hblank : Blank (String c s)) by (rewrite Hs; now constructor).
        apply all_white_space_Blank in Hblank. congruence.
      * cbn in H. injection H as _ H. exact (IH pre H).
Qed.

Lemma trimEnd_keeps_start t :
  strip_white_space t = None -> strip_white_space (trimEnd t) = None.
Proof.
  intros Hnone. destruct (strip_white_space (trimEnd t)) as [r|] eqn:E; [|reflexivity].
  exfalso. destruct (strip_first_some _ _ _ E) as (p & Hp & Hs).
  destruct (trimEnd_split t) as (b & _ & Ht).
  rewrite Hs, append_assoc in Ht.
  exact (strip_first_none _ _ Hnone p _ Hp Ht).
Qed.

Lemma trimEnd_idempotent s : trimEnd (trimEnd s) = trimEnd s.
Proof.
  induction s as [|c s IH]; [reflexivity|].
  cbn [trimEnd]. destruct (all_white_space (String c s)) eqn:E; [reflexivity|].
  cbn [trimEnd]. destruct (all_white_space (String c (trimEnd s))) eqn:E'.
  - exfalso. apply all_white_space_Blank in E'.
    destruct (trimEnd_split s) as (b & Hb & Hs).
    assert (Hblank : Blank (String c s)).
    { rewrite Hs. change (Blank (String c (trimEnd s) ++ b)). now apply Blank_app. }
    apply all_white_space_Blank in Hblank. congruence.
  - now rewrite IH.
Qed.

Lemma trim_no_prefix s ws rest : In ws WHITE_SPACE -> trim s <> ws ++ rest.
Proof.
  intros Hin H. destruct (trimStart_split s) as (_ & _ & _ & Hnone).
  apply trimEnd_keeps_start in Hnone.
  exact (strip_first_none _ _ Hnone ws rest Hin H).
Qed.

Lemma trim_idempotent s : trim (trim s) = trim s.
Proof.
  unfold trim at 1. rewrite trimStart_fixed.
  - unfold trim. apply trimEnd_idempotent.
  - unfold trim. apply trimEnd_keeps_start.
    now destruct (trimStart_split s) as (_ & _ & _ & H).
Qed.

Lemma trim_empty_iff s : trim s = "" <-> Blank s.
Proof.
  split.
  - intros H. destruct (trimStart_split s) as (b & Hb & Hs & _).
    destruct (trimEnd_split (trimStart s)) as (b' & Hb' & Ht).
    fold (trim s) in Ht. rewrite H in Ht. cbn in Ht.
    rewrite Hs, Ht. now apply Blank_app.
  - intros H. unfold trim. now rewrite (Blank_trimStart s H).
Qed.

(* ================================================================== *)
(** * The generation step *)
(* ================================================================== *)

Lemma world_eta (w : World) : {| chat := chat w; calls := calls w ++ [] |} = w.
Proof. destruct w; cbn; now rewrite app_nil_r. Qed.

Ltac run_monad :=
  unfold try_catch, bind, ret, throw, invoke, push, chat_length, lift; cbn.

Ltac split_host :=
  match goal with
  | |- context [match generateQuietPrompt ?c with _ => _ end] =>
      destruct (generateQuietPrompt c) eqn:?
  | |- context [match extensionSettings ?c with _ => _ end] =>
      destruct (extensionSettings c) eqn:?
  | |- context [match substituteParams ?c ?t with _ => _ end] =>
      destruct (substituteParams c t) eqn:?
  | |- context [match emit ?c ?e ?n with _ => _ end] =>
      destruct (emit c e n) eqn:?
  | |- context [match addOneMessage ?c ?m with _ => _ end] =>
      destruct (addOneMessage c m) eqn:?
  | |- context [match saveChat ?c with _ => _ end] =>
      destruct (saveChat c) eqn:?
  | |- context [match sd_background_click ?c with _ => _ end] =>
      destruct (sd_background_click c) eqn:?
  end; cbn.

(** The generation step of [Gated] always returns a line; it leaves the
    conversation alone and only calls [substituteParams] and the backend. *)
Lemma gated_generate_returns ctx instruction style maxTokens w :
  exists line evs,
    Gated.generateSceneLine ctx instruction style maxTokens w
      = (inr line, {| chat := chat w; calls := calls w ++ evs |})
    /\ forallb generation_call evs = true.
Proof.
  unfold Gated.generateSceneLine, Gated.getSettings. run_monad.
  destruct (generateQuietPrompt ctx) as [generate|]; cbn.
  - destruct (extensionSettings ctx) as [es|]; cbn.
    + destruct (substituteParams ctx _) as [e|prompt]; cbn.
      * eexists _, [_]. split; reflexivity.
      * match goal with |- context [generate ?a] => destruct (generate a) as [e|result] end;
          cbn; rewrite <- app_assoc; eexists _, [_; _]; split; reflexivity.
    + exists (Gated.testMessage instruction style), []. now rewrite world_eta.
  - exists (Gated.testMessage instruction style), []. now rewrite world_eta.
Qed.

(** What the handlers make of a caught value. *)
Lemma gated_top_handler (error : JsError) (w : World) :
  (lift (read_stack error) ;;
   message <- lift (read_message error) ;;
   ret (OUTCOME_ERROR message))%js w
  = (gated_top_catch error, w).
Proof. destruct error; reflexivity. Qed.

Lemma ungated_top_handler (error : JsError) (w : World) :
  (message <- lift (read_message error) ;; ret (OUTCOME_ERROR message))%js w
  = (ungated_top_catch error, w).
Proof. destruct error; reflexivity. Qed.

Lemma ungated_generation_handler (error : JsError) (w : World) :
  (message <- lift (read_message error) ;;
   ret (Ungated.testMessage_failed message))%js w
  = (ungated_generation_catch error, w).
Proof. destruct error; reflexivity. Qed.

Lemma ungated_generation_catch_raises error t :
  ungated_generation_catch error = inl t ->
  message_TypeError t /\ (error = ThrownUndefined \/ error = ThrownNull).
Proof.
  unfold message_TypeError.
  destruct error; cbn; intros [= <-]; auto.
Qed.

(* ================================================================== *)
(** * Insertion, settings, probe and trigger *)
(* ================================================================== *)

Lemma insert_same : Ungated.insertAssistantMessage = Gated.insertAssistantMessage.
Proof. reflexivity. Qed.

Lemma build_same : Ungated.buildAssistantMessage = Gated.buildAssistantMessage.
Proof. reflexivity. Qed.

(** The message is on the conversation however the rest of the insertion
    goes: the push comes first, and the [MESSAGE_RECEIVED] notification is
    the first call after it. *)
Lemma insert_pushes ctx text w :
  exists r evs,
    Gated.insertAssistantMessage ctx text w
      = (r, {| chat := chat w ++ [Gated.buildAssistantMessage ctx text];
               calls := calls w ++ CEmit MESSAGE_RECEIVED (List.length (chat w)) :: evs |})
    /\ forallb insertion_call evs = true.
Proof.
  unfold Gated.insertAssistantMessage. run_monad.
  rewrite length_app, Nat.add_sub.
  repeat split_host; rewrite <- ?app_assoc; cbn;
    eexists _, _; split; reflexivity.
Qed.

Lemma gated_getSettings_eq ctx w :
  Gated.getSettings ctx w
  = (match extensionSettings ctx with
     | None => inl (TypeError_reading EXTENSION_SETTINGS_KEY)
     | Some es =>
         inr (spread Gated.DEFAULT_SETTINGS
                (match scene_transition_settings es with
                 | Some u => u
                 | None => empty_object
                 end))
     end, w).
Proof. unfold Gated.getSettings. destruct (extensionSettings ctx); reflexivity. Qed.

Lemma ungated_getSettings_eq ctx w :
  Ungated.getSettings ctx w
  = (match extensionSettings ctx with
     | None => inl (TypeError_reading EXTENSION_SETTINGS_KEY)
     | Some es =>
         inr (spread Ungated.DEFAULT_SETTINGS
                (match scene_transition_settings es with
                 | Some u => u
                 | None => empty_object
                 end))
     end, w).
Proof. unfold Ungated.getSettings. destruct (extensionSettings ctx); reflexivity. Qed.

(** The probe has its own [try]/[catch]: it answers a boolean and is the
    only thing it adds to the log. *)
Lemma probe_returns ctx w :
  exists avail,
    Gated.isStableDiffusionAvailable ctx w
      = (inr avail, {| chat := chat w; calls := calls w ++ [CProbeSD] |}).
Proof.
  unfold Gated.isStableDiffusionAvailable. run_monad.
  destruct (extensionSettings ctx) as [es|]; cbn; [|eauto].
  destruct (sd es) as [s|]; cbn; [|eauto].
  destruct (truthy (source s)); cbn; eauto.
Qed.

(** In [Gated] the click is wrapped twice.  The [catch] inside
    [generateBackgroundImage] reads [error.stack] and throws a
    [TypeError] itself when the click threw [undefined] or [null]; the
    [catch] around the trigger then holds that [TypeError], whose [stack]
    can be read.  Nothing gets out of the trigger. *)
Lemma gated_trigger_returns ctx w :
  try_catch (Gated.generateBackgroundImage ctx ;; ret tt)%js
            (fun error => lift (read_stack error) ;; ret tt)%js w
  = (inr tt, {| chat := chat w; calls := calls w ++ [CClickSdBackground] |}).
Proof.
  unfold Gated.generateBackgroundImage. run_monad.
  destruct (sd_background_click ctx) as [[| |message]|[]]; reflexivity.
Qed.

Lemma ungated_background_logs ctx w :
  Ungated.generateBackgroundImage ctx w
    = (sd_background_click ctx,
       {| chat := chat w; calls := calls w ++ [CClickSdBackground] |}).
Proof. reflexivity. Qed.

Lemma ungated_trigger_returns ctx w :
  try_catch (Ungated.generateBackgroundImage ctx ;; ret tt)%js
            (fun _ => ret tt) w
  = (inr tt, {| chat := chat w; calls := calls w ++ [CClickSdBackground] |}).
Proof.
  unfold try_catch, bind. rewrite ungated_background_logs.
  destruct (sd_background_click ctx) as [e|[]]; reflexivity.
Qed.

(* ================================================================== *)
(** * The generation step, case by case *)
(* ================================================================== *)

Lemma gated_generate_unavailable ctx instruction style maxTokens w :
  generateQuietPrompt ctx = None ->
  Gated.generateSceneLine ctx instruction style maxTokens w
  = (inr (Gated.testMessage instruction style), w).
Proof. intros H. unfold Gated.generateSceneLine. rewrite H. reflexivity. Qed.

Lemma ungated_generate_unavailable ctx w :
  generateQuietPrompt ctx = None ->
  Ungated.generateSceneLine ctx w = (inr Ungated.testMessage_unavailable, w).
Proof. intros H. unfold Ungated.generateSceneLine. rewrite H. reflexivity. Qed.

(** The generation step of [Gated] with the backend wired in. *)
Lemma gated_generate_available ctx generate instruction style maxTokens w :
  generateQuietPrompt ctx = Some generate ->
  Gated.generateSceneLine ctx instruction style maxTokens w
  = match extensionSettings ctx with
    | None => (inr (Gated.testMessage instruction style), w)
    | Some es =>
        let settings :=
          spread Gated.DEFAULT_SETTINGS
            (match scene_transition_settings es with
             | Some u => u
             | None => empty_object
             end) in
        let template :=
          Gated.quietPromptTemplate
            (js_or (sceneChangeInstructions settings)
                   (sceneChangeInstructions Gated.DEFAULT_SETTINGS))
            style instruction in
        match substituteParams ctx template with
        | inl _ =>
            (inr (Gated.testMessage instruction style),
             {| chat := chat w; calls := calls w ++ [CSubstituteParams template] |})
        | inr prompt =>
            let args := {| quietPrompt := prompt;
                           quietToLoud := true;
                           maxTokens := Some (Gated.tokenBudget maxTokens) |} in
            (inr (match generate args with
                  | inl _ => Gated.testMessage instruction style
                  | inr result => finalResult result
                  end),
             {| chat := chat w;
                calls := calls w ++ [CSubstituteParams template;
                                     CGenerateQuietPrompt args] |})
        end
    end.
Proof.
  intros Hg. unfold Gated.generateSceneLine, Gated.getSettings. rewrite Hg.
  run_monad.
  destruct (extensionSettings ctx) as [es|]; cbn; [|reflexivity].
  destruct (substituteParams ctx _) as [e|prompt]; cbn; [reflexivity|].
  rewrite <- app_assoc.
  match goal with |- context [generate ?a] => destruct (generate a) as [e|result] end;
    reflexivity.
Qed.

(** The generation step of [Ungated] with the backend wired in: the
    [catch] reads the message of whatever was thrown, and throws itself
    when that was [undefined] or [null]. *)
Lemma ungated_generate_available ctx generate w :
  generateQuietPrompt ctx = Some generate ->
  Ungated.generateSceneLine ctx w
  = match extensionSettings ctx with
    | None =>
        (inr (Ungated.testMessage_failed (reading_text EXTENSION_SETTINGS_KEY)), w)
    | Some es =>
        let settings :=
          spread Ungated.DEFAULT_SETTINGS
            (match scene_transition_settings es with
             | Some u => u
             | None => empty_object
             end) in
        let template :=
          js_String (js_or (sceneChangeInstructions settings)
                           (sceneChangeInstructions Ungated.DEFAULT_SETTINGS)) in
        match substituteParams ctx template with
        | inl e =>
            (ungated_generation_catch e,
             {| chat := chat w; calls := calls w ++ [CSubstituteParams template] |})
        | inr prompt =>
            let args := {| quietPrompt := prompt;
                           quietToLoud := true;
                           maxTokens := None |} in
            (match generate args with
             | inl e => ungated_generation_catch e
             | inr result => inr (finalResult result)
             end,
             {| chat := chat w;
                calls := calls w ++ [CSubstituteParams template;
                                     CGenerateQuietPrompt args] |})
        end
    end.
Proof.
  intros Hg. unfold Ungated.generateSceneLine, Ungated.getSettings. rewrite Hg.
  run_monad.
  destruct (extensionSettings ctx) as [es|]; cbn; [|reflexivity].
  destruct (substituteParams ctx _) as [e|prompt]; cbn; [destruct e; reflexivity|].
  rewrite <- app_assoc.
  match goal with |- context [generate ?a] => destruct (generate a) as [e|result] end;
    [destruct e; reflexivity | reflexivity].
Qed.

(** The generation step of [Ungated] leaves the conversation alone and
    only calls [substituteParams] and the backend; when it raises, what it
    raises is the [TypeError] of its own [catch]. *)
Lemma ungated_generate_returns ctx w :
  exists r evs,
    Ungated.generateSceneLine ctx w
      = (r, {| chat := chat w; calls := calls w ++ evs |})
    /\ forallb generation_call evs = true
    /\ (forall t, r = inl t -> message_TypeError t).
Proof.
  destruct (generateQuietPrompt ctx) as [generate|] eqn:Hg.
  - rewrite (ungated_generate_available _ _ _ Hg).
    destruct (extensionSettings ctx) as [es|].
    + cbv zeta. destruct (substituteParams ctx _) as [e|prompt].
      * eexists _, [_]. split; [reflexivity|]. split; [reflexivity|].
        intros t Ht. now apply ungated_generation_catch_raises in Ht.
      * eexists _, [_; _]. split; [reflexivity|]. split; [reflexivity|].
        intros t Ht.
        match type of Ht with context [generate ?a] =>
          destruct (generate a) as [e|result] end; [|discriminate].
        now apply ungated_generation_catch_raises in Ht.
    + eexists _, []. rewrite world_eta. split; [reflexivity|].
      split; [reflexivity|]. discriminate.
  - rewrite (ungated_generate_unavailable _ _ Hg).
    eexists _, []. rewrite world_eta. split; [reflexivity|].
    split; [reflexivity|]. discriminate.
Qed.

(** Whatever is thrown inside the [try] of [Gated.generateSceneLine], the
    answer is the same [testMessage] as when the backend is not wired in. *)
Lemma gated_generate_raises ctx generate instruction style maxTokens w :
  generateQuietPrompt ctx = Some generate ->
  (forall args, exists e, generate args = inl e) ->
  outcome (Gated.generateSceneLine ctx instruction style maxTokens w)
  = inr (Gated.testMessage instruction style).
Proof.
  intros Hg Hthrows. rewrite (gated_generate_available _ _ _ _ _ _ Hg).
  destruct (extensionSettings ctx) as [es|]; [|reflexivity].
  cbv zeta. destruct (substituteParams ctx _) as [e|prompt]; [reflexivity|].
  match goal with |- context [generate ?a] =>
    destruct (Hthrows a) as (e & He); rewrite He end.
  reflexivity.
Qed.

(** With values whose message can be read, the generation step of
    [Ungated] answers the placeholder with that message. *)
Lemma ungated_generate_raises ctx generate w :
  generateQuietPrompt ctx = Some generate ->
  (forall args, exists e, generate args = inl e /\ readable e) ->
  (forall t e, substituteParams ctx t = inl e -> readable e) ->
  exists text, outcome (Ungated.generateSceneLine ctx w)
               = inr (Ungated.testMessage_failed text).
Proof.
  intros Hg Hthrows Hsub. rewrite (ungated_generate_available _ _ _ Hg).
  destruct (extensionSettings ctx) as [es|]; [|eexists; reflexivity].
  cbv zeta. destruct (substituteParams ctx _) as [e|prompt] eqn:Hs.
  - destruct (Hsub _ _ Hs) as (message & ->). eexists; reflexivity.
  - match goal with |- context [generate ?a] =>
      destruct (Hthrows a) as (e & He & (message & ->)); rewrite He end.
    eexists; reflexivity.
Qed.

(** Without that restriction it answers a line or raises the [TypeError]
    of its own [catch]: it never raises anything else. *)
Lemma ungated_generate_never_raises ctx w :
  generation_throws_readable ctx ->
  exists line, outcome (Ungated.generateSceneLine ctx w) = inr line.
Proof.
  intros (Hsub & Hgen).
  destruct (generateQuietPrompt ctx) as [generate|] eqn:Hg.
  - rewrite (ungated_generate_available _ _ _ Hg).
    destruct (extensionSettings ctx) as [es|]; [|eexists; reflexivity].
    cbv zeta. destruct (substituteParams ctx _) as [e|prompt] eqn:Hs.
    + destruct (Hsub _ _ Hs) as (message & ->). eexists; reflexivity.
    + match goal with |- context [generate ?a] =>
        destruct (generate a) as [e|result] eqn:He end.
      * destruct (Hgen _ _ _ eq_refl He) as (message & ->). eexists; reflexivity.
      * eexists; reflexivity.
  - rewrite (ungated_generate_unavailable _ _ Hg). eexists; reflexivity.
Qed.

(* ================================================================== *)
(** * Every path through [sceneTransitionCallback] *)
(* ================================================================== *)

Lemma nonempty_false (s : string) : nonempty s = false -> s = "".
Proof. unfold nonempty. destruct (String.eqb_spec s ""); cbn; congruence. Qed.

(** The callback as one equation.  The answer of the click does not occur
    on the right-hand side. *)
Lemma gated_callback_unfold ctx named unnamed w :
  Gated.sceneTransitionCallback ctx named unnamed w
  = match Gated.generateSceneLine ctx (Gated.instructionOf unnamed)
            (Gated.styleOf named) (Gated.maxOf named) w with
    | (inl e, w1) => (gated_top_catch e, w1)
    | (inr line, w1) =>
        if nonempty line then
          match Gated.insertAssistantMessage ctx line w1 with
          | (inl e, w2) => (gated_top_catch e, w2)
          | (inr _, w2) =>
              match Gated.getSettings ctx w2 with
              | (inl e, w3) => (gated_top_catch e, w3)
              | (inr settings, w3) =>
                  match Gated.isStableDiffusionAvailable ctx w3 with
                  | (inl e, w4) => (gated_top_catch e, w4)
                  | (inr avail, w4) =>
                      (inr OUTCOME_INSERTED,
                       if truthy (Gated.shouldGenerateBackground
                                    (Gated.generateBgOf named) settings avail)
                       then {| chat := chat w4;
                               calls := calls w4 ++ [CClickSdBackground] |}
                       else w4)
                  end
              end
          end
        else (inr OUTCOME_EMPTY, w1)
    end.
Proof.
  unfold Gated.sceneTransitionCallback.
  unfold try_catch at 1. unfold bind at 1.
  destruct (Gated.generateSceneLine _ _ _ _ _) as [[e|line] w1];
    [destruct e; reflexivity|].
  destruct (nonempty line); [|reflexivity].
  unfold bind at 1.
  destruct (Gated.insertAssistantMessage _ _ _) as [[e|u] w2];
    [destruct e; reflexivity|].
  unfold bind at 1.
  destruct (Gated.getSettings _ _) as [[e|settings] w3];
    [destruct e; reflexivity|].
  unfold bind at 1.
  destruct (Gated.isStableDiffusionAvailable _ _) as [[e|avail] w4];
    [destruct e; reflexivity|].
  unfold bind at 1.
  destruct (truthy _); [|reflexivity].
  rewrite gated_trigger_returns. reflexivity.
Qed.

Lemma ungated_callback_unfold ctx named unnamed w :
  Ungated.sceneTransitionCallback ctx named unnamed w
  = match Ungated.generateSceneLine ctx w with
    | (inl e, w1) => (ungated_top_catch e, w1)
    | (inr line, w1) =>
        if nonempty line then
          match Ungated.insertAssistantMessage ctx line w1 with
          | (inl e, w2) => (ungated_top_catch e, w2)
          | (inr _, w2) =>
              match Ungated.getSettings ctx w2 with
              | (inl e, w3) => (ungated_top_catch e, w3)
              | (inr settings, w3) =>
                  (inr OUTCOME_INSERTED,
                   if truthy (Ungated.shouldGenerateBackground
                                (Ungated.generateBgOf named) settings)
                   then {| chat := chat w3;
                           calls := calls w3 ++ [CClickSdBackground] |}
                   else w3)
              end
          end
        else (inr OUTCOME_EMPTY, w1)
    end.
Proof.
  unfold Ungated.sceneTransitionCallback.
  unfold try_catch at 1. unfold bind at 1.
  destruct (Ungated.generateSceneLine _ _) as [[e|line] w1];
    [destruct e; reflexivity|].
  destruct (nonempty line); [|reflexivity].
  unfold bind at 1.
  destruct (Ungated.insertAssistantMessage _ _ _) as [[e|u] w2];
    [destruct e; reflexivity|].
  unfold bind at 1.
  destruct (Ungated.getSettings _ _) as [[e|settings] w3];
    [destruct e; reflexivity|].
  unfold bind at 1.
  destruct (truthy _); [|reflexivity].
  rewrite ungated_trigger_returns. reflexivity.
Qed.

(** The paths of the [Gated] callback: the line is empty; the insertion
    throws; the settings read after the insertion throws; or the probe
    runs, the trigger fires or not, and the line is reported inserted. *)
Lemma gated_callback_paths ctx named unnamed w :
  exists line gen,
    Gated.generateSceneLine ctx (Gated.instructionOf unnamed)
        (Gated.styleOf named) (Gated.maxOf named) w
      = (inr line, {| chat := chat w; calls := calls w ++ gen |})
    /\ forallb generation_call gen = true
    /\ ((line = ""
         /\ Gated.sceneTransitionCallback ctx named unnamed w
            = (inr OUTCOME_EMPTY, {| chat := chat w; calls := calls w ++ gen |}))
        \/
        (line <> ""
         /\ exists r ins,
             Gated.insertAssistantMessage ctx line
                 {| chat := chat w; calls := calls w ++ gen |}
               = (r, {| chat := chat w ++ [Gated.buildAssistantMessage ctx line];
                        calls := calls w ++ gen ++ ins |})
             /\ forallb insertion_call ins = true
             /\ match r with
                | inl e =>
                    Gated.sceneTransitionCallback ctx named unnamed w
                    = (gated_top_catch e,
                       {| chat := chat w ++ [Gated.buildAssistantMessage ctx line];
                          calls := calls w ++ gen ++ ins |})
                | inr _ =>
                    match extensionSettings ctx with
                    | None =>
                        Gated.sceneTransitionCallback ctx named unnamed w
                        = (inr (OUTCOME_ERROR (reading_text EXTENSION_SETTINGS_KEY)),
                           {| chat := chat w ++ [Gated.buildAssistantMessage ctx line];
                              calls := calls w ++ gen ++ ins |})
                    | Some es =>
                        exists settings avail,
                          Gated.getSettings ctx w = (inr settings, w)
                          /\ Gated.sceneTransitionCallback ctx named unnamed w
                             = (inr OUTCOME_INSERTED,
                                {| chat := chat w ++ [Gated.buildAssistantMessage ctx line];
                                   calls := calls w ++ gen ++ ins ++ CProbeSD ::
                                     (if truthy (Gated.shouldGenerateBackground
                                                   (Gated.generateBgOf named) settings avail)
                                      then [CClickSdBackground] else []) |})
                    end
                end)).
Proof.
  destruct (gated_generate_returns ctx (Gated.instructionOf unnamed)
              (Gated.styleOf named) (Gated.maxOf named) w) as (line & gen & Hgen & Hcalls).
  exists line, gen. split; [exact Hgen|]. split; [exact Hcalls|].
  rewrite gated_callback_unfold, Hgen.
  destruct (nonempty line) eqn:Hne.
  - right. split; [now apply nonempty_true_iff|].
    destruct (insert_pushes ctx line {| chat := chat w; calls := calls w ++ gen |})
      as (r & ins & Hins & Hic).
    cbn [chat calls] in Hins. rewrite <- app_assoc in Hins.
    exists r, (CEmit MESSAGE_RECEIVED (List.length (chat w)) :: ins).
    split; [exact Hins|]. split; [exact Hic|].
    rewrite Hins. destruct r as [e|[]]; [reflexivity|].
    rewrite !gated_getSettings_eq.
    destruct (extensionSettings ctx) as [es|] eqn:Hes; [|reflexivity].
    match goal with |- context [Gated.isStableDiffusionAvailable ctx ?w2] =>
      destruct (probe_returns ctx w2) as (avail & Hp); rewrite Hp end.
    cbn [chat calls].
    eexists _, avail. split; [reflexivity|].
    destruct (truthy _); rewrite <- !app_assoc; reflexivity.
  - left. split; [now apply nonempty_false|]. reflexivity.
Qed.

(** The paths of the [Ungated] callback; there is no probe on any of them.
    The generation step can raise here, and then the [catch] at the top
    turns its [TypeError] into an error string. *)
Lemma ungated_callback_paths ctx named unnamed w :
  exists rg gen,
    Ungated.generateSceneLine ctx w
      = (rg, {| chat := chat w; calls := calls w ++ gen |})
    /\ forallb generation_call gen = true
    /\ match rg with
       | inl t =>
           message_TypeError t
           /\ Ungated.sceneTransitionCallback ctx named unnamed w
              = (ungated_top_catch t, {| chat := chat w; calls := calls w ++ gen |})
       | inr line =>
        (line = ""
         /\ Ungated.sceneTransitionCallback ctx named unnamed w
            = (inr OUTCOME_EMPTY, {| chat := chat w; calls := calls w ++ gen |}))
        \/
        (line <> ""
         /\ exists r ins,
             Ungated.insertAssistantMessage ctx line
                 {| chat := chat w; calls := calls w ++ gen |}
               = (r, {| chat := chat w ++ [Ungated.buildAssistantMessage ctx line];
                        calls := calls w ++ gen ++ ins |})
             /\ forallb insertion_call ins = true
             /\ match r with
                | inl e =>
                    Ungated.sceneTransitionCallback ctx named unnamed w
                    = (ungated_top_catch e,
                       {| chat := chat w ++ [Ungated.buildAssistantMessage ctx line];
                          calls := calls w ++ gen ++ ins |})
                | inr _ =>
                    match extensionSettings ctx with
                    | None =>
                        Ungated.sceneTransitionCallback ctx named unnamed w
                        = (inr (OUTCOME_ERROR (reading_text EXTENSION_SETTINGS_KEY)),
                           {| chat := chat w ++ [Ungated.buildAssistantMessage ctx line];
                              calls := calls w ++ gen ++ ins |})
                    | Some es =>
                        exists settings,
                          Ungated.getSettings ctx w = (inr settings, w)
                          /\ Ungated.sceneTransitionCallback ctx named unnamed w
                             = (inr OUTCOME_INSERTED,
                                {| chat := chat w ++ [Ungated.buildAssistantMessage ctx line];
                                   calls := calls w ++ gen ++ ins ++
                                     (if truthy (Ungated.shouldGenerateBackground
                                                   (Ungated.generateBgOf named) settings)
                                      then [CClickSdBackground] else []) |})
                    end
                end)
       end.
Proof.
  destruct (ungated_generate_returns ctx w) as (rg & gen & Hgen & Hcalls & Hraise).
  exists rg, gen. split; [exact Hgen|]. split; [exact Hcalls|].
  rewrite ungated_callback_unfold, Hgen.
  destruct rg as [t|line]; [split; [now apply Hraise | reflexivity]|].
  destruct (nonempty line) eqn:Hne.
  - right. split; [now apply nonempty_true_iff|].
    rewrite insert_same, build_same.
    destruct (insert_pushes ctx line {| chat := chat w; calls := calls w ++ gen |})
      as (r & ins & Hins & Hic).
    cbn [chat calls] in Hins. rewrite <- app_assoc in Hins.
    exists r, (CEmit MESSAGE_RECEIVED (List.length (chat w)) :: ins).
    split; [exact Hins|]. split; [exact Hic|].
    rewrite Hins. destruct r as [e|[]]; [reflexivity|].
    rewrite !ungated_getSettings_eq.
    destruct (extensionSettings ctx) as [es|] eqn:Hes; [|reflexivity].
    eexists. split; [reflexivity|].
    destruct (truthy _); cbn [chat calls]; rewrite <- ?app_assoc, ?app_nil_r; reflexivity.
  - left. split; [now apply nonempty_false|]. reflexivity.
Qed.

Lemma debug_prefix_gated instruction style :
  prefix "[DEBUG]" (Gated.testMessage instruction style) = true.
Proof. reflexivity. Qed.

Lemma debug_prefix_unavailable :
  prefix "[DEBUG]" Ungated.testMessage_unavailable = true.
Proof. reflexivity. Qed.

Lemma debug_prefix_failed e :
  prefix "[DEBUG]" (Ungated.testMessage_failed e) = true.
Proof. reflexivity. Qed.

Lemma prefix_debug_nonempty (s : string) : prefix "[DEBUG]" s = true -> s <> "".
Proof. intros H ->. discriminate H. Qed.

(* ================================================================== *)
(** * The generation invoker *)
(* ================================================================== *)

(** C2 as stated fails on [Gated]: with a backend that throws
    [Error("boom")], the placeholder is the same text as for a backend
    that is not wired in, and [boom] does not occur in it. *)
Lemma invoke_embeds_message_counterexample :
  boom = Thrown (VStr "boom")
  /\ generateQuietPrompt host_boom = Some (fun _ => inl boom)
  /\ outcome (Gated.generateSceneLine host_boom (VStr "x") VUndefined (VStr "120")
                empty_world)
     = inr "[DEBUG] Scene transition test - x "
  /\ ~ contains "[DEBUG] Scene transition test - x " "boom".
Proof.
  split; [reflexivity|]. split; [reflexivity|]. split; [reflexivity|].
  intros H. apply includes_contains in H. discriminate H.
Qed.

(** C2, amended: [Gated.generateSceneLine] never raises, whatever is
    thrown inside it.  With the backend not wired in, both revisions
    return their diagnostic placeholder.  With the backend wired in and
    throwing on every call, [Gated] returns the same placeholder as when
    it is not wired in (built from note and style, without the error).
    [Ungated] reads the message of what was thrown: when every value
    thrown by [substituteParams] and the backend has a message that can
    be read it never raises, and for a backend that throws a value with
    message [m], once settings and substitution went through, it returns
    ["[DEBUG] Scene transition failed: "] followed by [m], which it
    therefore contains. *)
Theorem invoke_never_raises :
  forall ctx w,
    (forall instruction style maxTokens,
        exists line w',
          Gated.generateSceneLine ctx instruction style maxTokens w = (inr line, w'))
    /\ (generation_throws_readable ctx ->
        exists line w', Ungated.generateSceneLine ctx w = (inr line, w'))
    /\ (generateQuietPrompt ctx = None ->
        (forall instruction style maxTokens,
            Gated.generateSceneLine ctx instruction style maxTokens w
            = (inr (Gated.testMessage instruction style), w))
        /\ Ungated.generateSceneLine ctx w = (inr Ungated.testMessage_unavailable, w))
    /\ (forall generate,
           generateQuietPrompt ctx = Some generate ->
           (forall args, exists e, generate args = inl e) ->
           forall instruction style maxTokens,
             outcome (Gated.generateSceneLine ctx instruction style maxTokens w)
             = inr (Gated.testMessage instruction style))
    /\ (forall generate m es,
           generateQuietPrompt ctx = Some generate ->
           (forall args, generate args = inl (Thrown m)) ->
           extensionSettings ctx = Some es ->
           (forall t, exists p, substituteParams ctx t = inr p) ->
           outcome (Ungated.generateSceneLine ctx w)
           = inr ("[DEBUG] Scene transition failed: " ++ js_String m)
           /\ contains ("[DEBUG] Scene transition failed: " ++ js_String m)
                       (js_String m)).
Proof.
  intros ctx w. split; [|split; [|split; [|split]]].
  - intros i s m. destruct (gated_generate_returns ctx i s m w) as (line & evs & H & _).
    eauto.
  - intros Hreadable.
    destruct (ungated_generate_never_raises ctx w Hreadable) as (line & Hline).
    destruct (Ungated.generateSceneLine ctx w) as [r w'] eqn:E.
    cbn in Hline. subst r. eauto.
  - intros Hnone. split.
    + intros i s m. now apply gated_generate_unavailable.
    + now apply ungated_generate_unavailable.
  - intros generate Hg Hthrows i s m.
    now apply (gated_generate_raises ctx generate).
  - intros generate m es Hg Hthrows Hes Hsub. split.
    + rewrite (ungated_generate_available _ _ _ Hg), Hes. cbv zeta.
      match goal with |- context [substituteParams ctx ?t] =>
        destruct (Hsub t) as (p & Hp); rewrite Hp end.
      rewrite Hthrows. reflexivity.
    + apply contains_suffix.
Qed.

Lemma invoke_never_raises_witness :
  (Gated.generateSceneLine host_unwired (VStr "to the docks") (VStr "noir") (VStr "120")
       empty_world
   = (inr "[DEBUG] Scene transition test - to the docks (style: noir)", empty_world)
   /\ Ungated.generateSceneLine host_unwired empty_world
      = (inr "[DEBUG] Scene transition failed", empty_world))
  /\ (outcome (Gated.generateSceneLine host_boom (VStr "to the docks") (VStr "noir")
                 (VStr "120") empty_world)
      = inr "[DEBUG] Scene transition test - to the docks (style: noir)"
      /\ outcome (Ungated.generateSceneLine host_boom empty_world)
         = inr "[DEBUG] Scene transition failed: boom"
      /\ contains "[DEBUG] Scene transition failed: boom" "boom")
  /\ generation_throws_readable host_boom
  /\ exists line w', Ungated.generateSceneLine host_boom empty_world = (inr line, w').
Proof.
  assert (Hreadable : generation_throws_readable host_boom).
  { split.
    - intros t e H. discriminate H.
    - intros generate args e Hg He. injection Hg as <-. injection He as <-.
      exists (VStr "boom"). reflexivity. }
  split; [|split; [|split; [exact Hreadable|]]].
  - destruct (invoke_never_raises host_unwired empty_world) as (_ & _ & H & _).
    destruct (H eq_refl) as (Hg & Hu). split; [|exact Hu].
    exact (Hg (VStr "to the docks") (VStr "noir") (VStr "120")).
  - destruct (invoke_never_raises host_boom empty_world) as (_ & _ & _ & Hgated & H).
    destruct (H (fun _ => inl boom) (VStr "boom") no_extensions eq_refl
                (fun _ => eq_refl) eq_refl (fun t => ex_intro _ t eq_refl))
      as (Hu & Hc).
    split; [|split; [exact Hu | exact Hc]].
    exact (Hgated (fun _ => inl boom) eq_refl (fun _ => ex_intro _ boom eq_refl)
             (VStr "to the docks") (VStr "noir") (VStr "120")).
  - destruct (invoke_never_raises host_boom empty_world) as (_ & H & _).
    exact (H Hreadable).
Defined.

(* ================================================================== *)
(** * The empty line *)
(* ================================================================== *)

Lemma generation_calls_only (l : list Call) :
  forallb generation_call l = true ->
  existsb insertion_call l = false
  /\ existsb is_probe l = false
  /\ existsb is_click l = false.
Proof.
  induction l as [|c l IH]; cbn; [auto|].
  intros H. apply andb_prop in H as [Hc Hl].
  destruct (IH Hl) as (I1 & I2 & I3). rewrite I1, I2, I3.
  destruct c; cbn in *; try discriminate; auto.
Qed.

(** C3: when the generation step yields the empty line, the callback
    returns exactly ["No output generated."] in the world the generation
    step left: the conversation is unchanged, and the only calls made are
    those of the generation step, so there is no insertion call, no probe
    and no click. *)
Theorem empty_line_stops :
  forall ctx named unnamed w,
    (outcome (Gated.generateSceneLine ctx (Gated.instructionOf unnamed)
                (Gated.styleOf named) (Gated.maxOf named) w) = inr "" ->
     Gated.sceneTransitionCallback ctx named unnamed w
     = (inr "No output generated.",
        final (Gated.generateSceneLine ctx (Gated.instructionOf unnamed)
                 (Gated.styleOf named) (Gated.maxOf named) w))
     /\ chat (final (Gated.sceneTransitionCallback ctx named unnamed w)) = chat w
     /\ exists evs,
         calls (final (Gated.sceneTransitionCallback ctx named unnamed w))
         = (calls w ++ evs)%list
         /\ existsb insertion_call evs = false
         /\ existsb is_probe evs = false
         /\ existsb is_click evs = false)
    /\ (outcome (Ungated.generateSceneLine ctx w) = inr "" ->
        Ungated.sceneTransitionCallback ctx named unnamed w
        = (inr "No output generated.", final (Ungated.generateSceneLine ctx w))
        /\ chat (final (Ungated.sceneTransitionCallback ctx named unnamed w)) = chat w
        /\ exists evs,
            calls (final (Ungated.sceneTransitionCallback ctx named unnamed w))
            = (calls w ++ evs)%list
            /\ existsb insertion_call evs = false
            /\ existsb is_probe evs = false
            /\ existsb is_click evs = false).
Proof.
  intros ctx named unnamed w. split; intros Hempty.
  - destruct (gated_callback_paths ctx named unnamed w)
      as (line & gen & Hgen & Hcalls & [[Hl Hcb] | [Hl _]]);
      rewrite Hgen in Hempty; cbn in Hempty; injection Hempty as ->;
      [|congruence].
    rewrite Hcb, Hgen. cbn. repeat split.
    exists gen. split; [reflexivity|]. now apply generation_calls_only.
  - destruct (ungated_callback_paths ctx named unnamed w)
      as (rg & gen & Hgen & Hcalls & Hpaths).
    rewrite Hgen in Hempty. cbn in Hempty. subst rg.
    destruct Hpaths as [[Hl Hcb] | [Hl _]]; [|congruence].
    rewrite Hcb, Hgen. cbn. repeat split.
    exists gen. split; [reflexivity|]. now apply generation_calls_only.
Qed.

Lemma empty_line_stops_witness :
  (outcome (Gated.sceneTransitionCallback (host_replying (VStr "   ")) no_named
              (VStr "") empty_world) = inr "No output generated."
   /\ chat (final (Gated.sceneTransitionCallback (host_replying (VStr "   ")) no_named
                     (VStr "") empty_world)) = [])
  /\ (outcome (Ungated.sceneTransitionCallback (host_replying VNull) no_named
                 (VStr "") empty_world) = inr "No output generated."
      /\ chat (final (Ungated.sceneTransitionCallback (host_replying VNull) no_named
                        (VStr "") empty_world)) = []).
Proof.
  split.
  - destruct (empty_line_stops (host_replying (VStr "   ")) no_named (VStr "") empty_world)
      as (H & _).
    destruct (H eq_refl) as (Hcb & Hchat & _).
    split; [now rewrite Hcb | exact Hchat].
  - destruct (empty_line_stops (host_replying VNull) no_named (VStr "") empty_world)
      as (_ & H).
    destruct (H eq_refl) as (Hcb & Hchat & _).
    split; [now rewrite Hcb | exact Hchat].
Defined.

(* ================================================================== *)
(** * A non-empty line is always pushed *)
(* ================================================================== *)

Lemma gated_top_catch_not_empty e : gated_top_catch e <> inr "No output generated.".
Proof. destruct e; discriminate. Qed.

Lemma ungated_top_catch_not_empty e : ungated_top_catch e <> inr "No output generated.".
Proof. destruct e; discriminate. Qed.

Lemma gated_top_catch_not_inserted e : gated_top_catch e <> inr "Scene line inserted.".
Proof. destruct e; discriminate. Qed.

Lemma ungated_top_catch_not_inserted e : ungated_top_catch e <> inr "Scene line inserted.".
Proof. destruct e; discriminate. Qed.

Lemma gated_nonempty_line_pushed ctx named unnamed w line :
  outcome (Gated.generateSceneLine ctx (Gated.instructionOf unnamed)
             (Gated.styleOf named) (Gated.maxOf named) w) = inr line ->
  line <> "" ->
  chat (final (Gated.sceneTransitionCallback ctx named unnamed w))
  = (chat w ++ [Gated.buildAssistantMessage ctx line])%list
  /\ outcome (Gated.sceneTransitionCallback ctx named unnamed w)
     <> inr "No output generated.".
Proof.
  intros Hline Hne.
  destruct (gated_callback_paths ctx named unnamed w)
    as (line' & gen & Hgen & _ & [[Hl _] | [_ (r & ins & _ & _ & Hcb)]]);
    rewrite Hgen in Hline; cbn in Hline; injection Hline as ->; [congruence|].
  destruct r as [e|u].
  - rewrite Hcb. split; [reflexivity | apply gated_top_catch_not_empty].
  - destruct (extensionSettings ctx).
    + destruct Hcb as (settings & avail & _ & Hcb). rewrite Hcb.
      split; [reflexivity | discriminate].
    + rewrite Hcb. split; [reflexivity | discriminate].
Qed.

Lemma ungated_nonempty_line_pushed ctx named unnamed w line :
  outcome (Ungated.generateSceneLine ctx w) = inr line ->
  line <> "" ->
  chat (final (Ungated.sceneTransitionCallback ctx named unnamed w))
  = (chat w ++ [Ungated.buildAssistantMessage ctx line])%list
  /\ outcome (Ungated.sceneTransitionCallback ctx named unnamed w)
     <> inr "No output generated.".
Proof.
  intros Hline Hne.
  destruct (ungated_callback_paths ctx named unnamed w)
    as (rg & gen & Hgen & _ & Hpaths).
  rewrite Hgen in Hline. cbn in Hline. subst rg.
  destruct Hpaths as [[Hl _] | [_ (r & ins & _ & _ & Hcb)]]; [congruence|].
  destruct r as [e|u].
  - rewrite Hcb. split; [reflexivity | apply ungated_top_catch_not_empty].
  - destruct (extensionSettings ctx).
    + destruct Hcb as (settings & _ & Hcb). rewrite Hcb.
      split; [reflexivity | discriminate].
    + rewrite Hcb. split; [reflexivity | discriminate].
Qed.

(** When the generation step of [Ungated] raises, the run answers an
    error string and the conversation is as it was. *)
Lemma ungated_generation_raised ctx named unnamed w t :
  outcome (Ungated.generateSceneLine ctx w) = inl t ->
  message_TypeError t
  /\ Ungated.sceneTransitionCallback ctx named unnamed w
     = (ungated_top_catch t, final (Ungated.generateSceneLine ctx w))
  /\ chat (final (Ungated.sceneTransitionCallback ctx named unnamed w)) = chat w.
Proof.
  intros Ht.
  destruct (ungated_callback_paths ctx named unnamed w)
    as (rg & gen & Hgen & _ & Hpaths).
  rewrite Hgen in Ht. cbn in Ht. subst rg. destruct Hpaths as (Htype & Hcb).
  rewrite Hcb, Hgen. repeat split. exact Htype.
Qed.

(** C9: with the backend not wired in, both revisions produce a line
    that begins with ["[DEBUG]"] and is not empty; the callback then
    never answers ["No output generated."], and the placeholder is on the
    conversation as the text of an assistant message.  The same holds in
    [Gated] when the backend throws on every call, whatever it throws,
    and in [Ungated] when what is thrown has a message that can be read.
    In [Ungated], when the backend rejects with [undefined] or [null],
    the [catch] of the generation step throws itself: no placeholder is
    produced, the run answers an error string and nothing is inserted. *)
Theorem placeholder_is_inserted :
  forall ctx named unnamed w,
    ((generateQuietPrompt ctx = None
      \/ exists generate,
          generateQuietPrompt ctx = Some generate
          /\ forall args, exists e, generate args = inl e) ->
     exists line,
        outcome (Gated.generateSceneLine ctx (Gated.instructionOf unnamed)
                   (Gated.styleOf named) (Gated.maxOf named) w) = inr line
        /\ prefix "[DEBUG]" line = true
        /\ line <> ""
        /\ outcome (Gated.sceneTransitionCallback ctx named unnamed w)
           <> inr "No output generated."
        /\ chat (final (Gated.sceneTransitionCallback ctx named unnamed w))
           = (chat w ++ [{| is_user := false; name := charName ctx;
                            send_date := now ctx; mes := line |}])%list)
    /\ ((generateQuietPrompt ctx = None
         \/ exists generate,
             generateQuietPrompt ctx = Some generate
             /\ (forall args, exists e, generate args = inl e /\ readable e)
             /\ (forall t e, substituteParams ctx t = inl e -> readable e)) ->
        exists line,
           outcome (Ungated.generateSceneLine ctx w) = inr line
           /\ prefix "[DEBUG]" line = true
           /\ line <> ""
           /\ outcome (Ungated.sceneTransitionCallback ctx named unnamed w)
              <> inr "No output generated."
           /\ chat (final (Ungated.sceneTransitionCallback ctx named unnamed w))
              = (chat w ++ [{| is_user := false; name := charName ctx;
                               send_date := now ctx; mes := line |}])%list)
    /\ (forall generate es e,
           generateQuietPrompt ctx = Some generate ->
           extensionSettings ctx = Some es ->
           (forall t, exists p, substituteParams ctx t = inr p) ->
           (forall args, generate args = inl e) ->
           e = ThrownUndefined \/ e = ThrownNull ->
           (exists t, outcome (Ungated.generateSceneLine ctx w) = inl t)
           /\ (exists text,
                  outcome (Ungated.sceneTransitionCallback ctx named unnamed w)
                  = inr ("Error: Cannot read properties of " ++ text))
           /\ chat (final (Ungated.sceneTransitionCallback ctx named unnamed w))
              = chat w).
Proof.
  intros ctx named unnamed w. split; [|split].
  - intros Hfail.
    assert (HG : exists line,
               outcome (Gated.generateSceneLine ctx (Gated.instructionOf unnamed)
                          (Gated.styleOf named) (Gated.maxOf named) w) = inr line
               /\ prefix "[DEBUG]" line = true).
    { destruct Hfail as [Hnone | (generate & Hsome & Hthrows)].
      - eexists. rewrite gated_generate_unavailable by assumption.
        split; [reflexivity | apply debug_prefix_gated].
      - eexists. rewrite (gated_generate_raises ctx generate) by assumption.
        split; [reflexivity | apply debug_prefix_gated]. }
    destruct HG as (line & Hline & Hp). exists line.
    pose proof (prefix_debug_nonempty _ Hp) as Hne.
    destruct (gated_nonempty_line_pushed ctx named unnamed w line Hline Hne) as (Hc & Ho).
    repeat split; assumption.
  - intros Hfail.
    assert (HU : exists line,
               outcome (Ungated.generateSceneLine ctx w) = inr line
               /\ prefix "[DEBUG]" line = true).
    { destruct Hfail as [Hnone | (generate & Hsome & Hthrows & Hsub)].
      - eexists. rewrite ungated_generate_unavailable by assumption.
        split; [reflexivity | apply debug_prefix_unavailable].
      - destruct (ungated_generate_raises ctx generate w Hsome Hthrows Hsub)
          as (text & He).
        eexists. split; [exact He | apply debug_prefix_failed]. }
    destruct HU as (line & Hline & Hp). exists line.
    pose proof (prefix_debug_nonempty _ Hp) as Hne.
    destruct (ungated_nonempty_line_pushed ctx named unnamed w line Hline Hne) as (Hc & Ho).
    repeat split; assumption.
  - intros generate es e Hg Hes Hsub Hthrows Hnullish.
    assert (Hraise : exists t, outcome (Ungated.generateSceneLine ctx w) = inl t).
    { rewrite (ungated_generate_available _ _ _ Hg), Hes. cbv zeta.
      match goal with |- context [substituteParams ctx ?t] =>
        destruct (Hsub t) as (p & Hp); rewrite Hp end.
      rewrite Hthrows. destruct Hnullish as [-> | ->]; eexists; reflexivity. }
    split; [exact Hraise|]. destruct Hraise as (t & Ht).
    destruct (ungated_generation_raised ctx named unnamed w t Ht)
      as (Htype & Hcb & Hchat).
    split; [|exact Hchat]. rewrite Hcb.
    destruct Htype as [-> | ->]; eexists; reflexivity.
Qed.

Lemma placeholder_is_inserted_witness :
  (outcome (Gated.sceneTransitionCallback host_unwired no_named (VStr "") empty_world)
   <> inr "No output generated."
   /\ outcome (Ungated.sceneTransitionCallback host_unwired no_named (VStr "") empty_world)
      <> inr "No output generated.")
  /\ (outcome (Gated.sceneTransitionCallback host_backend_rejects_undefined no_named
                 (VStr "") empty_world)
      <> inr "No output generated."
      /\ outcome (Ungated.sceneTransitionCallback host_boom no_named (VStr "") empty_world)
         <> inr "No output generated.")
  /\ (outcome (Ungated.generateSceneLine host_backend_rejects_undefined empty_world)
      = inl (TypeError_reading "message")
      /\ outcome (Ungated.sceneTransitionCallback host_backend_rejects_undefined no_named
                    (VStr "") empty_world)
         = inr "Error: Cannot read properties of undefined (reading 'message')"
      /\ chat (final (Ungated.sceneTransitionCallback host_backend_rejects_undefined
                        no_named (VStr "") empty_world)) = []).
Proof.
  split; [|split].
  - destruct (placeholder_is_inserted host_unwired no_named (VStr "") empty_world)
      as (HG & HU & _).
    destruct (HG (or_introl eq_refl)) as (l1 & _ & _ & _ & H1 & _).
    destruct (HU (or_introl eq_refl)) as (l2 & _ & _ & _ & H2 & _).
    split; assumption.
  - destruct (placeholder_is_inserted host_backend_rejects_undefined no_named (VStr "")
                empty_world) as (HG & _).
    destruct (HG (or_intror (ex_intro _ (fun _ => inl ThrownUndefined)
                               (conj eq_refl
                                  (fun _ => ex_intro _ ThrownUndefined eq_refl)))))
      as (l1 & _ & _ & _ & H1 & _).
    destruct (placeholder_is_inserted host_boom no_named (VStr "") empty_world)
      as (_ & HU & _).
    destruct (HU (or_intror
                    (ex_intro _ (fun _ => inl boom)
                       (conj eq_refl
                          (conj (fun _ => ex_intro _ boom
                                            (conj eq_refl
                                               (ex_intro _ (VStr "boom") eq_refl)))
                                (fun t e (H : inr t = inl e) =>
                                   match H in (_ = y)
                                         return (match y with
                                                 | inl _ => readable e
                                                 | inr _ => True
                                                 end)
                                   with eq_refl => I end))))))
      as (l2 & _ & _ & _ & H2 & _).
    split; assumption.
  - destruct (placeholder_is_inserted host_backend_rejects_undefined no_named (VStr "")
                empty_world) as (_ & _ & H).
    destruct (H (fun _ => inl ThrownUndefined) no_extensions ThrownUndefined
                eq_refl eq_refl (fun t => ex_intro _ t eq_refl) (fun _ => eq_refl)
                (or_introl eq_refl)) as (_ & _ & Hchat).
    split; [reflexivity|]. split; [reflexivity | exact Hchat].
Defined.

(* ================================================================== *)
(** * Failures of the insertion and of the settings read after it *)
(* ================================================================== *)

Lemma gated_generate_keeps_chat ctx instruction style maxTokens w line w1 :
  Gated.generateSceneLine ctx instruction style maxTokens w = (inr line, w1) ->
  chat w1 = chat w.
Proof.
  intros H. destruct (gated_generate_returns ctx instruction style maxTokens w)
    as (l & evs & Hg & _).
  rewrite Hg in H. injection H as _ <-. reflexivity.
Qed.

Lemma ungated_generate_keeps_chat ctx w r w1 :
  Ungated.generateSceneLine ctx w = (r, w1) -> chat w1 = chat w.
Proof.
  intros H. destruct (ungated_generate_returns ctx w) as (l & evs & Hg & _).
  rewrite Hg in H. injection H as _ <-. reflexivity.
Qed.

Lemma insert_keeps_message ctx text w r w' :
  Gated.insertAssistantMessage ctx text w = (r, w') ->
  chat w' = (chat w ++ [Gated.buildAssistantMessage ctx text])%list.
Proof.
  intros H. destruct (insert_pushes ctx text w) as (r' & evs & Hi & _).
  rewrite Hi in H. injection H as _ <-. reflexivity.
Qed.

(** What the insertion throws is what one of its host calls threw. *)
Lemma insert_throws_from_host ctx text w e w' :
  Gated.insertAssistantMessage ctx text w = (inl e, w') ->
  (exists ev msgId, emit ctx ev msgId = inl e)
  \/ (exists msg, addOneMessage ctx msg = inl e)
  \/ saveChat ctx = inl e.
Proof.
  unfold Gated.insertAssistantMessage. run_monad.
  destruct (emit ctx MESSAGE_RECEIVED _) as [e1|[]] eqn:E1; cbn.
  { intros [= <- _]. left. eauto. }
  destruct (addOneMessage ctx _) as [e2|[]] eqn:E2; cbn.
  { intros [= <- _]. right. left. eauto. }
  destruct (emit ctx CHARACTER_MESSAGE_RENDERED _) as [e3|[]] eqn:E3; cbn.
  { intros [= <- _]. left. eauto. }
  destruct (saveChat ctx) as [e4|[]] eqn:E4; cbn.
  { intros [= <- _]. right. right. reflexivity. }
  discriminate.
Qed.

Lemma insert_throws_readable ctx text w e w' :
  insertion_throws_readable ctx ->
  Gated.insertAssistantMessage ctx text w = (inl e, w') ->
  readable e.
Proof.
  intros (Hemit & Hadd & Hsave) H.
  destruct (insert_throws_from_host _ _ _ _ _ H)
    as [(ev & msgId & He) | [(msg & He) | He]]; eauto.
Qed.

Lemma gated_insertion_failure ctx named unnamed w line w1 e w2 :
  Gated.generateSceneLine ctx (Gated.instructionOf unnamed)
      (Gated.styleOf named) (Gated.maxOf named) w = (inr line, w1) ->
  line <> "" ->
  Gated.insertAssistantMessage ctx line w1 = (inl e, w2) ->
  Gated.sceneTransitionCallback ctx named unnamed w = (gated_top_catch e, w2)
  /\ chat w2 = (chat w ++ [Gated.buildAssistantMessage ctx line])%list.
Proof.
  intros Hgen Hne Hins. split.
  - rewrite gated_callback_unfold, Hgen.
    apply nonempty_true_iff in Hne. rewrite Hne, Hins. reflexivity.
  - rewrite (insert_keeps_message _ _ _ _ _ Hins).
    now rewrite (gated_generate_keeps_chat _ _ _ _ _ _ _ Hgen).
Qed.

Lemma ungated_insertion_failure ctx named unnamed w line w1 e w2 :
  Ungated.generateSceneLine ctx w = (inr line, w1) ->
  line <> "" ->
  Ungated.insertAssistantMessage ctx line w1 = (inl e, w2) ->
  Ungated.sceneTransitionCallback ctx named unnamed w = (ungated_top_catch e, w2)
  /\ chat w2 = (chat w ++ [Ungated.buildAssistantMessage ctx line])%list.
Proof.
  intros Hgen Hne Hins. split.
  - rewrite ungated_callback_unfold, Hgen.
    apply nonempty_true_iff in Hne. rewrite Hne, Hins. reflexivity.
  - rewrite insert_same in Hins. rewrite build_same.
    rewrite (insert_keeps_message _ _ _ _ _ Hins).
    now rewrite (ungated_generate_keeps_chat _ _ _ _ Hgen).
Qed.



(** C10: the push comes first and is never undone.  Whatever the outcome
    of the notifications, the rendering and the save, the conversation
    holds the new message, and the first call after the push is the
    [MESSAGE_RECEIVED] notification for its index.  When one of them
    throws a value with message [m], the callback answers ["Error: "]
    followed by [m], in a world whose conversation still ends with the
    message.  When one of them rejects with [undefined] or [null], the
    [catch] at the top throws a [TypeError] itself: the callback raises
    instead of answering, and the conversation still ends with the
    message. *)
Theorem insertion_is_not_atomic :
  forall ctx named unnamed w,
    (forall text w0,
        exists r evs,
          Gated.insertAssistantMessage ctx text w0
          = (r, {| chat := chat w0 ++ [Gated.buildAssistantMessage ctx text];
                   calls := calls w0 ++
                            CEmit MESSAGE_RECEIVED (List.length (chat w0)) :: evs |})
          /\ Ungated.insertAssistantMessage ctx text w0
             = Gated.insertAssistantMessage ctx text w0)
    /\ (forall line w1 e w2,
           Gated.generateSceneLine ctx (Gated.instructionOf unnamed)
               (Gated.styleOf named) (Gated.maxOf named) w = (inr line, w1) ->
           line <> "" ->
           Gated.insertAssistantMessage ctx line w1 = (inl e, w2) ->
           chat w2 = (chat w ++ [{| is_user := false; name := charName ctx;
                                    send_date := now ctx; mes := line |}])%list
           /\ (forall m, e = Thrown m ->
                  Gated.sceneTransitionCallback ctx named unnamed w
                  = (inr ("Error: " ++ js_String m), w2))
           /\ (e = ThrownUndefined ->
               Gated.sceneTransitionCallback ctx named unnamed w
               = (inl (TypeError_reading "stack"), w2))
           /\ (e = ThrownNull ->
               Gated.sceneTransitionCallback ctx named unnamed w
               = (inl (TypeError_reading_null "stack"), w2)))
    /\ (forall line w1 e w2,
           Ungated.generateSceneLine ctx w = (inr line, w1) ->
           line <> "" ->
           Ungated.insertAssistantMessage ctx line w1 = (inl e, w2) ->
           chat w2 = (chat w ++ [{| is_user := false; name := charName ctx;
                                    send_date := now ctx; mes := line |}])%list
           /\ (forall m, e = Thrown m ->
                  Ungated.sceneTransitionCallback ctx named unnamed w
                  = (inr ("Error: " ++ js_String m), w2))
           /\ (e = ThrownUndefined ->
               Ungated.sceneTransitionCallback ctx named unnamed w
               = (inl (TypeError_reading "message"), w2))
           /\ (e = ThrownNull ->
               Ungated.sceneTransitionCallback ctx named unnamed w
               = (inl (TypeError_reading_null "message"), w2))).
Proof.
  intros ctx named unnamed w. split; [|split].
  - intros text w0. destruct (insert_pushes ctx text w0) as (r & evs & H & _).
    exists r, evs. split; [exact H | reflexivity].
  - intros line w1 e w2 Hgen Hne Hins.
    destruct (gated_insertion_failure _ named unnamed _ _ _ _ _ Hgen Hne Hins)
      as (Hcb & Hchat).
    split; [exact Hchat|]. rewrite Hcb.
    split; [|split]; intros; subst e; reflexivity.
  - intros line w1 e w2 Hgen Hne Hins.
    destruct (ungated_insertion_failure _ named unnamed _ _ _ _ _ Hgen Hne Hins)
      as (Hcb & Hchat).
    split; [exact Hchat|]. rewrite Hcb.
    split; [|split]; intros; subst e; reflexivity.
Qed.

Lemma insertion_is_not_atomic_witness :
  (outcome (Gated.sceneTransitionCallback host_save_fails no_named (VStr "") empty_world)
   = inr "Error: disk full"
   /\ List.map mes
        (chat (final (Gated.sceneTransitionCallback host_save_fails no_named (VStr "")
                        empty_world)))
      = ["Hello there."])
  /\ (outcome (Ungated.sceneTransitionCallback host_emit_fails no_named (VStr "")
                 empty_world)
      = inr "Error: listener failed"
      /\ List.map mes
           (chat (final (Ungated.sceneTransitionCallback host_emit_fails no_named
                           (VStr "") empty_world)))
         = ["Hello there."])
  /\ (outcome (Gated.sceneTransitionCallback host_save_rejects_undefined no_named
                 (VStr "") empty_world)
      = inl (mkError "Cannot read properties of undefined (reading 'stack')")
      /\ List.map mes
           (chat (final (Gated.sceneTransitionCallback host_save_rejects_undefined
                           no_named (VStr "") empty_world)))
         = ["Hello there."])
  /\ (outcome (Ungated.sceneTransitionCallback host_save_rejects_undefined no_named
                 (VStr "") empty_world)
      = inl (mkError "Cannot read properties of undefined (reading 'message')")
      /\ List.map mes
           (chat (final (Ungated.sceneTransitionCallback host_save_rejects_undefined
                           no_named (VStr "") empty_world)))
         = ["Hello there."]).
Proof.
  split; [|split; [|split]].
  - destruct (insertion_is_not_atomic host_save_fails no_named (VStr "") empty_world)
      as (_ & H & _).
    destruct (H "Hello there." _ (mkError "disk full") _ eq_refl
                ltac:(discriminate) eq_refl) as (Hchat & Hcb & _).
    rewrite (Hcb _ eq_refl). split; [reflexivity|].
    cbn [final snd]. rewrite Hchat. reflexivity.
  - destruct (insertion_is_not_atomic host_emit_fails no_named (VStr "") empty_world)
      as (_ & _ & H).
    destruct (H "Hello there." _ (mkError "listener failed") _ eq_refl
                ltac:(discriminate) eq_refl) as (Hchat & Hcb & _).
    rewrite (Hcb _ eq_refl). split; [reflexivity|].
    cbn [final snd]. rewrite Hchat. reflexivity.
  - destruct (insertion_is_not_atomic host_save_rejects_undefined no_named (VStr "")
                empty_world) as (_ & H & _).
    destruct (H "Hello there." _ ThrownUndefined _ eq_refl
                ltac:(discriminate) eq_refl) as (Hchat & _ & Hcb & _).
    rewrite (Hcb eq_refl). split; [reflexivity|].
    cbn [final snd]. rewrite Hchat. reflexivity.
  - destruct (insertion_is_not_atomic host_save_rejects_undefined no_named (VStr "")
                empty_world) as (_ & _ & H).
    destruct (H "Hello there." _ ThrownUndefined _ eq_refl
                ltac:(discriminate) eq_refl) as (Hchat & _ & Hcb & _).
    rewrite (Hcb eq_refl). split; [reflexivity|].
    cbn [final snd]. rewrite Hchat. reflexivity.
Defined.

(* ================================================================== *)
(** * The three answers *)
(* ================================================================== *)

Lemma gated_success ctx named unnamed w line w1 u w2 es :
  Gated.generateSceneLine ctx (Gated.instructionOf unnamed)
      (Gated.styleOf named) (Gated.maxOf named) w = (inr line, w1) ->
  line <> "" ->
  Gated.insertAssistantMessage ctx line w1 = (inr u, w2) ->
  extensionSettings ctx = Some es ->
  outcome (Gated.sceneTransitionCallback ctx named unnamed w) = inr OUTCOME_INSERTED.
Proof.
  intros Hgen Hne Hins Hes.
  rewrite gated_callback_unfold, Hgen.
  apply nonempty_true_iff in Hne. rewrite Hne, Hins.
  rewrite gated_getSettings_eq, Hes.
  destruct (probe_returns ctx w2) as (avail & Hp). rewrite Hp. reflexivity.
Qed.

Lemma ungated_success ctx named unnamed w line w1 u w2 es :
  Ungated.generateSceneLine ctx w = (inr line, w1) ->
  line <> "" ->
  Ungated.insertAssistantMessage ctx line w1 = (inr u, w2) ->
  extensionSettings ctx = Some es ->
  outcome (Ungated.sceneTransitionCallback ctx named unnamed w) = inr OUTCOME_INSERTED.
Proof.
  intros Hgen Hne Hins Hes.
  rewrite ungated_callback_unfold, Hgen.
  apply nonempty_true_iff in Hne. rewrite Hne, Hins.
  rewrite ungated_getSettings_eq, Hes. reflexivity.
Qed.

(** When every value the insertion can throw has a message that can be
    read, the callback answers one of the three strings and does not
    raise. *)
Lemma gated_three_answers ctx named unnamed w :
  insertion_throws_readable ctx ->
  exists s w',
    Gated.sceneTransitionCallback ctx named unnamed w = (inr s, w')
    /\ (s = OUTCOME_INSERTED \/ s = OUTCOME_EMPTY
        \/ exists text, s = OUTCOME_ERROR text).
Proof.
  intros Hreadable.
  destruct (gated_callback_paths ctx named unnamed w)
    as (line & gen & _ & _ & [[_ Hcb] | [_ (r & ins & Hins & _ & Hcb)]]).
  - eexists _, _. split; [exact Hcb | auto].
  - destruct r as [e|u].
    + destruct (insert_throws_readable _ _ _ _ _ Hreadable Hins) as (m & ->).
      eexists _, _. split; [exact Hcb | eauto].
    + destruct (extensionSettings ctx).
      * destruct Hcb as (settings & avail & _ & Hcb).
        eexists _, _. split; [exact Hcb | auto].
      * eexists _, _. split; [exact Hcb | eauto].
Qed.

Lemma ungated_three_answers ctx named unnamed w :
  insertion_throws_readable ctx ->
  exists s w',
    Ungated.sceneTransitionCallback ctx named unnamed w = (inr s, w')
    /\ (s = OUTCOME_INSERTED \/ s = OUTCOME_EMPTY
        \/ exists text, s = OUTCOME_ERROR text).
Proof.
  intros Hreadable.
  destruct (ungated_callback_paths ctx named unnamed w)
    as (rg & gen & _ & _ & Hpaths).
  destruct rg as [t|line].
  - destruct Hpaths as ([-> | ->] & Hcb);
      eexists _, _; (split; [exact Hcb | right; right; eexists; reflexivity]).
  - destruct Hpaths as [[_ Hcb] | [_ (r & ins & Hins & _ & Hcb)]].
    + eexists _, _. split; [exact Hcb | auto].
    + destruct r as [e|u].
      * rewrite insert_same in Hins.
        destruct (insert_throws_readable _ _ _ _ _ Hreadable Hins) as (m & ->).
        eexists _, _. split; [exact Hcb | eauto].
      * destruct (extensionSettings ctx).
        -- destruct Hcb as (settings & _ & Hcb).
           eexists _, _. split; [exact Hcb | auto].
        -- eexists _, _. split; [exact Hcb | eauto].
Qed.




(* ================================================================== *)
(** * The background trigger *)
(* ================================================================== *)

Lemma gated_explicit_truthy v settings avail :
  truthy v = true -> Gated.shouldGenerateBackground v settings avail = v.
Proof. destruct v; cbn; congruence. Qed.

Lemma ungated_explicit_truthy v settings :
  truthy v = true -> Ungated.shouldGenerateBackground v settings = v.
Proof. destruct v; cbn; congruence. Qed.

Lemma existsb_click_end (l : list Call) :
  existsb is_click (l ++ [CClickSdBackground]) = true.
Proof. rewrite existsb_app. cbn. apply orb_true_r. Qed.

Lemma gated_click_is_made ctx named unnamed w line w1 u w2 es :
  Gated.generateSceneLine ctx (Gated.instructionOf unnamed)
      (Gated.styleOf named) (Gated.maxOf named) w = (inr line, w1) ->
  line <> "" ->
  Gated.insertAssistantMessage ctx line w1 = (inr u, w2) ->
  extensionSettings ctx = Some es ->
  truthy (Gated.generateBgOf named) = true ->
  existsb is_click (calls (final (Gated.sceneTransitionCallback ctx named unnamed w)))
  = true.
Proof.
  intros Hgen Hne Hins Hes Hbg.
  rewrite gated_callback_unfold, Hgen.
  apply nonempty_true_iff in Hne. rewrite Hne, Hins.
  rewrite gated_getSettings_eq, Hes.
  destruct (probe_returns ctx w2) as (avail & Hp). rewrite Hp.
  rewrite gated_explicit_truthy by assumption. rewrite Hbg.
  cbn [final snd calls]. apply existsb_click_end.
Qed.

Lemma ungated_click_is_made ctx named unnamed w line w1 u w2 es :
  Ungated.generateSceneLine ctx w = (inr line, w1) ->
  line <> "" ->
  Ungated.insertAssistantMessage ctx line w1 = (inr u, w2) ->
  extensionSettings ctx = Some es ->
  truthy (Ungated.generateBgOf named) = true ->
  existsb is_click (calls (final (Ungated.sceneTransitionCallback ctx named unnamed w)))
  = true.
Proof.
  intros Hgen Hne Hins Hes Hbg.
  rewrite ungated_callback_unfold, Hgen.
  apply nonempty_true_iff in Hne. rewrite Hne, Hins.
  rewrite ungated_getSettings_eq, Hes.
  rewrite ungated_explicit_truthy by assumption. rewrite Hbg.
  cbn [final snd calls]. apply existsb_click_end.
Qed.

(** C6: the answer of the click has no influence on the run.  With the
    click throwing [e] the callback returns the same answer in the same
    world as with the click succeeding; and after a successful insertion
    (and settings read) it answers ["Scene line inserted."] with the
    message on the conversation, also when the explicit flag makes the
    click happen, and throw. *)
Theorem background_failure_is_discarded :
  forall ctx named unnamed w e,
    (Gated.sceneTransitionCallback (with_click ctx (inl e)) named unnamed w
     = Gated.sceneTransitionCallback (with_click ctx (inr tt)) named unnamed w
     /\ forall line w1 u w2 es,
         Gated.generateSceneLine (with_click ctx (inl e)) (Gated.instructionOf unnamed)
             (Gated.styleOf named) (Gated.maxOf named) w = (inr line, w1) ->
         line <> "" ->
         Gated.insertAssistantMessage (with_click ctx (inl e)) line w1 = (inr u, w2) ->
         extensionSettings ctx = Some es ->
         outcome (Gated.sceneTransitionCallback (with_click ctx (inl e)) named unnamed w)
         = inr "Scene line inserted."
         /\ chat (final (Gated.sceneTransitionCallback (with_click ctx (inl e))
                           named unnamed w))
            = (chat w ++ [{| is_user := false; name := charName ctx;
                             send_date := now ctx; mes := line |}])%list
         /\ (truthy (Gated.generateBgOf named) = true ->
             existsb is_click
               (calls (final (Gated.sceneTransitionCallback (with_click ctx (inl e))
                                named unnamed w))) = true))
    /\
    (Ungated.sceneTransitionCallback (with_click ctx (inl e)) named unnamed w
     = Ungated.sceneTransitionCallback (with_click ctx (inr tt)) named unnamed w
     /\ forall line w1 u w2 es,
         Ungated.generateSceneLine (with_click ctx (inl e)) w = (inr line, w1) ->
         line <> "" ->
         Ungated.insertAssistantMessage (with_click ctx (inl e)) line w1 = (inr u, w2) ->
         extensionSettings ctx = Some es ->
         outcome (Ungated.sceneTransitionCallback (with_click ctx (inl e)) named unnamed w)
         = inr "Scene line inserted."
         /\ chat (final (Ungated.sceneTransitionCallback (with_click ctx (inl e))
                           named unnamed w))
            = (chat w ++ [{| is_user := false; name := charName ctx;
                             send_date := now ctx; mes := line |}])%list
         /\ (truthy (Ungated.generateBgOf named) = true ->
             existsb is_click
               (calls (final (Ungated.sceneTransitionCallback (with_click ctx (inl e))
                                named unnamed w))) = true)).
Proof.
  intros ctx named unnamed w e. split; split.
  - rewrite !gated_callback_unfold. reflexivity.
  - intros line w1 u w2 es Hgen Hne Hins Hes.
    assert (Hes' : extensionSettings (with_click ctx (inl e)) = Some es) by exact Hes.
    split; [|split].
    + apply (gated_success _ _ _ _ _ _ _ _ _ Hgen Hne Hins Hes').
    + refine (proj1 (gated_nonempty_line_pushed _ named unnamed w line _ Hne)).
      now rewrite Hgen.
    + apply (gated_click_is_made _ _ _ _ _ _ _ _ _ Hgen Hne Hins Hes').
  - rewrite !ungated_callback_unfold. reflexivity.
  - intros line w1 u w2 es Hgen Hne Hins Hes.
    assert (Hes' : extensionSettings (with_click ctx (inl e)) = Some es) by exact Hes.
    split; [|split].
    + apply (ungated_success _ _ _ _ _ _ _ _ _ Hgen Hne Hins Hes').
    + refine (proj1 (ungated_nonempty_line_pushed _ named unnamed w line _ Hne)).
      now rewrite Hgen.
    + apply (ungated_click_is_made _ _ _ _ _ _ _ _ _ Hgen Hne Hins Hes').
Qed.

Lemma background_failure_is_discarded_witness :
  (outcome (Gated.sceneTransitionCallback host_click_fails
              (named_with VUndefined VUndefined (VBool true)) (VStr "") empty_world)
   = inr "Scene line inserted."
   /\ List.map mes
        (chat (final (Gated.sceneTransitionCallback host_click_fails
                        (named_with VUndefined VUndefined (VBool true)) (VStr "")
                        empty_world)))
      = ["Hello there."]
   /\ existsb is_click
        (calls (final (Gated.sceneTransitionCallback host_click_fails
                         (named_with VUndefined VUndefined (VBool true)) (VStr "")
                         empty_world))) = true)
  /\
  (outcome (Ungated.sceneTransitionCallback host_click_fails
              (named_with VUndefined VUndefined (VStr "true")) (VStr "") empty_world)
   = inr "Scene line inserted."
   /\ List.map mes
        (chat (final (Ungated.sceneTransitionCallback host_click_fails
                        (named_with VUndefined VUndefined (VStr "true")) (VStr "")
                        empty_world)))
      = ["Hello there."]
   /\ existsb is_click
        (calls (final (Ungated.sceneTransitionCallback host_click_fails
                         (named_with VUndefined VUndefined (VStr "true")) (VStr "")
                         empty_world))) = true).
Proof.
  split.
  - destruct (background_failure_is_discarded (host_replying (VStr "Hello there."))
                (named_with VUndefined VUndefined (VBool true)) (VStr "") empty_world
                (mkError "no such button")) as ((_ & H) & _).
    destruct (H "Hello there." _ tt _ no_extensions eq_refl ltac:(discriminate)
                eq_refl eq_refl) as (Ho & Hc & Hk).
    split; [exact Ho|]. split; [|exact (Hk eq_refl)].
    change host_click_fails
      with (with_click (host_replying (VStr "Hello there.")) (inl (mkError "no such button"))).
    rewrite Hc. reflexivity.
  - destruct (background_failure_is_discarded (host_replying (VStr "Hello there."))
                (named_with VUndefined VUndefined (VStr "true")) (VStr "") empty_world
                (mkError "no such button")) as (_ & (_ & H)).
    destruct (H "Hello there." _ tt _ no_extensions eq_refl ltac:(discriminate)
                eq_refl eq_refl) as (Ho & Hc & Hk).
    split; [exact Ho|]. split; [|exact (Hk eq_refl)].
    change host_click_fails
      with (with_click (host_replying (VStr "Hello there.")) (inl (mkError "no such button"))).
    rewrite Hc. reflexivity.
Defined.

(* ================================================================== *)
(** * The trigger decision *)
(* ================================================================== *)

(** C4: an explicit flag is returned as it is, in both revisions.  Without
    one, [Gated] returns [autoGenerateBackground && isSDAvailable], which
    on a boolean setting is the conjunction, and [Ungated] returns
    [autoGenerateBackground] alone.  In particular an explicit [true]
    beats a [false] setting and an explicit [false] beats a [true] one. *)
Theorem trigger_decision :
  forall settings sdAvailable,
    (forall explicitFlag,
        explicitFlag <> VUndefined ->
        Gated.shouldGenerateBackground explicitFlag settings sdAvailable = explicitFlag
        /\ Ungated.shouldGenerateBackground explicitFlag settings = explicitFlag)
    /\ Gated.shouldGenerateBackground VUndefined settings sdAvailable
       = js_and (autoGenerateBackground settings) (VBool sdAvailable)
    /\ (forall auto,
           autoGenerateBackground settings = VBool auto ->
           Gated.shouldGenerateBackground VUndefined settings sdAvailable
           = VBool (auto && sdAvailable))
    /\ Ungated.shouldGenerateBackground VUndefined settings
       = autoGenerateBackground settings
    /\ (forall instructions,
           Gated.shouldGenerateBackground (VBool true)
             {| sceneChangeInstructions := instructions;
                autoGenerateBackground := VBool false |} sdAvailable = VBool true
           /\ Ungated.shouldGenerateBackground (VBool true)
                {| sceneChangeInstructions := instructions;
                   autoGenerateBackground := VBool false |} = VBool true
           /\ Gated.shouldGenerateBackground (VBool false)
                {| sceneChangeInstructions := instructions;
                   autoGenerateBackground := VBool true |} sdAvailable = VBool false
           /\ Ungated.shouldGenerateBackground (VBool false)
                {| sceneChangeInstructions := instructions;
                   autoGenerateBackground := VBool true |} = VBool false).
Proof.
  intros settings sdAvailable. split; [|split; [|split; [|split]]].
  - intros flag Hdef. destruct flag; cbn; try congruence; auto.
  - reflexivity.
  - intros auto Hauto. cbn. rewrite Hauto. destruct auto; reflexivity.
  - reflexivity.
  - intros instructions. repeat split.
Qed.

Lemma trigger_decision_witness :
  (Gated.shouldGenerateBackground (VBool false) Gated.DEFAULT_SETTINGS true = VBool false
   /\ Ungated.shouldGenerateBackground (VBool false) Ungated.DEFAULT_SETTINGS
      = VBool false)
  /\ Gated.shouldGenerateBackground VUndefined
       {| sceneChangeInstructions := VStr "go"; autoGenerateBackground := VBool true |}
       false
     = VBool false.
Proof.
  split.
  - destruct (trigger_decision Gated.DEFAULT_SETTINGS true) as (H & _).
    destruct (trigger_decision Ungated.DEFAULT_SETTINGS true) as (H' & _).
    split.
    + exact (proj1 (H (VBool false) ltac:(discriminate))).
    + exact (proj2 (H' (VBool false) ltac:(discriminate))).
  - destruct (trigger_decision
                {| sceneChangeInstructions := VStr "go";
                   autoGenerateBackground := VBool true |} false) as (_ & _ & H & _).
    exact (H true eq_refl).
Defined.

(* ================================================================== *)
(** * The directive *)
(* ================================================================== *)

(** C5 as stated fails on the text of the fallback: a blank note resolves
    to the sentence below, not to the one the claim quotes. *)
Lemma generic_note_counterexample :
  trim "   " = ""
  /\ Gated.instructionOf (VStr "   ")
     = VStr "Allow the character to transition to a new scene that makes sense."
  /\ Gated.instructionOf (VStr "   ")
     <> VStr "transition the characters to a new scene that makes sense".
Proof. split; [reflexivity|]. split; [reflexivity | discriminate]. Qed.

(** C5, amended: for every instruction text and every request, the
    template handed to [substituteParams] has the style line
    ["Style hint: " + style] exactly when [named.style] is truthy (for a
    string: not empty), and always has the notes line.  The note is the
    caller's text when that is a string that is not blank, that is, not a
    run of JavaScript white-space code points, and otherwise the built-in
    sentence
    ["Allow the character to transition to a new scene that makes sense."];
    it is never empty. *)
Theorem compose_style_and_notes :
  forall instructions named unnamed,
    exists note,
      Gated.instructionOf unnamed = VStr note
      /\ note <> ""
      /\ ((unnamed = VStr note /\ trim note <> "" /\ ~ Blank note)
          \/ (note = "Allow the character to transition to a new scene that makes sense."
              /\ forall s, unnamed = VStr s -> trim s = "" /\ Blank s))
      /\ Gated.quietPromptTemplate instructions (Gated.styleOf named)
           (Gated.instructionOf unnamed)
         = "[OOC Scene Direction]" ++ nl
           ++ js_String instructions ++ nl
           ++ (if truthy (named_prop named style)
               then "Style hint: " ++ js_String (named_prop named style)
               else "") ++ nl
           ++ "Scene notes: " ++ note ++ nl
           ++ "Return only the character's spoken or internal line (no extra narrative)."
      /\ (forall s, named_prop named style = VStr s ->
                    truthy (named_prop named style) = negb (s =? "")).
Proof.
  intros instructions named unnamed.
  assert (Hstyle : forall note,
             Gated.quietPromptTemplate instructions (Gated.styleOf named) (VStr note)
             = "[OOC Scene Direction]" ++ nl
               ++ js_String instructions ++ nl
               ++ (if truthy (named_prop named style)
                   then "Style hint: " ++ js_String (named_prop named style)
                   else "") ++ nl
               ++ (if nonempty note then "Scene notes: " ++ note else "") ++ nl
               ++ "Return only the character's spoken or internal line (no extra narrative).").
  { intros note. unfold Gated.quietPromptTemplate, Gated.styleOf, js_or.
    destruct (truthy (named_prop named style)) eqn:E; [rewrite E|]; reflexivity. }
  assert (Hdefault :
            exists note,
              VStr Gated.DEFAULT_INSTRUCTION = VStr note /\ note <> ""
              /\ note = "Allow the character to transition to a new scene that makes sense."
              /\ nonempty note = true).
  { eexists. split; [reflexivity|]. split; [discriminate|]. split; reflexivity. }
  destruct unnamed as [| |b|n|s];
    try (destruct Hdefault as (note & Hi & Hne & Hn & Ht); exists note;
         cbn [Gated.instructionOf]; rewrite Hi, Hstyle, Ht;
         repeat split; try assumption;
         [right; split; [assumption | intros s0 Hs0; discriminate Hs0]
         | intros s0 Hs0; rewrite Hs0; reflexivity]).
  cbn [Gated.instructionOf]. destruct (nonempty (trim s)) eqn:Etrim.
  - exists s. apply nonempty_true_iff in Etrim.
    assert (Hs : s <> "") by (intros ->; apply Etrim; reflexivity).
    rewrite Hstyle. rewrite (proj2 (nonempty_true_iff s) Hs).
    repeat split; try assumption.
    + left. split; [reflexivity|]. split; [assumption|].
      intros Hblank. apply Etrim. now apply trim_empty_iff.
    + intros s0 Hs0; rewrite Hs0; reflexivity.
  - destruct Hdefault as (note & Hi & Hne & Hn & Ht). exists note.
    rewrite Hi, Hstyle, Ht. repeat split; try assumption.
    + right. split; [assumption|]. intros s0 Hs0. injection Hs0 as <-.
      apply nonempty_false in Etrim. split; [assumption | now apply trim_empty_iff].
    + intros s0 Hs0; rewrite Hs0; reflexivity.
Qed.

Lemma compose_style_and_notes_witness :
  Gated.quietPromptTemplate (VStr "Go.")
    (Gated.styleOf (named_with (VStr "noir") VUndefined VUndefined))
    (Gated.instructionOf (VStr (nbsp ++ " " ++ ideographic_space)))
  = "[OOC Scene Direction]" ++ nl ++ "Go." ++ nl ++ "Style hint: noir" ++ nl
    ++ "Scene notes: Allow the character to transition to a new scene that makes sense."
    ++ nl
    ++ "Return only the character's spoken or internal line (no extra narrative)."
  /\ truthy (VStr "noir") = true.
Proof.
  destruct (compose_style_and_notes (VStr "Go.")
              (named_with (VStr "noir") VUndefined VUndefined)
              (VStr (nbsp ++ " " ++ ideographic_space)))
    as (note & Hi & _ & Hcase & Heq & Hs).
  split; [|exact (Hs "noir" eq_refl)].
  destruct Hcase as [(Hcaller & Hblank & _) | (Hnote & _)].
  - injection Hcaller as <-. exfalso. apply Hblank. reflexivity.
  - rewrite Hnote in Heq. exact Heq.
Defined.

(* ================================================================== *)
(** * The shape of the call log *)
(* ================================================================== *)

Lemma insertion_calls_only (l : list Call) :
  forallb insertion_call l = true ->
  existsb generation_call l = false
  /\ existsb is_probe l = false
  /\ existsb is_click l = false.
Proof.
  induction l as [|c l IH]; cbn; [auto|].
  intros H. apply andb_prop in H as [Hc Hl].
  destruct (IH Hl) as (I1 & I2 & I3). rewrite I1, I2, I3.
  destruct c; cbn in *; try discriminate; auto.
Qed.

Lemma budgets_none (l : list Call) :
  existsb generation_call l = false -> budgets l = [].
Proof.
  induction l as [|c l IH]; cbn; [reflexivity|].
  intros H. apply orb_false_elim in H as [Hc Hl].
  destruct c; cbn in *; try discriminate; auto.
Qed.

(** The log of a [Gated] run: the calls of the generation step, then
    calls none of which goes to [substituteParams] or the backend. *)
Lemma gated_log_shape ctx named unnamed w :
  exists line gen rest,
    Gated.generateSceneLine ctx (Gated.instructionOf unnamed)
        (Gated.styleOf named) (Gated.maxOf named) w
      = (inr line, {| chat := chat w; calls := calls w ++ gen |})
    /\ calls (final (Gated.sceneTransitionCallback ctx named unnamed w))
       = (calls w ++ gen ++ rest)%list
    /\ forallb generation_call gen = true
    /\ existsb generation_call rest = false
    /\ (outcome (Gated.sceneTransitionCallback ctx named unnamed w)
        = inr OUTCOME_INSERTED -> existsb is_probe rest = true).
Proof.
  destruct (gated_callback_paths ctx named unnamed w)
    as (line & gen & Hgen & Hcalls & [[_ Hcb] | [_ (r & ins & _ & Hic & Hcb)]]).
  - exists line, gen, []. rewrite Hcb, app_nil_r. cbn.
    repeat split; try assumption. discriminate.
  - destruct (insertion_calls_only _ Hic) as (I1 & I2 & I3).
    destruct r as [e|u].
    + exists line, gen, ins. rewrite Hcb. cbn.
      repeat split; try assumption.
      intros H. now apply gated_top_catch_not_inserted in H.
    + destruct (extensionSettings ctx).
      * destruct Hcb as (settings & avail & _ & Hcb).
        eexists line, gen, _. rewrite Hcb. cbn [final snd calls outcome fst].
        split; [exact Hgen|]. split; [reflexivity|]. split; [assumption|].
        rewrite !existsb_app, I1, I2. cbn. split.
        -- destruct (truthy _); reflexivity.
        -- intros _. reflexivity.
      * exists line, gen, ins. rewrite Hcb. cbn.
        repeat split; try assumption. discriminate.
Qed.

(** The log of an [Ungated] run; no probe anywhere. *)
Lemma ungated_log_shape ctx named unnamed w :
  exists rg gen rest,
    Ungated.generateSceneLine ctx w
      = (rg, {| chat := chat w; calls := calls w ++ gen |})
    /\ calls (final (Ungated.sceneTransitionCallback ctx named unnamed w))
       = (calls w ++ gen ++ rest)%list
    /\ forallb generation_call gen = true
    /\ existsb generation_call rest = false
    /\ existsb is_probe (gen ++ rest) = false.
Proof.
  destruct (ungated_callback_paths ctx named unnamed w)
    as (rg & gen & Hgen & Hcalls & Hpaths).
  destruct (generation_calls_only _ Hcalls) as (G1 & G2 & G3).
  destruct rg as [t|line].
  { destruct Hpaths as (_ & Hcb).
    exists (inl t), gen, []. rewrite Hcb, app_nil_r. cbn.
    repeat split; assumption. }
  destruct Hpaths as [[_ Hcb] | [_ (r & ins & _ & Hic & Hcb)]].
  - exists (inr line), gen, []. rewrite Hcb, app_nil_r. cbn.
    repeat split; assumption.
  - destruct (insertion_calls_only _ Hic) as (I1 & I2 & I3).
    destruct r as [e|u].
    + exists (inr line), gen, ins. rewrite Hcb. cbn.
      repeat split; try assumption. now rewrite existsb_app, G2, I2.
    + destruct (extensionSettings ctx).
      * destruct Hcb as (settings & _ & Hcb).
        eexists (inr line), gen, _. rewrite Hcb. cbn [final snd calls].
        split; [exact Hgen|]. split; [reflexivity|]. split; [assumption|].
        rewrite !existsb_app, I1, I2, G2. cbn.
        split; destruct (truthy _); reflexivity.
      * exists (inr line), gen, ins. rewrite Hcb. cbn.
        repeat split; try assumption. now rewrite existsb_app, G2, I2.
Qed.

(* ================================================================== *)
(** * The probe is evaluated before the decision *)
(* ================================================================== *)

(** C7 as stated fails on [Gated]: with an explicit [background=false]
    the probe still runs; it is the call right after the insertion. *)
Lemma probe_short_circuit_counterexample :
  Gated.generateBgOf (named_with VUndefined VUndefined (VBool false)) = VBool false
  /\ calls (final (Gated.sceneTransitionCallback (host_replying (VStr "Hello there."))
                     (named_with VUndefined VUndefined (VBool false)) (VStr "")
                     empty_world))
     = [CSubstituteParams
          (Gated.quietPromptTemplate (sceneChangeInstructions Gated.DEFAULT_SETTINGS)
             VUndefined (VStr Gated.DEFAULT_INSTRUCTION));
        CGenerateQuietPrompt
          {| quietPrompt :=
               Gated.quietPromptTemplate (sceneChangeInstructions Gated.DEFAULT_SETTINGS)
                 VUndefined (VStr Gated.DEFAULT_INSTRUCTION);
             quietToLoud := true;
             maxTokens := Some (NumInt 120) |};
        CEmit MESSAGE_RECEIVED 0;
        CAddOneMessage {| is_user := false; name := Some "Aria";
                          send_date := 1700000000000%Z; mes := "Hello there." |};
        CEmit CHARACTER_MESSAGE_RENDERED 0;
        CSaveChat;
        CProbeSD]
  /\ existsb is_probe
       (calls (final (Gated.sceneTransitionCallback (host_replying (VStr "Hello there."))
                        (named_with VUndefined VUndefined (VBool false)) (VStr "")
                        empty_world))) = true.
Proof. repeat split. Qed.

(** C7, amended: the value of the decision does not depend on the probe
    when an explicit flag is given, nor, in [Gated], when
    [autoGenerateBackground] is falsy; and [Ungated] never runs the
    probe.  [Gated] however runs the probe on every run that answers
    ["Scene line inserted."], whatever the flag and the setting. *)
Theorem probe_use :
  forall settings explicitFlag sd1 sd2,
    (explicitFlag <> VUndefined ->
     Gated.shouldGenerateBackground explicitFlag settings sd1
     = Gated.shouldGenerateBackground explicitFlag settings sd2)
    /\ (truthy (autoGenerateBackground settings) = false ->
        Gated.shouldGenerateBackground VUndefined settings sd1
        = Gated.shouldGenerateBackground VUndefined settings sd2)
    /\ (forall ctx named unnamed w,
           exists evs,
             calls (final (Ungated.sceneTransitionCallback ctx named unnamed w))
             = (calls w ++ evs)%list
             /\ existsb is_probe evs = false)
    /\ (forall ctx named unnamed w,
           outcome (Gated.sceneTransitionCallback ctx named unnamed w)
           = inr "Scene line inserted." ->
           exists evs,
             calls (final (Gated.sceneTransitionCallback ctx named unnamed w))
             = (calls w ++ evs)%list
             /\ existsb is_probe evs = true).
Proof.
  intros settings flag sd1 sd2. split; [|split; [|split]].
  - intros Hdef. destruct flag; cbn; congruence.
  - intros Hauto. cbn. unfold js_and. rewrite Hauto. reflexivity.
  - intros ctx named unnamed w.
    destruct (ungated_log_shape ctx named unnamed w)
      as (line & gen & rest & _ & Hlog & _ & _ & Hprobe).
    exists (gen ++ rest)%list. split; assumption.
  - intros ctx named unnamed w Hinserted.
    destruct (gated_log_shape ctx named unnamed w)
      as (line & gen & rest & _ & Hlog & _ & _ & Hprobe).
    exists (gen ++ rest)%list. split; [assumption|].
    rewrite existsb_app, (Hprobe Hinserted). apply orb_true_r.
Qed.

Lemma probe_use_witness :
  Gated.shouldGenerateBackground (VBool true) Gated.DEFAULT_SETTINGS true
  = Gated.shouldGenerateBackground (VBool true) Gated.DEFAULT_SETTINGS false
  /\ Gated.shouldGenerateBackground VUndefined Gated.DEFAULT_SETTINGS true
     = Gated.shouldGenerateBackground VUndefined Gated.DEFAULT_SETTINGS false
  /\ exists evs,
      calls (final (Gated.sceneTransitionCallback (host_replying (VStr "Hello there."))
                      (named_with VUndefined VUndefined (VBool true)) (VStr "")
                      empty_world))
      = (calls empty_world ++ evs)%list
      /\ existsb is_probe evs = true.
Proof.
  destruct (probe_use Gated.DEFAULT_SETTINGS (VBool true) true false)
    as (Hflag & _ & _ & Hrun).
  destruct (probe_use Gated.DEFAULT_SETTINGS VUndefined true false)
    as (_ & Hauto & _ & _).
  split; [exact (Hflag ltac:(discriminate))|].
  split; [exact (Hauto eq_refl)|].
  exact (Hrun (host_replying (VStr "Hello there."))
           (named_with VUndefined VUndefined (VBool true)) (VStr "") empty_world eq_refl).
Defined.

(* ================================================================== *)
(** * The token budget *)
(* ================================================================== *)

Lemma gated_budget_of_max named :
  Gated.tokenBudget (Gated.maxOf named)
  = if truthy (named_prop named max) then Number (named_prop named max) else NumInt 120.
Proof.
  unfold Gated.maxOf, js_or, Gated.tokenBudget.
  destruct (truthy (named_prop named max)) eqn:E; [rewrite E|]; reflexivity.
Qed.

(** C8 as stated fails: a supplied [max] of [0] is not handed on; the
    backend is called with [maxTokens: 120], where [0 ?? 120] is [0].
    In [Ungated] the call carries no [maxTokens] at all. *)
Lemma token_budget_counterexample :
  js_nullish (VNum 0) (VNum 120) = VNum 0
  /\ budgets (calls (final (Gated.sceneTransitionCallback
                              (host_replying (VStr "Hello there."))
                              (named_with VUndefined (VNum 0) VUndefined) (VStr "")
                              empty_world)))
     = [Some (NumInt 120)]
  /\ budgets (calls (final (Ungated.sceneTransitionCallback
                              (host_replying (VStr "Hello there."))
                              (named_with VUndefined (VNum 0) VUndefined) (VStr "")
                              empty_world)))
     = [None].
Proof. repeat split. Qed.

(** C8, amended: when the backend is wired in, the settings resolve and
    the substitution returns [prompt], [Gated] calls the backend exactly
    once, with the substituted directive and with [maxTokens] equal to
    [Number(named.max)] when [named.max] is truthy and to [120] when it
    is falsy (not supplied, but also [0] and the empty string);
    [Ungated] calls it exactly once with the substituted instructions and
    without [maxTokens]. *)
Theorem token_budget :
  forall ctx named unnamed w generate es,
    generateQuietPrompt ctx = Some generate ->
    extensionSettings ctx = Some es ->
    let user := match scene_transition_settings es with
                | Some u => u
                | None => empty_object
                end in
    (forall prompt,
        let template :=
          Gated.quietPromptTemplate
            (js_or (sceneChangeInstructions (spread Gated.DEFAULT_SETTINGS user))
                   (sceneChangeInstructions Gated.DEFAULT_SETTINGS))
            (Gated.styleOf named) (Gated.instructionOf unnamed) in
        substituteParams ctx template = inr prompt ->
        exists rest,
          calls (final (Gated.sceneTransitionCallback ctx named unnamed w))
          = (calls w ++
             CSubstituteParams template
             :: CGenerateQuietPrompt
                  {| quietPrompt := prompt;
                     quietToLoud := true;
                     maxTokens :=
                       Some (if truthy (named_prop named max)
                             then Number (named_prop named max)
                             else NumInt 120) |}
             :: rest)%list
          /\ budgets rest = [])
    /\ (forall prompt,
           let template :=
             js_String
               (js_or (sceneChangeInstructions (spread Ungated.DEFAULT_SETTINGS user))
                      (sceneChangeInstructions Ungated.DEFAULT_SETTINGS)) in
           substituteParams ctx template = inr prompt ->
           exists rest,
             calls (final (Ungated.sceneTransitionCallback ctx named unnamed w))
             = (calls w ++
                CSubstituteParams template
                :: CGenerateQuietPrompt
                     {| quietPrompt := prompt; quietToLoud := true; maxTokens := None |}
                :: rest)%list
             /\ budgets rest = []).
Proof.
  intros ctx named unnamed w generate es Hg Hes user. split.
  - intros prompt template Hsub.
    destruct (gated_log_shape ctx named unnamed w)
      as (line & gen & rest & Hgen & Hlog & _ & Hrest & _).
    rewrite (gated_generate_available _ _ _ _ _ _ Hg), Hes in Hgen.
    cbv zeta in Hgen. fold user in Hgen. fold template in Hgen. rewrite Hsub in Hgen.
    injection Hgen as _ Hcalls. apply app_inv_head in Hcalls. subst gen.
    exists rest. rewrite Hlog, gated_budget_of_max.
    split; [reflexivity | now apply budgets_none].
  - intros prompt template Hsub.
    destruct (ungated_log_shape ctx named unnamed w)
      as (line & gen & rest & Hgen & Hlog & _ & Hrest & _).
    rewrite (ungated_generate_available _ _ _ Hg), Hes in Hgen.
    cbv zeta in Hgen. fold user in Hgen. fold template in Hgen. rewrite Hsub in Hgen.
    injection Hgen as _ Hcalls. apply app_inv_head in Hcalls. subst gen.
    exists rest. rewrite Hlog.
    split; [reflexivity | now apply budgets_none].
Qed.

Lemma token_budget_witness :
  budgets (calls (final (Gated.sceneTransitionCallback
                           (host_replying (VStr "Hello there."))
                           (named_with VUndefined (VStr "64") VUndefined) (VStr "")
                           empty_world)))
  = [Some (NumInt 64)]
  /\ budgets (calls (final (Gated.sceneTransitionCallback
                              (host_replying (VStr "Hello there."))
                              (named_with VUndefined (VStr "") VUndefined) (VStr "")
                              empty_world)))
     = [Some (NumInt 120)]
  /\ budgets (calls (final (Ungated.sceneTransitionCallback
                              (host_replying (VStr "Hello there."))
                              (named_with VUndefined (VStr "64") VUndefined) (VStr "")
                              empty_world)))
     = [None].
Proof.
  split; [|split].
  - destruct (token_budget (host_replying (VStr "Hello there."))
                (named_with VUndefined (VStr "64") VUndefined) (VStr "") empty_world
                (fun _ => inr (VStr "Hello there.")) no_extensions eq_refl eq_refl)
      as (H & _).
    destruct (H _ eq_refl) as (rest & Hlog & Hrest).
    rewrite Hlog. cbn [budgets flat_map calls empty_world app maxTokens].
    fold (budgets rest). rewrite Hrest. reflexivity.
  - destruct (token_budget (host_replying (VStr "Hello there."))
                (named_with VUndefined (VStr "") VUndefined) (VStr "") empty_world
                (fun _ => inr (VStr "Hello there.")) no_extensions eq_refl eq_refl)
      as (H & _).
    destruct (H _ eq_refl) as (rest & Hlog & Hrest).
    rewrite Hlog. cbn [budgets flat_map calls empty_world app maxTokens].
    fold (budgets rest). rewrite Hrest. reflexivity.
  - destruct (token_budget (host_replying (VStr "Hello there."))
                (named_with VUndefined (VStr "64") VUndefined) (VStr "") empty_world
                (fun _ => inr (VStr "Hello there.")) no_extensions eq_refl eq_refl)
      as (_ & H).
    destruct (H _ eq_refl) as (rest & Hlog & Hrest).
    rewrite Hlog. cbn [budgets flat_map calls empty_world app maxTokens].
    fold (budgets rest). rewrite Hrest. reflexivity.
Defined.

(* ================================================================== *)
(** * The settings store *)
(* ================================================================== *)

Lemma spread_as_blob (defaults s : Settings) : spread defaults (as_blob s) = s.
Proof. destruct s; reflexivity. Qed.

(** The store-level [getSettings] is the one the runs use. *)
Lemma gated_getSettings_from_store ctx st w :
  Gated.getSettings (host_with_store ctx st) w
  = (fst (Panel.getSettings Gated.DEFAULT_SETTINGS st), w).
Proof.
  rewrite gated_getSettings_eq. unfold Panel.getSettings. cbn.
  destruct (stored st); reflexivity.
Qed.

Lemma ungated_getSettings_from_store ctx st w :
  Ungated.getSettings (host_with_store ctx st) w
  = (fst (Panel.getSettings Ungated.DEFAULT_SETTINGS st), w).
Proof.
  rewrite ungated_getSettings_eq. unfold Panel.getSettings. cbn.
  destruct (stored st); reflexivity.
Qed.

(** X1: [initializeSettings] is idempotent and never overwrites.  A
    second call returns the same result and leaves the store, flush
    requests included, as the first call left it; a blob that is already
    there is not touched and no flush is requested; the other extensions'
    settings are kept; and after it [getSettings] returns a settings
    object, which is [DEFAULT_SETTINGS] when no blob was there. *)
Theorem initializeSettings_idempotent :
  forall defaults st,
    Panel.initializeSettings defaults
      (snd (Panel.initializeSettings defaults st))
    = Panel.initializeSettings defaults st
    /\ (forall es u,
           stored st = Some es ->
           scene_transition_settings es = Some u ->
           Panel.initializeSettings defaults st = (inr tt, st))
    /\ (forall es,
           stored st = Some es ->
           exists es',
             stored (snd (Panel.initializeSettings defaults st)) = Some es'
             /\ sd es' = sd es
             /\ scene_transition_settings es' <> None
             /\ Panel.getSettings defaults (snd (Panel.initializeSettings defaults st))
                = (fst (Panel.getSettings defaults st),
                   snd (Panel.initializeSettings defaults st))
             /\ (scene_transition_settings es = None ->
                 fst (Panel.getSettings defaults st) = inr defaults
                 /\ flush_requests (snd (Panel.initializeSettings defaults st))
                    = S (flush_requests st))).
Proof.
  intros defaults st. unfold Panel.initializeSettings, Panel.getSettings.
  destruct st as [[es|] n]; cbn.
  - destruct es as [[u|] sds]; cbn.
    + split; [reflexivity|]. split; [reflexivity|].
      intros es Hes. injection Hes as <-. eexists. cbn.
      repeat split; try reflexivity; discriminate.
    + split; [reflexivity|]. split; [intros es u Hes H; injection Hes as <-; discriminate H|].
      intros es Hes. injection Hes as <-. eexists. cbn.
      split; [reflexivity|]. split; [reflexivity|]. split; [discriminate|].
      rewrite spread_as_blob. split; [|intros _; split]; try reflexivity;
        destruct defaults; reflexivity.
  - split; [reflexivity|]. split; intros; discriminate.
Qed.

Lemma initializeSettings_idempotent_witness :
  Panel.initializeSettings Gated.DEFAULT_SETTINGS fresh_store
  = (inr tt,
     {| stored := Some {| scene_transition_settings :=
                            Some (as_blob Gated.DEFAULT_SETTINGS);
                          sd := None |};
        flush_requests := 1 |})
  /\ fst (Panel.getSettings Gated.DEFAULT_SETTINGS fresh_store)
     = inr Gated.DEFAULT_SETTINGS
  /\ Panel.initializeSettings Gated.DEFAULT_SETTINGS
       (snd (Panel.initializeSettings Gated.DEFAULT_SETTINGS fresh_store))
     = (inr tt, snd (Panel.initializeSettings Gated.DEFAULT_SETTINGS fresh_store)).
Proof.
  destruct (initializeSettings_idempotent Gated.DEFAULT_SETTINGS fresh_store)
    as (Htwice & _ & Hpresent).
  destruct (initializeSettings_idempotent Gated.DEFAULT_SETTINGS
              (snd (Panel.initializeSettings Gated.DEFAULT_SETTINGS fresh_store)))
    as (_ & Hkept & _).
  destruct (Hpresent no_extensions eq_refl) as (es' & _ & _ & _ & _ & Hnew).
  destruct (Hnew eq_refl) as (Hdefaults & _).
  split; [reflexivity|]. split; [exact Hdefaults|].
  exact (Hkept _ _ eq_refl eq_refl).
Defined.

(** X2: what [saveSettings] stores is what [getSettings] returns next,
    whatever the defaults and whatever was stored before; one flush is
    requested and the other extensions' settings are kept.  On a host
    without [extensionSettings] it throws and changes nothing. *)
Theorem saveSettings_round_trip :
  forall defaults settings st,
    (forall es,
        stored st = Some es ->
        exists st',
          Panel.saveSettings settings st = (inr tt, st')
          /\ Panel.getSettings defaults st' = (inr settings, st')
          /\ flush_requests st' = S (flush_requests st)
          /\ exists es', stored st' = Some es' /\ sd es' = sd es)
    /\ (stored st = None ->
        Panel.saveSettings settings st
        = (inl (TypeError_setting EXTENSION_SETTINGS_KEY), st)).
Proof.
  intros defaults settings st. unfold Panel.saveSettings, Panel.getSettings. split.
  - intros es Hes. rewrite Hes. eexists. split; [reflexivity|]. cbn.
    rewrite spread_as_blob. repeat split. eexists. split; reflexivity.
  - intros Hnone. rewrite Hnone. reflexivity.
Qed.

Lemma saveSettings_round_trip_witness :
  fst (Panel.getSettings Ungated.DEFAULT_SETTINGS
         (snd (Panel.saveSettings
                 {| sceneChangeInstructions := VStr "Cut to the harbour.";
                    autoGenerateBackground := VBool true |} fresh_store)))
  = inr {| sceneChangeInstructions := VStr "Cut to the harbour.";
           autoGenerateBackground := VBool true |}
  /\ Panel.saveSettings Ungated.DEFAULT_SETTINGS
       {| stored := None; flush_requests := 0 |}
     = (inl (TypeError_setting EXTENSION_SETTINGS_KEY),
        {| stored := None; flush_requests := 0 |}).
Proof.
  split.
  - destruct (saveSettings_round_trip Ungated.DEFAULT_SETTINGS
                {| sceneChangeInstructions := VStr "Cut to the harbour.";
                   autoGenerateBackground := VBool true |} fresh_store) as (H & _).
    destruct (H no_extensions eq_refl) as (st' & Hsave & Hget & _).
    rewrite Hsave. cbn [snd]. rewrite Hget. reflexivity.
  - destruct (saveSettings_round_trip Ungated.DEFAULT_SETTINGS Ungated.DEFAULT_SETTINGS
                {| stored := None; flush_requests := 0 |}) as (_ & H).
    exact (H eq_refl).
Defined.

(* ================================================================== *)
(** * The settings panel *)
(* ================================================================== *)

Lemma panel_getSettings_keeps_store defaults st r st' :
  Panel.getSettings defaults st = (r, st') -> st' = st.
Proof.
  unfold Panel.getSettings. destruct (stored st); intros H; now injection H.
Qed.

Lemma panel_update defaults st cur (f : Settings -> Settings) :
  Panel.getSettings defaults st = (inr cur, st) ->
  exists st',
    Panel.and_then (Panel.getSettings defaults)
      (fun currentSettings => Panel.saveSettings (f currentSettings)) st
    = (inr tt, st')
    /\ Panel.getSettings defaults st' = (inr (f cur), st')
    /\ flush_requests st' = S (flush_requests st)
    /\ stored st' =
       match stored st with
       | Some es => Some {| scene_transition_settings := Some (as_blob (f cur));
                            sd := sd es |}
       | None => None
       end.
Proof.
  intros Hget. unfold Panel.and_then. rewrite Hget.
  unfold Panel.getSettings in Hget. unfold Panel.saveSettings, Panel.getSettings.
  destruct (stored st) as [es|]; [|discriminate Hget].
  eexists. split; [reflexivity|]. cbn. rewrite spread_as_blob.
  repeat split.
Qed.

(** X3: each listener of the settings panel changes the one setting it
    is for and keeps the other as [getSettings] resolved it: typing sets
    the instructions to the typed text, the checkbox sets
    [autoGenerateBackground] to its state, the reset button puts the
    default instructions back (also right after typing).  Typing and
    ticking in either order leave the same store.  Without
    [extensionSettings] a listener throws and stores nothing. *)
Theorem panel_listeners :
  forall defaults st,
    (forall cur,
        Panel.getSettings defaults st = (inr cur, st) ->
        (forall value,
            exists st',
              Panel.instructions_input defaults value st = (inr tt, st')
              /\ Panel.getSettings defaults st'
                 = (inr {| sceneChangeInstructions := VStr value;
                           autoGenerateBackground := autoGenerateBackground cur |}, st'))
        /\ (forall checked,
               exists st',
                 Panel.background_change defaults checked st = (inr tt, st')
                 /\ Panel.getSettings defaults st'
                    = (inr {| sceneChangeInstructions := sceneChangeInstructions cur;
                              autoGenerateBackground := VBool checked |}, st'))
        /\ (forall value,
               exists st',
                 Panel.reset_click defaults
                   (snd (Panel.instructions_input defaults value st)) = (inr tt, st')
                 /\ Panel.getSettings defaults st'
                    = (inr {| sceneChangeInstructions := sceneChangeInstructions defaults;
                              autoGenerateBackground := autoGenerateBackground cur |}, st'))
        /\ (forall value checked,
               snd (Panel.background_change defaults checked
                      (snd (Panel.instructions_input defaults value st)))
               = snd (Panel.instructions_input defaults value
                        (snd (Panel.background_change defaults checked st)))))
    /\ (stored st = None ->
        forall value checked,
          Panel.instructions_input defaults value st
          = (inl (TypeError_reading EXTENSION_SETTINGS_KEY), st)
          /\ Panel.background_change defaults checked st
             = (inl (TypeError_reading EXTENSION_SETTINGS_KEY), st)
          /\ Panel.reset_click defaults st
             = (inl (TypeError_reading EXTENSION_SETTINGS_KEY), st)).
Proof.
  intros defaults st. split.
  - intros cur Hcur. split; [|split; [|split]].
    + intros value.
      destruct (panel_update defaults st cur
                  (fun c => {| sceneChangeInstructions := VStr value;
                               autoGenerateBackground := autoGenerateBackground c |})
                  Hcur) as (st' & Hrun & Hget & _).
      exists st'. split; assumption.
    + intros checked.
      destruct (panel_update defaults st cur
                  (fun c => {| sceneChangeInstructions := sceneChangeInstructions c;
                               autoGenerateBackground := VBool checked |})
                  Hcur) as (st' & Hrun & Hget & _).
      exists st'. split; assumption.
    + intros value.
      destruct (panel_update defaults st cur
                  (fun c => {| sceneChangeInstructions := VStr value;
                               autoGenerateBackground := autoGenerateBackground c |})
                  Hcur) as (st1 & Hrun1 & Hget1 & _).
      unfold Panel.instructions_input. rewrite Hrun1. cbn [snd].
      destruct (panel_update defaults st1 _
                  (fun c => {| sceneChangeInstructions := sceneChangeInstructions defaults;
                               autoGenerateBackground := autoGenerateBackground c |})
                  Hget1) as (st2 & Hrun2 & Hget2 & _).
      exists st2. split; assumption.
    + intros value checked.
      unfold Panel.getSettings in Hcur.
      unfold Panel.background_change, Panel.instructions_input, Panel.and_then,
        Panel.getSettings, Panel.saveSettings.
      destruct st as [[es|] n]; cbn in *; [|discriminate Hcur].
      reflexivity.
  - intros Hnone value checked.
    unfold Panel.background_change, Panel.instructions_input, Panel.reset_click,
      Panel.and_then, Panel.getSettings.
    rewrite Hnone. repeat split.
Qed.

Lemma panel_listeners_witness :
  fst (Panel.getSettings Gated.DEFAULT_SETTINGS
         (snd (Panel.background_change Gated.DEFAULT_SETTINGS true
                 (snd (Panel.instructions_input Gated.DEFAULT_SETTINGS
                         "Cut to the harbour." fresh_store)))))
  = inr {| sceneChangeInstructions := VStr "Cut to the harbour.";
           autoGenerateBackground := VBool true |}
  /\ Panel.reset_click Gated.DEFAULT_SETTINGS {| stored := None; flush_requests := 3 |}
     = (inl (TypeError_reading EXTENSION_SETTINGS_KEY),
        {| stored := None; flush_requests := 3 |}).
Proof.
  split.
  - destruct (panel_listeners Gated.DEFAULT_SETTINGS fresh_store) as (H & _).
    destruct (H Gated.DEFAULT_SETTINGS eq_refl) as (Hinput & _).
    destruct (Hinput "Cut to the harbour.") as (st1 & Hrun1 & Hget1).
    destruct (panel_listeners Gated.DEFAULT_SETTINGS st1) as (H1 & _).
    destruct (H1 _ Hget1) as (_ & Hcheck & _).
    destruct (Hcheck true) as (st2 & Hrun2 & Hget2).
    rewrite Hrun1. cbn [snd]. rewrite Hrun2. cbn [snd]. rewrite Hget2. reflexivity.
  - destruct (panel_listeners Gated.DEFAULT_SETTINGS
                {| stored := None; flush_requests := 3 |}) as (_ & H).
    exact (proj2 (proj2 (H eq_refl "" false))).
Defined.

Lemma js_String_truthy (v : JsVal) : truthy v = true -> js_String v <> "".
Proof.
  destruct v as [| |b|n|s]; cbn; try discriminate.
  - destruct b; discriminate.
  - intros _. destruct (Z.to_int n) as [d|d]; [destruct d|]; discriminate.
  - intros H. now apply nonempty_true_iff.
Qed.

Lemma js_or_truthy (a b : JsVal) : truthy b = true -> truthy (js_or a b) = true.
Proof. intros Hb. unfold js_or. destruct (truthy a) eqn:E; assumption. Qed.

(** X4: the instructions a run sends are the text the settings panel
    shows.  With the backend wired in, the first call of the generation
    step is [substituteParams], in [Ungated] on exactly the textarea's
    text and in [Gated] on the directive whose second line is that text.
    The text is never empty: a stored instruction that is empty (the
    user cleared the textarea) or otherwise falsy is replaced by the
    default, in the panel and in the run alike. *)
Theorem panel_shows_what_is_sent :
  forall ctx st w generate instruction style maxTokens,
    generateQuietPrompt ctx = Some generate ->
    (forall cur,
        Panel.getSettings Gated.DEFAULT_SETTINGS st = (inr cur, st) ->
        Panel.textarea_value Gated.DEFAULT_SETTINGS cur <> ""
        /\ (truthy (sceneChangeInstructions cur) = false ->
            Panel.textarea_value Gated.DEFAULT_SETTINGS cur
            = js_String (sceneChangeInstructions Gated.DEFAULT_SETTINGS))
        /\ exists line rest,
            Gated.generateSceneLine (host_with_store ctx st) instruction style maxTokens w
            = (inr line,
               {| chat := chat w;
                  calls := calls w ++
                    CSubstituteParams
                      ("[OOC Scene Direction]" ++ nl
                       ++ Panel.textarea_value Gated.DEFAULT_SETTINGS cur ++ nl
                       ++ (if truthy style then "Style hint: " ++ js_String style else "")
                       ++ nl
                       ++ (if truthy instruction
                           then "Scene notes: " ++ js_String instruction else "")
                       ++ nl
                       ++ "Return only the character's spoken or internal line (no extra narrative).")
                    :: rest |}))
    /\ (forall cur,
           Panel.getSettings Ungated.DEFAULT_SETTINGS st = (inr cur, st) ->
           Panel.textarea_value Ungated.DEFAULT_SETTINGS cur <> ""
           /\ (truthy (sceneChangeInstructions cur) = false ->
               Panel.textarea_value Ungated.DEFAULT_SETTINGS cur
               = js_String (sceneChangeInstructions Ungated.DEFAULT_SETTINGS))
           /\ exists r rest,
               Ungated.generateSceneLine (host_with_store ctx st) w
               = (r,
                  {| chat := chat w;
                     calls := calls w ++
                       CSubstituteParams
                         (Panel.textarea_value Ungated.DEFAULT_SETTINGS cur)
                       :: rest |})).
Proof.
  intros ctx st w generate instruction style maxTokens Hg.
  assert (Hg' : generateQuietPrompt (host_with_store ctx st) = Some generate) by exact Hg.
  split; intros cur Hcur; (split; [|split]).
  - apply js_String_truthy, js_or_truthy. reflexivity.
  - intros Hfalsy. unfold Panel.textarea_value, js_or. now rewrite Hfalsy.
  - rewrite (gated_generate_available _ _ _ _ _ _ Hg').
    unfold Panel.getSettings in Hcur. cbn [host_with_store with_extensionSettings
      extensionSettings substituteParams].
    destruct (stored st) as [es|]; [|discriminate Hcur].
    injection Hcur as <-. cbv zeta.
    destruct (substituteParams ctx _) as [e|prompt]; eexists _, _; reflexivity.
  - apply js_String_truthy, js_or_truthy. reflexivity.
  - intros Hfalsy. unfold Panel.textarea_value, js_or. now rewrite Hfalsy.
  - rewrite (ungated_generate_available _ _ _ Hg').
    unfold Panel.getSettings in Hcur. cbn [host_with_store with_extensionSettings
      extensionSettings substituteParams].
    destruct (stored st) as [es|]; [|discriminate Hcur].
    injection Hcur as <-. cbv zeta.
    destruct (substituteParams ctx _) as [e|prompt]; eexists _, _; reflexivity.
Qed.

Lemma panel_shows_what_is_sent_witness :
  Panel.textarea_value Ungated.DEFAULT_SETTINGS
    {| sceneChangeInstructions := VStr ""; autoGenerateBackground := VBool false |}
  = js_String (sceneChangeInstructions Ungated.DEFAULT_SETTINGS)
  /\ exists r rest,
      Ungated.generateSceneLine
        (host_with_store (host_replying (VStr "Hello there."))
           (snd (Panel.instructions_input Ungated.DEFAULT_SETTINGS "" fresh_store)))
        empty_world
      = (r,
         {| chat := [];
            calls := [] ++
              CSubstituteParams
                (js_String (sceneChangeInstructions Ungated.DEFAULT_SETTINGS))
              :: rest |}).
Proof.
  destruct (panel_shows_what_is_sent (host_replying (VStr "Hello there."))
              (snd (Panel.instructions_input Ungated.DEFAULT_SETTINGS "" fresh_store))
              empty_world (fun _ => inr (VStr "Hello there."))
              VUndefined VUndefined VUndefined eq_refl) as (_ & H).
  destruct (H {| sceneChangeInstructions := VStr "";
                 autoGenerateBackground := VBool false |} eq_refl)
    as (_ & Hfalsy & Hsent).
  split; [exact (Hfalsy eq_refl) | exact Hsent].
Defined.

(* ================================================================== *)
(** * The probe and the click, counted *)
(* ================================================================== *)

Lemma probe_answer ctx w :
  Gated.isStableDiffusionAvailable ctx w
  = (inr (sd_available ctx), {| chat := chat w; calls := calls w ++ [CProbeSD] |}).
Proof.
  unfold Gated.isStableDiffusionAvailable, sd_available, sd_source. run_monad.
  destruct (extensionSettings ctx) as [es|]; cbn; [|reflexivity].
  destruct (sd es) as [s|]; cbn; [|reflexivity].
  destruct (source s) as [| |b|n|src]; cbn; try reflexivity.
  - destruct b; reflexivity.
  - destruct (n =? 0)%Z; reflexivity.
  - destruct (String.eqb_spec src ""); [subst; reflexivity | reflexivity].
Qed.

(** X5: the probe answers [true] exactly when
    [ctx.extensionSettings.sd.source] is a string on the allow-list.  It
    never throws: without [extensionSettings], without [sd], or with a
    source that is missing, empty or not a string it answers [false].
    It leaves the conversation alone. *)
Theorem probe_allow_list :
  forall ctx w,
    Gated.isStableDiffusionAvailable ctx w
    = (inr (sd_available ctx), {| chat := chat w; calls := calls w ++ [CProbeSD] |})
    /\ (sd_available ctx = true <->
        exists s, sd_source ctx = Some (VStr s) /\ In s Gated.validSources)
    /\ (extensionSettings ctx = None -> sd_available ctx = false)
    /\ (forall es, extensionSettings ctx = Some es -> sd es = None ->
                   sd_available ctx = false)
    /\ (forall v, sd_source ctx = Some v -> truthy v = false ->
                  sd_available ctx = false).
Proof.
  intros ctx w. split; [apply probe_answer|]. split; [|split; [|split]].
  - unfold sd_available. split.
    + destruct (sd_source ctx) as [[| |b|n|s]|]; try discriminate.
      intros H. apply existsb_exists in H as (x & Hin & Heq).
      apply String.eqb_eq in Heq. subst x. eauto.
    + intros (s & -> & Hin). apply existsb_exists. exists s.
      split; [assumption | apply String.eqb_refl].
  - intros Hnone. unfold sd_available, sd_source. now rewrite Hnone.
  - intros es Hes Hsd. unfold sd_available, sd_source. now rewrite Hes, Hsd.
  - intros v Hv Hfalsy. unfold sd_available. rewrite Hv.
    destruct v as [| |b|n|s]; try reflexivity.
    cbn in Hfalsy. destruct (String.eqb_spec s ""); [subst; reflexivity | discriminate].
Qed.

Lemma probe_allow_list_witness :
  sd_available (host_with_sd (host_replying VNull) (VStr "comfy")) = true
  /\ sd_available (host_replying VNull) = false
  /\ sd_available (host_with_sd (host_replying VNull) (VStr "")) = false.
Proof.
  split; [|split].
  - destruct (probe_allow_list (host_with_sd (host_replying VNull) (VStr "comfy"))
                empty_world) as (_ & H & _).
    apply (proj2 H). exists "comfy". split; [reflexivity|].
    cbn. tauto.
  - destruct (probe_allow_list (host_replying VNull) empty_world) as (_ & _ & _ & H & _).
    exact (H no_extensions eq_refl eq_refl).
  - destruct (probe_allow_list (host_with_sd (host_replying VNull) (VStr ""))
                empty_world) as (_ & _ & _ & _ & H).
    exact (H (VStr "") eq_refl eq_refl).
Defined.

Lemma count_none (p : Call -> bool) (l : list Call) :
  existsb p l = false -> List.length (filter p l) = 0.
Proof.
  induction l as [|c l IH]; cbn; [reflexivity|].
  intros H. apply orb_false_elim in H as [Hc Hl]. rewrite Hc. auto.
Qed.

Lemma count_clicks_app (a b : list Call) :
  count_clicks (a ++ b) = count_clicks a + count_clicks b.
Proof. unfold count_clicks. now rewrite filter_app, length_app. Qed.

Lemma count_probes_app (a b : list Call) :
  count_probes (a ++ b) = count_probes a + count_probes b.
Proof. unfold count_probes. now rewrite filter_app, length_app. Qed.

Lemma count_clicks_if (b : bool) :
  count_clicks (if b then [CClickSdBackground] else []) = if b then 1 else 0.
Proof. destruct b; reflexivity. Qed.

Lemma count_clicks_probe_cons (l : list Call) :
  count_clicks (CProbeSD :: l) = count_clicks l.
Proof. reflexivity. Qed.

Lemma generation_counts (l : list Call) :
  forallb generation_call l = true -> count_clicks l = 0 /\ count_probes l = 0.
Proof.
  intros H. destruct (generation_calls_only l H) as (_ & Hp & Hc).
  split; now apply count_none.
Qed.

Lemma insertion_counts (l : list Call) :
  forallb insertion_call l = true -> count_clicks l = 0 /\ count_probes l = 0.
Proof.
  intros H. destruct (insertion_calls_only l H) as (_ & Hp & Hc).
  split; now apply count_none.
Qed.

(** The log of a [Gated] run that reports the line inserted. *)
Lemma gated_inserted_run ctx named unnamed w es :
  extensionSettings ctx = Some es ->
  outcome (Gated.sceneTransitionCallback ctx named unnamed w) = inr OUTCOME_INSERTED ->
  exists gen ins,
    forallb generation_call gen = true
    /\ forallb insertion_call ins = true
    /\ calls (final (Gated.sceneTransitionCallback ctx named unnamed w))
       = (calls w ++ gen ++ ins ++ CProbeSD ::
          (if truthy (Gated.shouldGenerateBackground (Gated.generateBgOf named)
                        (spread Gated.DEFAULT_SETTINGS
                           (match scene_transition_settings es with
                            | Some u => u
                            | None => empty_object
                            end))
                        (sd_available ctx))
           then [CClickSdBackground] else []))%list.
Proof.
  intros Hes Hout.
  destruct (gated_generate_returns ctx (Gated.instructionOf unnamed)
              (Gated.styleOf named) (Gated.maxOf named) w) as (line & gen & Hgen & Hc).
  rewrite gated_callback_unfold, Hgen in *.
  destruct (nonempty line); [|discriminate Hout].
  destruct (insert_pushes ctx line {| chat := chat w; calls := calls w ++ gen |})
    as (r & ins & Hins & Hic).
  rewrite Hins in *.
  destruct r as [e|u]; [now apply gated_top_catch_not_inserted in Hout|].
  rewrite gated_getSettings_eq, Hes, probe_answer in *.
  exists gen, (CEmit MESSAGE_RECEIVED (List.length (chat w)) :: ins).
  split; [assumption|]. split; [exact Hic|].
  cbn [final snd calls chat]. destruct (truthy _); cbn [calls];
    rewrite <- !app_assoc; reflexivity.
Qed.

Lemma ungated_inserted_run ctx named unnamed w es :
  extensionSettings ctx = Some es ->
  outcome (Ungated.sceneTransitionCallback ctx named unnamed w) = inr OUTCOME_INSERTED ->
  exists gen ins,
    forallb generation_call gen = true
    /\ forallb insertion_call ins = true
    /\ calls (final (Ungated.sceneTransitionCallback ctx named unnamed w))
       = (calls w ++ gen ++ ins ++
          (if truthy (Ungated.shouldGenerateBackground (Ungated.generateBgOf named)
                        (spread Ungated.DEFAULT_SETTINGS
                           (match scene_transition_settings es with
                            | Some u => u
                            | None => empty_object
                            end)))
           then [CClickSdBackground] else []))%list.
Proof.
  intros Hes Hout.
  destruct (ungated_generate_returns ctx w) as (rg & gen & Hgen & Hc & _).
  rewrite ungated_callback_unfold, Hgen in *.
  destruct rg as [t|line]; [now apply ungated_top_catch_not_inserted in Hout|].
  destruct (nonempty line); [|discriminate Hout].
  rewrite insert_same in *.
  destruct (insert_pushes ctx line {| chat := chat w; calls := calls w ++ gen |})
    as (r & ins & Hins & Hic).
  rewrite Hins in *.
  destruct r as [e|u]; [now apply ungated_top_catch_not_inserted in Hout|].
  rewrite ungated_getSettings_eq, Hes in *.
  exists gen, (CEmit MESSAGE_RECEIVED (List.length (chat w)) :: ins).
  split; [assumption|]. split; [exact Hic|].
  cbn [final snd calls chat]. destruct (truthy _); cbn [calls];
    rewrite <- ?app_assoc, ?app_nil_r; reflexivity.
Qed.

(** X6: in [Gated], a run that reports the line inserted runs the probe
    once and clicks the background button at most once: once when the
    decision is truthy, not at all otherwise.  The flag is used as it
    came: any non-empty string, ["false"] included, makes the click
    happen; the boolean [false] prevents it whatever the settings; and
    without a flag the click needs both [autoGenerateBackground] and a
    source on the allow-list. *)
Theorem gated_click_count :
  forall ctx named unnamed w es,
    extensionSettings ctx = Some es ->
    outcome (Gated.sceneTransitionCallback ctx named unnamed w)
    = inr "Scene line inserted." ->
    exists evs,
      calls (final (Gated.sceneTransitionCallback ctx named unnamed w))
      = (calls w ++ evs)%list
      /\ count_probes evs = 1
      /\ count_clicks evs
         = (if truthy (Gated.shouldGenerateBackground (Gated.generateBgOf named)
                         (spread Gated.DEFAULT_SETTINGS
                            (match scene_transition_settings es with
                             | Some u => u
                             | None => empty_object
                             end))
                         (sd_available ctx))
            then 1 else 0)
      /\ (forall s, named_prop named background = VStr s -> s <> "" ->
                    count_clicks evs = 1)
      /\ (named_prop named background = VBool false -> count_clicks evs = 0)
      /\ (named_prop named background = VUndefined ->
          sd_available ctx = false -> count_clicks evs = 0).
Proof.
  intros ctx named unnamed w es Hes Hout.
  destruct (gated_inserted_run ctx named unnamed w es Hes Hout)
    as (gen & ins & Hgen & Hins & Hlog).
  destruct (generation_counts gen Hgen) as (Gc & Gp).
  destruct (insertion_counts ins Hins) as (Ic & Ip).
  eexists. split; [exact Hlog|].
  rewrite !count_probes_app, !count_clicks_app, Gc, Gp, Ic, Ip.
  set (settings := spread _ _).
  assert (Hcount : count_clicks
                     (CProbeSD ::
                      (if truthy (Gated.shouldGenerateBackground (Gated.generateBgOf named)
                                    settings (sd_available ctx))
                       then [CClickSdBackground] else []))
                   = if truthy (Gated.shouldGenerateBackground (Gated.generateBgOf named)
                                  settings (sd_available ctx))
                     then 1 else 0)
    by (destruct (truthy _); reflexivity).
  rewrite Hcount. split; [destruct (truthy _); reflexivity|]. split; [reflexivity|].
  unfold Gated.generateBgOf. split; [|split].
  - intros s Hs Hne. rewrite Hs. cbn.
    apply nonempty_true_iff in Hne. unfold nonempty in Hne. now rewrite Hne.
  - intros Hflag. rewrite Hflag. reflexivity.
  - intros Hflag Hsd. rewrite Hflag, Hsd.
    unfold Gated.shouldGenerateBackground, js_and.
    destruct (truthy (autoGenerateBackground settings)) eqn:E; [reflexivity|].
    now rewrite E.
Qed.

Lemma gated_click_count_witness :
  exists evs,
    calls (final (Gated.sceneTransitionCallback (host_replying (VStr "Hello there."))
                    (named_with VUndefined VUndefined (VStr "false")) (VStr "")
                    empty_world))
    = (calls empty_world ++ evs)%list
    /\ count_probes evs = 1
    /\ count_clicks evs = 1.
Proof.
  destruct (gated_click_count (host_replying (VStr "Hello there."))
              (named_with VUndefined VUndefined (VStr "false")) (VStr "") empty_world
              no_extensions eq_refl eq_refl)
    as (evs & Hlog & Hp & _ & Hstr & _).
  exists evs. split; [exact Hlog|]. split; [exact Hp|].
  exact (Hstr "false" eq_refl ltac:(discriminate)).
Defined.

(** X7: in [Ungated], a run that reports the line inserted never runs
    the probe and clicks at most once.  A flag that is given counts as
    [true] only when it is the string ["true"]: the boolean [true], like
    any other value, prevents the click whatever the settings.  Without a
    flag the click happens exactly when [autoGenerateBackground] is
    truthy. *)
Theorem ungated_click_count :
  forall ctx named unnamed w es,
    extensionSettings ctx = Some es ->
    outcome (Ungated.sceneTransitionCallback ctx named unnamed w)
    = inr "Scene line inserted." ->
    exists evs,
      calls (final (Ungated.sceneTransitionCallback ctx named unnamed w))
      = (calls w ++ evs)%list
      /\ count_probes evs = 0
      /\ (forall v, named_prop named background = v -> v <> VUndefined ->
                    count_clicks evs = if strict_eq_str v "true" then 1 else 0)
      /\ (named_prop named background = VUndefined ->
          count_clicks evs
          = if truthy (autoGenerateBackground
                         (spread Ungated.DEFAULT_SETTINGS
                            (match scene_transition_settings es with
                             | Some u => u
                             | None => empty_object
                             end)))
            then 1 else 0).
Proof.
  intros ctx named unnamed w es Hes Hout.
  destruct (ungated_inserted_run ctx named unnamed w es Hes Hout)
    as (gen & ins & Hgen & Hins & Hlog).
  destruct (generation_counts gen Hgen) as (Gc & Gp).
  destruct (insertion_counts ins Hins) as (Ic & Ip).
  eexists. split; [exact Hlog|].
  rewrite !count_probes_app, !count_clicks_app, Gc, Gp, Ic, Ip.
  split; [destruct (truthy _); reflexivity|].
  unfold Ungated.generateBgOf. split.
  - intros v Hv Hdef. rewrite Hv.
    destruct v as [| |b|n|s]; try congruence; cbn;
      try reflexivity.
    destruct (s =? "true"); reflexivity.
  - intros Hflag. rewrite Hflag. unfold Ungated.shouldGenerateBackground.
    rewrite count_clicks_if. reflexivity.
Qed.

Lemma ungated_click_count_witness :
  exists evs,
    calls (final (Ungated.sceneTransitionCallback
                    (host_with_store (host_replying (VStr "Hello there."))
                       (snd (Panel.background_change Ungated.DEFAULT_SETTINGS true
                               fresh_store)))
                    (named_with VUndefined VUndefined (VBool true)) (VStr "")
                    empty_world))
    = (calls empty_world ++ evs)%list
    /\ count_probes evs = 0
    /\ count_clicks evs = 0.
Proof.
  destruct (ungated_click_count
              (host_with_store (host_replying (VStr "Hello there."))
                 (snd (Panel.background_change Ungated.DEFAULT_SETTINGS true fresh_store)))
              (named_with VUndefined VUndefined (VBool true)) (VStr "") empty_world
              _ eq_refl eq_refl)
    as (evs & Hlog & Hp & Hflag & _).
  exists evs. split; [exact Hlog|]. split; [exact Hp|].
  exact (Hflag (VBool true) eq_refl ltac:(discriminate)).
Defined.

(** X8: the checkbox of the settings panel decides the click of a run
    without [background=].  The panel ticks the box exactly when the
    stored [autoGenerateBackground] is truthy, which is what the decision
    tests.  After the [change] listener stored the state [checked], an
    [Ungated] run that reports the line inserted clicks exactly when
    [checked], and a [Gated] one exactly when [checked] and the source
    is on the allow-list. *)
Theorem checkbox_decides_click :
  forall defaults ctx st cur checked named unnamed w,
    Panel.getSettings defaults st = (inr cur, st) ->
    named_prop named background = VUndefined ->
    let st' := snd (Panel.background_change defaults checked st) in
    (autoGenerateBackground defaults = VBool false ->
     forall settings,
       Panel.checkbox_checked defaults settings
       = truthy (autoGenerateBackground settings))
    /\ (outcome (Ungated.sceneTransitionCallback (host_with_store ctx st')
                   named unnamed w) = inr "Scene line inserted." ->
        exists evs,
          calls (final (Ungated.sceneTransitionCallback (host_with_store ctx st')
                          named unnamed w))
          = (calls w ++ evs)%list
          /\ count_clicks evs = if checked then 1 else 0)
    /\ (outcome (Gated.sceneTransitionCallback (host_with_store ctx st')
                   named unnamed w) = inr "Scene line inserted." ->
        exists evs,
          calls (final (Gated.sceneTransitionCallback (host_with_store ctx st')
                          named unnamed w))
          = (calls w ++ evs)%list
          /\ count_clicks evs
             = if checked && sd_available (host_with_store ctx st) then 1 else 0).
Proof.
  intros defaults ctx st cur checked named unnamed w Hcur Hflag st'.
  destruct (panel_update defaults st cur
              (fun c => {| sceneChangeInstructions := sceneChangeInstructions c;
                           autoGenerateBackground := VBool checked |}) Hcur)
    as (st1 & Hrun & Hget & _ & Hstored).
  assert (Hst' : st' = st1).
  { unfold st', Panel.background_change. now rewrite Hrun. }
  rewrite Hst'. clear st' Hst'.
  unfold Panel.getSettings in Hcur.
  destruct (stored st) as [es|] eqn:Hes; [|discriminate Hcur].
  split; [|split].
  - intros Hdefault settings. unfold Panel.checkbox_checked. rewrite Hdefault.
    destruct (autoGenerateBackground settings); reflexivity.
  - intros Hout.
    assert (Hext : extensionSettings (host_with_store ctx st1) = _) by exact Hstored.
    destruct (ungated_inserted_run _ named unnamed w _ Hext Hout)
      as (gen & ins & Hgen & Hins & Hlog).
    destruct (generation_counts gen Hgen) as (Gc & _).
    destruct (insertion_counts ins Hins) as (Ic & _).
    eexists. split; [exact Hlog|].
    rewrite !count_clicks_app, Gc, Ic, count_clicks_if.
    cbn [scene_transition_settings].
    rewrite spread_as_blob. unfold Ungated.generateBgOf. rewrite Hflag.
    reflexivity.
  - intros Hout.
    assert (Hext : extensionSettings (host_with_store ctx st1) = _) by exact Hstored.
    destruct (gated_inserted_run _ named unnamed w _ Hext Hout)
      as (gen & ins & Hgen & Hins & Hlog).
    destruct (generation_counts gen Hgen) as (Gc & _).
    destruct (insertion_counts ins Hins) as (Ic & _).
    eexists. split; [exact Hlog|].
    rewrite !count_clicks_app, Gc, Ic, count_clicks_probe_cons, count_clicks_if.
    cbn [scene_transition_settings].
    rewrite spread_as_blob. unfold Gated.generateBgOf. rewrite Hflag.
    assert (Hsd : sd_available (host_with_store ctx st1)
                  = sd_available (host_with_store ctx st)).
    { unfold sd_available, sd_source, host_with_store. cbn. now rewrite Hstored, Hes. }
    rewrite Hsd. destruct checked; reflexivity.
Qed.

Lemma checkbox_decides_click_witness :
  (exists evs,
      calls (final (Ungated.sceneTransitionCallback
                      (host_with_store (host_replying (VStr "Hello there."))
                         (snd (Panel.background_change Ungated.DEFAULT_SETTINGS true
                                 fresh_store)))
                      no_named (VStr "") empty_world))
      = (calls empty_world ++ evs)%list
      /\ count_clicks evs = 1)
  /\ (exists evs,
         calls (final (Gated.sceneTransitionCallback
                         (host_with_store (host_replying (VStr "Hello there."))
                            (snd (Panel.background_change Ungated.DEFAULT_SETTINGS true
                                    fresh_store)))
                         no_named (VStr "") empty_world))
         = (calls empty_world ++ evs)%list
         /\ count_clicks evs = 0).
Proof.
  destruct (checkbox_decides_click Ungated.DEFAULT_SETTINGS
              (host_replying (VStr "Hello there.")) fresh_store Ungated.DEFAULT_SETTINGS
              true no_named (VStr "") empty_world eq_refl eq_refl)
    as (_ & Hu & Hg).
  split; [exact (Hu eq_refl) | exact (Hg eq_refl)].
Defined.

(* ================================================================== *)
(** * The order of an insertion *)
(* ================================================================== *)

(** X10: an insertion calls the host in a fixed order and stops at the
    first call that throws.  When all four go through the log gains
    [MESSAGE_RECEIVED], [addOneMessage], [CHARACTER_MESSAGE_RENDERED] and
    [saveChat], in this order, both notifications carrying the index at
    which the new message now sits.  When a call throws [e], the
    insertion throws [e], nothing after that call is made (so nothing is
    rendered after a failed first notification, and nothing is saved
    after a failed notification or rendering), and the pushed message
    stays. *)
Theorem insertion_order :
  forall ctx text w,
    let msg := Gated.buildAssistantMessage ctx text in
    let msgId := List.length (chat w) in
    let pushed := (chat w ++ [msg])%list in
    nth_error pushed msgId = Some msg
    /\ (emit ctx MESSAGE_RECEIVED msgId = inr tt ->
        addOneMessage ctx msg = inr tt ->
        emit ctx CHARACTER_MESSAGE_RENDERED msgId = inr tt ->
        saveChat ctx = inr tt ->
        Gated.insertAssistantMessage ctx text w
        = (inr tt,
           {| chat := pushed;
              calls := calls w ++ [CEmit MESSAGE_RECEIVED msgId;
                                   CAddOneMessage msg;
                                   CEmit CHARACTER_MESSAGE_RENDERED msgId;
                                   CSaveChat] |}))
    /\ (forall e,
           emit ctx MESSAGE_RECEIVED msgId = inl e ->
           Gated.insertAssistantMessage ctx text w
           = (inl e,
              {| chat := pushed;
                 calls := calls w ++ [CEmit MESSAGE_RECEIVED msgId] |}))
    /\ (forall e,
           emit ctx MESSAGE_RECEIVED msgId = inr tt ->
           addOneMessage ctx msg = inl e ->
           Gated.insertAssistantMessage ctx text w
           = (inl e,
              {| chat := pushed;
                 calls := calls w ++ [CEmit MESSAGE_RECEIVED msgId;
                                      CAddOneMessage msg] |}))
    /\ (forall e,
           emit ctx MESSAGE_RECEIVED msgId = inr tt ->
           addOneMessage ctx msg = inr tt ->
           emit ctx CHARACTER_MESSAGE_RENDERED msgId = inl e ->
           Gated.insertAssistantMessage ctx text w
           = (inl e,
              {| chat := pushed;
                 calls := calls w ++ [CEmit MESSAGE_RECEIVED msgId;
                                      CAddOneMessage msg;
                                      CEmit CHARACTER_MESSAGE_RENDERED msgId] |}))
    /\ (forall e,
           emit ctx MESSAGE_RECEIVED msgId = inr tt ->
           addOneMessage ctx msg = inr tt ->
           emit ctx CHARACTER_MESSAGE_RENDERED msgId = inr tt ->
           saveChat ctx = inl e ->
           Gated.insertAssistantMessage ctx text w
           = (inl e,
              {| chat := pushed;
                 calls := calls w ++ [CEmit MESSAGE_RECEIVED msgId;
                                      CAddOneMessage msg;
                                      CEmit CHARACTER_MESSAGE_RENDERED msgId;
                                      CSaveChat] |}))
    /\ Ungated.insertAssistantMessage ctx text w
       = Gated.insertAssistantMessage ctx text w.
Proof.
  intros ctx text w msg msgId pushed.
  assert (Hid : (List.length (chat w ++ [msg]) - 1)%nat = msgId)
    by (rewrite length_app; cbn; subst msgId; lia).
  split.
  { subst pushed msgId. rewrite nth_error_app2 by lia.
    now rewrite Nat.sub_diag. }
  repeat split; try reflexivity; intros;
    unfold Gated.insertAssistantMessage; run_monad; fold msg; rewrite Hid;
    repeat match goal with
           | H : _ = inr tt |- _ => rewrite H; clear H; cbn
           | H : _ = inl _ |- _ => rewrite H; clear H; cbn
           end;
    rewrite <- ?app_assoc; reflexivity.
Qed.

Lemma insertion_order_witness :
  Gated.insertAssistantMessage (host_replying VNull) "Hello there." empty_world
  = (inr tt,
     {| chat := [Gated.buildAssistantMessage (host_replying VNull) "Hello there."];
        calls := [CEmit MESSAGE_RECEIVED 0;
                  CAddOneMessage
                    (Gated.buildAssistantMessage (host_replying VNull) "Hello there.");
                  CEmit CHARACTER_MESSAGE_RENDERED 0;
                  CSaveChat] |})
  /\ Gated.insertAssistantMessage host_emit_fails "Hello there." empty_world
     = (inl (mkError "listener failed"),
        {| chat := [Gated.buildAssistantMessage host_emit_fails "Hello there."];
           calls := [CEmit MESSAGE_RECEIVED 0] |})
  /\ Gated.insertAssistantMessage host_save_fails "Hello there." empty_world
     = (inl (mkError "disk full"),
        {| chat := [Gated.buildAssistantMessage host_save_fails "Hello there."];
           calls := [CEmit MESSAGE_RECEIVED 0;
                     CAddOneMessage
                       (Gated.buildAssistantMessage host_save_fails "Hello there.");
                     CEmit CHARACTER_MESSAGE_RENDERED 0;
                     CSaveChat] |}).
Proof.
  split; [|split].
  - destruct (insertion_order (host_replying VNull) "Hello there." empty_world)
      as (_ & H & _).
    exact (H eq_refl eq_refl eq_refl eq_refl).
  - destruct (insertion_order host_emit_fails "Hello there." empty_world)
      as (_ & _ & H & _).
    exact (H _ eq_refl).
  - destruct (insertion_order host_save_fails "Hello there." empty_world)
      as (_ & _ & _ & _ & _ & H & _).
    exact (H _ eq_refl eq_refl eq_refl eq_refl).
Defined.

(* ================================================================== *)
(** * The conversation only grows, by at most one message *)
(* ================================================================== *)

(** X9: a run never removes or changes a message and appends at most
    one, an assistant message under the active character's name; it only
    extends the call log.  In [Gated] a message is appended exactly when
    the answer is not ["No output generated."], so also when the run
    ends in an error.  In [Ungated] nothing is appended exactly when the
    answer is ["No output generated."] or the generation step itself
    raised, in which case the answer is an error string. *)
Theorem conversation_grows_by_at_most_one :
  forall ctx named unnamed w,
    (exists added evs,
        chat (final (Gated.sceneTransitionCallback ctx named unnamed w))
        = (chat w ++ added)%list
        /\ calls (final (Gated.sceneTransitionCallback ctx named unnamed w))
           = (calls w ++ evs)%list
        /\ List.length added <= 1
        /\ (forall m, In m added ->
                      is_user m = false /\ name m = charName ctx
                      /\ send_date m = now ctx /\ mes m <> "")
        /\ (added = [] <->
            outcome (Gated.sceneTransitionCallback ctx named unnamed w)
            = inr "No output generated."))
    /\ (exists added evs,
           chat (final (Ungated.sceneTransitionCallback ctx named unnamed w))
           = (chat w ++ added)%list
           /\ calls (final (Ungated.sceneTransitionCallback ctx named unnamed w))
              = (calls w ++ evs)%list
           /\ List.length added <= 1
           /\ (forall m, In m added ->
                         is_user m = false /\ name m = charName ctx
                         /\ send_date m = now ctx /\ mes m <> "")
           /\ (added = [] <->
               outcome (Ungated.sceneTransitionCallback ctx named unnamed w)
               = inr "No output generated."
               \/ exists t, outcome (Ungated.generateSceneLine ctx w) = inl t)
           /\ (forall t,
                  outcome (Ungated.generateSceneLine ctx w) = inl t ->
                  exists text,
                    outcome (Ungated.sceneTransitionCallback ctx named unnamed w)
                    = inr ("Error: Cannot read properties of " ++ text))).
Proof.
  intros ctx named unnamed w. split.
  - destruct (gated_log_shape ctx named unnamed w)
      as (line & gen & rest & Hgen & Hlog & _).
    destruct (String.eqb_spec line "") as [Hempty | Hne].
    + destruct (gated_callback_paths ctx named unnamed w)
        as (line' & gen' & Hgen' & _ & [[_ Hcb] | [Hl _]]);
        rewrite Hgen in Hgen'; injection Hgen' as <- _; [|congruence].
      exists [], (gen ++ rest)%list. rewrite Hcb in *. cbn.
      rewrite app_nil_r. repeat split; auto; try contradiction.
    + assert (Hline : outcome (Gated.generateSceneLine ctx (Gated.instructionOf unnamed)
                                 (Gated.styleOf named) (Gated.maxOf named) w) = inr line)
        by now rewrite Hgen.
      destruct (gated_nonempty_line_pushed ctx named unnamed w line Hline Hne)
        as (Hchat & Hout).
      exists [Gated.buildAssistantMessage ctx line], (gen ++ rest)%list.
      split; [exact Hchat|]. split; [exact Hlog|]. split; [cbn; lia|]. split.
      * intros m [<- | []]. repeat split. exact Hne.
      * split; [discriminate|]. intros Hnone. contradiction.
  - destruct (ungated_log_shape ctx named unnamed w)
      as (rg & gen & rest & Hgen & Hlog & _).
    destruct rg as [t|line].
    { assert (Ht : outcome (Ungated.generateSceneLine ctx w) = inl t)
        by now rewrite Hgen.
      destruct (ungated_generation_raised ctx named unnamed w t Ht)
        as (Htype & Hcb & Hchat).
      exists [], (gen ++ rest)%list.
      split; [now rewrite Hchat, app_nil_r|]. split; [exact Hlog|].
      split; [cbn; lia|]. split; [intros m []|]. split.
      - split; [intros _; right; eauto | reflexivity].
      - intros t' Ht'. rewrite Ht in Ht'. injection Ht' as <-.
        rewrite Hcb. destruct Htype as [-> | ->]; eexists; reflexivity. }
    assert (Hnoraise : forall t, outcome (Ungated.generateSceneLine ctx w) <> inl t)
      by (intros t; rewrite Hgen; discriminate).
    destruct (String.eqb_spec line "") as [Hempty | Hne].
    + destruct (ungated_callback_paths ctx named unnamed w)
        as (rg' & gen' & Hgen' & _ & Hpaths).
      rewrite Hgen in Hgen'. injection Hgen' as <- _.
      destruct Hpaths as [[_ Hcb] | [Hl _]]; [|congruence].
      exists [], (gen ++ rest)%list. rewrite Hcb in *. cbn.
      rewrite app_nil_r. repeat split; auto; try contradiction.
      intros t Ht. now apply Hnoraise in Ht.
    + assert (Hline : outcome (Ungated.generateSceneLine ctx w) = inr line)
        by now rewrite Hgen.
      destruct (ungated_nonempty_line_pushed ctx named unnamed w line Hline Hne)
        as (Hchat & Hout).
      exists [Ungated.buildAssistantMessage ctx line], (gen ++ rest)%list.
      split; [exact Hchat|]. split; [exact Hlog|]. split; [cbn; lia|]. split.
      * intros m [<- | []]. repeat split. exact Hne.
      * split.
        -- split; [discriminate|]. intros [Hnone | (t & Ht)]; [contradiction|].
           now apply Hnoraise in Ht.
        -- intros t Ht. now apply Hnoraise in Ht.
Qed.

Lemma conversation_grows_by_at_most_one_witness :
  (exists added evs,
    chat (final (Gated.sceneTransitionCallback host_save_fails no_named (VStr "")
                   empty_world))
    = (chat empty_world ++ added)%list
    /\ calls (final (Gated.sceneTransitionCallback host_save_fails no_named (VStr "")
                       empty_world))
       = (calls empty_world ++ evs)%list
    /\ List.length added <= 1
    /\ (forall m, In m added ->
                  is_user m = false /\ name m = charName host_save_fails
                  /\ send_date m = now host_save_fails /\ mes m <> "")
    /\ (added = [] <->
        outcome (Gated.sceneTransitionCallback host_save_fails no_named (VStr "")
                   empty_world)
        = inr "No output generated."))
  /\ exists text,
      outcome (Ungated.sceneTransitionCallback host_backend_rejects_undefined no_named
                 (VStr "") empty_world)
      = inr ("Error: Cannot read properties of " ++ text).
Proof.
  split.
  - exact (proj1 (conversation_grows_by_at_most_one host_save_fails no_named (VStr "")
                    empty_world)).
  - destruct (conversation_grows_by_at_most_one host_backend_rejects_undefined no_named
                (VStr "") empty_world) as (_ & (added & evs & _ & _ & _ & _ & _ & H)).
    exact (H (TypeError_reading "message") eq_refl).
Defined.

(* ================================================================== *)
(** * The generated line is trimmed *)
(* ================================================================== *)

(** [trim] takes a run of white space off each end. *)
Lemma trim_split (s : string) :
  exists b1 b2, Blank b1 /\ Blank b2 /\ s = b1 ++ trim s ++ b2.
Proof.
  destruct (trimStart_split s) as (b1 & Hb1 & Hs & _).
  destruct (trimEnd_split (trimStart s)) as (b2 & Hb2 & Ht).
  exists b1, b2. split; [assumption|]. split; [assumption|].
  unfold trim. now rewrite <- Ht.
Qed.

(** X11: [finalResult] is what the backend resolved to without the white
    space at its ends, white space being the code points that
    [String.prototype.trim] strips.  It never begins or ends with one of
    them, whatever the backend resolved to, and trimming it again changes
    nothing; for a string [s] it is [s] with a run of white space taken
    off each end.  It is empty for [undefined] and [null], and for a
    string exactly when the string is white space only; for a boolean it
    is not empty. *)
Theorem finalResult_is_trimmed :
  forall result,
    (forall ws rest, In ws WHITE_SPACE -> finalResult result <> ws ++ rest)
    /\ (forall ws pre, In ws WHITE_SPACE -> finalResult result <> pre ++ ws)
    /\ trim (finalResult result) = finalResult result
    /\ (forall s, result = VStr s ->
                  (finalResult result = "" <-> Blank s)
                  /\ exists b1 b2,
                      Blank b1 /\ Blank b2 /\ s = b1 ++ finalResult result ++ b2)
    /\ (result = VUndefined \/ result = VNull -> finalResult result = "")
    /\ (forall b, result = VBool b -> finalResult result <> "").
Proof.
  intros result.
  assert (H : exists s, finalResult result = trim s
                        /\ forall s', result = VStr s' -> finalResult result = trim s')
    by (destruct result; eexists; (split; [reflexivity|]); intros s' [=]; subst;
        reflexivity).
  destruct H as (s & Hs & Hstr). rewrite Hs.
  split; [intros ws rest Hin; now apply trim_no_prefix|].
  split; [intros ws pre Hin; unfold trim; now apply trimEnd_no_suffix|].
  split; [apply trim_idempotent|]. rewrite <- Hs. split; [|split].
  - intros s' Hs'. rewrite (Hstr s' Hs'). split; [apply trim_empty_iff | apply trim_split].
  - intros [-> | ->]; reflexivity.
  - intros b ->. destruct b; discriminate.
Qed.

Lemma finalResult_is_trimmed_witness :
  finalResult (VStr (nbsp ++ " a " ++ ideographic_space ++ "b" ++ nl ++ nbsp))
  = "a " ++ ideographic_space ++ "b"
  /\ (forall rest,
         finalResult (VStr (nbsp ++ " a " ++ ideographic_space ++ "b" ++ nl ++ nbsp))
         <> nbsp ++ rest)
  /\ (finalResult (VStr (ideographic_space ++ nl ++ nbsp)) = ""
      <-> Blank (ideographic_space ++ nl ++ nbsp))
  /\ finalResult VNull = ""
  /\ finalResult (VBool false) <> "".
Proof.
  destruct (finalResult_is_trimmed
              (VStr (nbsp ++ " a " ++ ideographic_space ++ "b" ++ nl ++ nbsp)))
    as (Hstart & _).
  destruct (finalResult_is_trimmed (VStr (ideographic_space ++ nl ++ nbsp)))
    as (_ & _ & _ & H & _).
  destruct (finalResult_is_trimmed VNull) as (_ & _ & _ & _ & Hn & _).
  destruct (finalResult_is_trimmed (VBool false)) as (_ & _ & _ & _ & _ & Hb).
  split; [reflexivity|].
  split; [intros rest; apply Hstart; cbn; tauto|].
  split; [exact (proj1 (H _ eq_refl))|]. split; [exact (Hn (or_intror eq_refl))|].
  exact (Hb false eq_refl).
Defined.

Lemma gated_generate_string ctx generate es s instruction style maxTokens w :
  generateQuietPrompt ctx = Some generate ->
  (forall args, generate args = inr (VStr s)) ->
  extensionSettings ctx = Some es ->
  (forall t, exists p, substituteParams ctx t = inr p) ->
  outcome (Gated.generateSceneLine ctx instruction style maxTokens w) = inr (trim s).
Proof.
  intros Hg Hanswer Hes Hsub.
  rewrite (gated_generate_available _ _ _ _ _ _ Hg), Hes. cbv zeta.
  match goal with |- context [substituteParams ctx ?t] =>
    destruct (Hsub t) as (p & Hp); rewrite Hp end.
  rewrite Hanswer. reflexivity.
Qed.

Lemma ungated_generate_string ctx generate es s w :
  generateQuietPrompt ctx = Some generate ->
  (forall args, generate args = inr (VStr s)) ->
  extensionSettings ctx = Some es ->
  (forall t, exists p, substituteParams ctx t = inr p) ->
  outcome (Ungated.generateSceneLine ctx w) = inr (trim s).
Proof.
  intros Hg Hanswer Hes Hsub.
  rewrite (ungated_generate_available _ _ _ Hg), Hes. cbv zeta.
  match goal with |- context [substituteParams ctx ?t] =>
    destruct (Hsub t) as (p & Hp); rewrite Hp end.
  rewrite Hanswer. reflexivity.
Qed.

Lemma gated_empty_line ctx named unnamed w :
  outcome (Gated.generateSceneLine ctx (Gated.instructionOf unnamed)
             (Gated.styleOf named) (Gated.maxOf named) w) = inr "" ->
  outcome (Gated.sceneTransitionCallback ctx named unnamed w) = inr OUTCOME_EMPTY
  /\ chat (final (Gated.sceneTransitionCallback ctx named unnamed w)) = chat w.
Proof.
  intros Hempty.
  destruct (gated_callback_paths ctx named unnamed w)
    as (line & gen & Hgen & _ & [[_ Hcb] | [Hl _]]);
    rewrite Hgen in Hempty; cbn in Hempty; injection Hempty as ->; [|congruence].
  rewrite Hcb. split; reflexivity.
Qed.

Lemma ungated_empty_line ctx named unnamed w :
  outcome (Ungated.generateSceneLine ctx w) = inr "" ->
  outcome (Ungated.sceneTransitionCallback ctx named unnamed w) = inr OUTCOME_EMPTY
  /\ chat (final (Ungated.sceneTransitionCallback ctx named unnamed w)) = chat w.
Proof.
  intros Hempty.
  destruct (ungated_callback_paths ctx named unnamed w)
    as (rg & gen & Hgen & _ & Hpaths).
  rewrite Hgen in Hempty. cbn in Hempty. subst rg.
  destruct Hpaths as [[_ Hcb] | [Hl _]]; [|congruence].
  rewrite Hcb. split; reflexivity.
Qed.

(** X12: when the backend answers the string [s] (settings and
    substitution working), the run ends with ["No output generated."]
    and an unchanged conversation if [s] is white space only, and
    otherwise appends one message whose text is [s] without its leading
    and trailing white space, and does not answer
    ["No output generated."]; in both revisions.  White space is what
    [String.prototype.trim] strips, no-break and ideographic spaces
    included. *)
Theorem backend_string_is_trimmed_and_inserted :
  forall ctx named unnamed w generate es s,
    generateQuietPrompt ctx = Some generate ->
    (forall args, generate args = inr (VStr s)) ->
    extensionSettings ctx = Some es ->
    (forall t, exists p, substituteParams ctx t = inr p) ->
    (Blank s ->
     (outcome (Gated.sceneTransitionCallback ctx named unnamed w)
      = inr "No output generated."
      /\ chat (final (Gated.sceneTransitionCallback ctx named unnamed w)) = chat w)
     /\ (outcome (Ungated.sceneTransitionCallback ctx named unnamed w)
         = inr "No output generated."
         /\ chat (final (Ungated.sceneTransitionCallback ctx named unnamed w)) = chat w))
    /\ (~ Blank s ->
        (outcome (Gated.sceneTransitionCallback ctx named unnamed w)
         <> inr "No output generated."
         /\ chat (final (Gated.sceneTransitionCallback ctx named unnamed w))
            = (chat w ++ [{| is_user := false; name := charName ctx;
                             send_date := now ctx; mes := trim s |}])%list)
        /\ (outcome (Ungated.sceneTransitionCallback ctx named unnamed w)
            <> inr "No output generated."
            /\ chat (final (Ungated.sceneTransitionCallback ctx named unnamed w))
               = (chat w ++ [{| is_user := false; name := charName ctx;
                                send_date := now ctx; mes := trim s |}])%list))
    /\ (exists b1 b2, Blank b1 /\ Blank b2 /\ s = b1 ++ trim s ++ b2)
    /\ (forall ws rest, In ws WHITE_SPACE -> trim s <> ws ++ rest)
    /\ (forall ws pre, In ws WHITE_SPACE -> trim s <> pre ++ ws).
Proof.
  intros ctx named unnamed w generate es s Hg Hanswer Hes Hsub.
  pose proof (gated_generate_string ctx generate es s (Gated.instructionOf unnamed)
                (Gated.styleOf named) (Gated.maxOf named) w Hg Hanswer Hes Hsub) as HG.
  pose proof (ungated_generate_string ctx generate es s w Hg Hanswer Hes Hsub) as HU.
  split; [|split; [|split; [|split]]].
  - intros Hws. apply trim_empty_iff in Hws. rewrite Hws in HG, HU. split.
    + now apply gated_empty_line.
    + now apply ungated_empty_line.
  - intros Hws.
    assert (Hne : trim s <> "").
    { intros H. apply trim_empty_iff in H. contradiction. }
    split.
    + destruct (gated_nonempty_line_pushed ctx named unnamed w _ HG Hne) as (Hc & Ho).
      split; assumption.
    + destruct (ungated_nonempty_line_pushed ctx named unnamed w _ HU Hne) as (Hc & Ho).
      split; assumption.
  - apply trim_split.
  - intros ws rest Hin. now apply trim_no_prefix.
  - intros ws pre Hin. unfold trim. now apply trimEnd_no_suffix.
Qed.

Lemma backend_string_is_trimmed_and_inserted_witness :
  List.map mes
    (chat (final (Gated.sceneTransitionCallback
                    (host_replying (VStr (nbsp ++ " Hello there. " ++ ideographic_space)))
                    no_named (VStr "") empty_world)))
  = ["Hello there."]
  /\ outcome (Ungated.sceneTransitionCallback (host_replying (VStr (" " ++ nbsp)))
                no_named (VStr "") empty_world)
     = inr "No output generated.".
Proof.
  split.
  - destruct (backend_string_is_trimmed_and_inserted
                (host_replying (VStr (nbsp ++ " Hello there. " ++ ideographic_space)))
                no_named (VStr "") empty_world
                (fun _ => inr (VStr (nbsp ++ " Hello there. " ++ ideographic_space)))
                no_extensions (nbsp ++ " Hello there. " ++ ideographic_space)
                eq_refl (fun _ => eq_refl) eq_refl (fun t => ex_intro _ t eq_refl))
      as (_ & H & _).
    assert (Hnot : ~ Blank (nbsp ++ " Hello there. " ++ ideographic_space)).
    { intros Hb. apply all_white_space_Blank in Hb. discriminate Hb. }
    destruct (H Hnot) as ((_ & Hc) & _). rewrite Hc. reflexivity.
  - destruct (backend_string_is_trimmed_and_inserted
                (host_replying (VStr (" " ++ nbsp))) no_named (VStr "") empty_world
                (fun _ => inr (VStr (" " ++ nbsp))) no_extensions (" " ++ nbsp)
                eq_refl (fun _ => eq_refl) eq_refl (fun t => ex_intro _ t eq_refl))
      as (H & _).
    assert (Hblank : Blank (" " ++ nbsp)).
    { apply all_white_space_Blank. reflexivity. }
    destruct (H Hblank) as (_ & (Ho & _)). exact Ho.
Defined.

(* ================================================================== *)
(** * A host without [extensionSettings] *)
(* ================================================================== *)

Lemma gated_generate_without_settings ctx instruction style maxTokens w :
  extensionSettings ctx = None ->
  Gated.generateSceneLine ctx instruction style maxTokens w
  = (inr (Gated.testMessage instruction style), w).
Proof.
  intros Hes. destruct (generateQuietPrompt ctx) as [generate|] eqn:Hg.
  - rewrite (gated_generate_available _ _ _ _ _ _ Hg), Hes. reflexivity.
  - now apply gated_generate_unavailable.
Qed.

Lemma ungated_generate_without_settings ctx w :
  extensionSettings ctx = None ->
  exists line,
    Ungated.generateSceneLine ctx w = (inr line, w)
    /\ prefix "[DEBUG]" line = true.
Proof.
  intros Hes. destruct (generateQuietPrompt ctx) as [generate|] eqn:Hg.
  - rewrite (ungated_generate_available _ _ _ Hg), Hes.
    eexists. split; [reflexivity | reflexivity].
  - rewrite ungated_generate_unavailable by assumption.
    eexists. split; [reflexivity | apply debug_prefix_unavailable].
Qed.

Lemma gated_top_catch_answers e :
  readable e -> exists text, gated_top_catch e = inr ("Error: " ++ text).
Proof. intros (m & ->). eexists; reflexivity. Qed.

Lemma ungated_top_catch_answers e :
  readable e -> exists text, ungated_top_catch e = inr ("Error: " ++ text).
Proof. intros (m & ->). eexists; reflexivity. Qed.

(** X13: [getSettings] does not guard against a missing
    [ctx.extensionSettings], so on such a host no run can succeed: in
    both revisions no run answers ["Scene line inserted."] or
    ["No output generated."].  Every run has pushed a ["[DEBUG]"]
    placeholder onto the conversation; neither [substituteParams] nor
    the backend is called, the probe does not run and nothing is clicked.
    When the insertion goes through, the answer is the error of the
    settings read; when it throws a value whose message can be read, the
    answer is ["Error: "] followed by a message. *)
Theorem run_without_extension_settings :
  forall ctx named unnamed w,
    extensionSettings ctx = None ->
    (exists r line evs,
        Gated.sceneTransitionCallback ctx named unnamed w
        = (r,
           {| chat := chat w ++ [{| is_user := false; name := charName ctx;
                                    send_date := now ctx; mes := line |}];
              calls := calls w ++ evs |})
        /\ prefix "[DEBUG]" line = true
        /\ forallb insertion_call evs = true
        /\ r <> inr "Scene line inserted."
        /\ r <> inr "No output generated."
        /\ (forall u w2,
               Gated.insertAssistantMessage ctx line w = (inr u, w2) ->
               r = inr ("Error: Cannot read properties of undefined (reading '"
                        ++ EXTENSION_SETTINGS_KEY ++ "')"))
        /\ (insertion_throws_readable ctx -> exists text, r = inr ("Error: " ++ text)))
    /\ (exists r line evs,
           Ungated.sceneTransitionCallback ctx named unnamed w
           = (r,
              {| chat := chat w ++ [{| is_user := false; name := charName ctx;
                                       send_date := now ctx; mes := line |}];
                 calls := calls w ++ evs |})
           /\ prefix "[DEBUG]" line = true
           /\ forallb insertion_call evs = true
           /\ r <> inr "Scene line inserted."
           /\ r <> inr "No output generated."
           /\ (forall u w2,
                  Ungated.insertAssistantMessage ctx line w = (inr u, w2) ->
                  r = inr ("Error: Cannot read properties of undefined (reading '"
                           ++ EXTENSION_SETTINGS_KEY ++ "')"))
           /\ (insertion_throws_readable ctx ->
               exists text, r = inr ("Error: " ++ text))).
Proof.
  intros ctx named unnamed w Hes. split.
  - rewrite gated_callback_unfold, gated_generate_without_settings by assumption.
    set (line := Gated.testMessage _ _).
    assert (Hp : prefix "[DEBUG]" line = true) by apply debug_prefix_gated.
    rewrite (proj2 (nonempty_true_iff line) (prefix_debug_nonempty _ Hp)).
    destruct (insert_pushes ctx line w) as (r & ins & Hins & Hic).
    rewrite Hins. destruct r as [e|u].
    + exists (gated_top_catch e), line,
        (CEmit MESSAGE_RECEIVED (List.length (chat w)) :: ins).
      split; [reflexivity|]. split; [assumption|]. split; [assumption|].
      split; [apply gated_top_catch_not_inserted|].
      split; [apply gated_top_catch_not_empty|]. split.
      * intros u w2 H. rewrite ?insert_same in H. rewrite Hins in H. discriminate H.
      * intros Hreadable. apply gated_top_catch_answers.
        exact (insert_throws_readable _ _ _ _ _ Hreadable Hins).
    + rewrite gated_getSettings_eq, Hes.
      eexists _, line, (CEmit MESSAGE_RECEIVED (List.length (chat w)) :: ins).
      split; [reflexivity|]. split; [assumption|]. split; [assumption|].
      split; [discriminate|]. split; [discriminate|]. split.
      * intros u' w2 _. reflexivity.
      * intros _. eexists; reflexivity.
  - rewrite ungated_callback_unfold.
    destruct (ungated_generate_without_settings ctx w Hes) as (line & Hgen & Hp).
    rewrite Hgen.
    rewrite (proj2 (nonempty_true_iff line) (prefix_debug_nonempty _ Hp)).
    rewrite insert_same.
    destruct (insert_pushes ctx line w) as (r & ins & Hins & Hic).
    rewrite Hins. destruct r as [e|u].
    + exists (ungated_top_catch e), line,
        (CEmit MESSAGE_RECEIVED (List.length (chat w)) :: ins).
      split; [reflexivity|]. split; [assumption|]. split; [assumption|].
      split; [apply ungated_top_catch_not_inserted|].
      split; [apply ungated_top_catch_not_empty|]. split.
      * intros u w2 H. rewrite ?insert_same in H. rewrite Hins in H. discriminate H.
      * intros Hreadable. apply ungated_top_catch_answers.
        exact (insert_throws_readable _ _ _ _ _ Hreadable Hins).
    + rewrite ungated_getSettings_eq, Hes.
      eexists _, line, (CEmit MESSAGE_RECEIVED (List.length (chat w)) :: ins).
      split; [reflexivity|]. split; [assumption|]. split; [assumption|].
      split; [discriminate|]. split; [discriminate|]. split.
      * intros u' w2 _. reflexivity.
      * intros _. eexists; reflexivity.
Qed.

Lemma run_without_extension_settings_witness :
  exists r line evs,
    Ungated.sceneTransitionCallback host_no_settings no_named (VStr "") empty_world
    = (r,
       {| chat := chat empty_world
                  ++ [{| is_user := false; name := charName host_no_settings;
                         send_date := now host_no_settings; mes := line |}];
          calls := calls empty_world ++ evs |})
    /\ prefix "[DEBUG]" line = true
    /\ forallb insertion_call evs = true
    /\ r = inr "Error: Cannot read properties of undefined (reading 'scene-transition-settings')".
Proof.
  destruct (run_without_extension_settings host_no_settings no_named (VStr "")
              empty_world eq_refl) as (_ & (r & line & evs & Hrun & Hp & Hic & _ & _ & _ & Hr)).
  exists r, line, evs. split; [exact Hrun|]. split; [exact Hp|]. split; [exact Hic|].
  assert (Hreadable : insertion_throws_readable host_no_settings).
  { split; [|split].
    - intros ev msgId e H. discriminate H.
    - intros msg e H. discriminate H.
    - intros e H. discriminate H. }
  destruct (Hr Hreadable) as (text & Htext).
  rewrite Htext in Hrun. injection Hrun as Hout _. rewrite Htext. now rewrite <- Hout.
Defined.

(* ================================================================== *)
(** * What the generation step calls *)
(* ================================================================== *)

(** X14: the generation step makes no call at all, and leaves the world
    as it was, when the backend is not wired in or [extensionSettings]
    is missing.  Otherwise it calls [substituteParams] exactly once, on
    the directive in [Gated] and on the instructions in [Ungated]; if
    that threw, this is its only call; if it returned a prompt, the
    backend is called exactly once after it, with exactly that prompt,
    [quietToLoud: true], and the token limit in [Gated] and none in
    [Ungated].  The conversation is never touched. *)
Theorem generation_calls :
  forall ctx instruction style maxTokens w,
    (generateQuietPrompt ctx = None \/ extensionSettings ctx = None ->
     final (Gated.generateSceneLine ctx instruction style maxTokens w) = w
     /\ final (Ungated.generateSceneLine ctx w) = w)
    /\ (forall generate es,
           generateQuietPrompt ctx = Some generate ->
           extensionSettings ctx = Some es ->
           let user := match scene_transition_settings es with
                       | Some u => u
                       | None => empty_object
                       end in
           let directive :=
             Gated.quietPromptTemplate
               (js_or (sceneChangeInstructions (spread Gated.DEFAULT_SETTINGS user))
                      (sceneChangeInstructions Gated.DEFAULT_SETTINGS))
               style instruction in
           let instructions :=
             js_String
               (js_or (sceneChangeInstructions (spread Ungated.DEFAULT_SETTINGS user))
                      (sceneChangeInstructions Ungated.DEFAULT_SETTINGS)) in
           final (Gated.generateSceneLine ctx instruction style maxTokens w)
           = {| chat := chat w;
                calls := calls w ++
                  match substituteParams ctx directive with
                  | inl _ => [CSubstituteParams directive]
                  | inr prompt =>
                      [CSubstituteParams directive;
                       CGenerateQuietPrompt
                         {| quietPrompt := prompt; quietToLoud := true;
                            maxTokens := Some (Gated.tokenBudget maxTokens) |}]
                  end |}
           /\ final (Ungated.generateSceneLine ctx w)
              = {| chat := chat w;
                   calls := calls w ++
                     match substituteParams ctx instructions with
                     | inl _ => [CSubstituteParams instructions]
                     | inr prompt =>
                         [CSubstituteParams instructions;
                          CGenerateQuietPrompt
                            {| quietPrompt := prompt; quietToLoud := true;
                               maxTokens := None |}]
                     end |}).
Proof.
  intros ctx instruction style maxTokens w. split.
  - intros Hnone. destruct (generateQuietPrompt ctx) as [generate|] eqn:Hg.
    + destruct Hnone as [Hnone | Hes]; [discriminate Hnone|].
      rewrite (gated_generate_available _ _ _ _ _ _ Hg), Hes.
      rewrite (ungated_generate_available _ _ _ Hg), Hes. split; reflexivity.
    + rewrite gated_generate_unavailable, ungated_generate_unavailable by assumption.
      split; reflexivity.
  - intros generate es Hg Hes user directive instructions. split.
    + rewrite (gated_generate_available _ _ _ _ _ _ Hg), Hes. cbv zeta.
      fold user. fold directive.
      destruct (substituteParams ctx directive); reflexivity.
    + rewrite (ungated_generate_available _ _ _ Hg), Hes. cbv zeta.
      fold user. fold instructions.
      destruct (substituteParams ctx instructions); reflexivity.
Qed.

Lemma generation_calls_witness :
  (final (Gated.generateSceneLine host_unwired (VStr "x") VUndefined (VStr "120")
            empty_world) = empty_world
   /\ final (Ungated.generateSceneLine host_unwired empty_world) = empty_world)
  /\ calls (final (Ungated.generateSceneLine host_bad_template empty_world))
     = [CSubstituteParams (js_String (sceneChangeInstructions Ungated.DEFAULT_SETTINGS))]
  /\ calls (final (Gated.generateSceneLine (host_replying (VStr "Hello there."))
                     (VStr "x") VUndefined (VStr "64") empty_world))
     = [CSubstituteParams
          (Gated.quietPromptTemplate (sceneChangeInstructions Gated.DEFAULT_SETTINGS)
             VUndefined (VStr "x"));
        CGenerateQuietPrompt
          {| quietPrompt :=
               Gated.quietPromptTemplate (sceneChangeInstructions Gated.DEFAULT_SETTINGS)
                 VUndefined (VStr "x");
             quietToLoud := true;
             maxTokens := Some (NumInt 64) |}].
Proof.
  split; [|split].
  - destruct (generation_calls host_unwired (VStr "x") VUndefined (VStr "120")
                empty_world) as (H & _).
    exact (H (or_introl eq_refl)).
  - destruct (generation_calls host_bad_template VUndefined VUndefined VUndefined
                empty_world) as (_ & H).
    destruct (H (fun _ => inr (VStr "Hello there.")) no_extensions eq_refl eq_refl)
      as (_ & Hu).
    rewrite Hu. reflexivity.
  - destruct (generation_calls (host_replying (VStr "Hello there."))
                (VStr "x") VUndefined (VStr "64") empty_world) as (_ & H).
    destruct (H (fun _ => inr (VStr "Hello there.")) no_extensions eq_refl eq_refl)
      as (Hg & _).
    rewrite Hg. reflexivity.
Defined.

(* ================================================================== *)
(** * Arguments that make no difference *)
(* ================================================================== *)

Lemma blank_note_is_default (unnamed : JsVal) :
  (forall s, unnamed = VStr s -> Blank s) ->
  Gated.instructionOf unnamed = VStr Gated.DEFAULT_INSTRUCTION.
Proof.
  intros Hblank. destruct unnamed as [| |b|n|s]; try reflexivity.
  cbn. pose proof (Hblank s eq_refl) as Hws. apply trim_empty_iff in Hws.
  now rewrite Hws.
Qed.

(** X15: [Ungated] reads nothing of a request but [background]: two
    requests with the same [background] run identically, whatever their
    notes, style and [max].  [Gated] treats a missing argument bag like
    an empty one, a falsy style or [max] like a missing one, and a note
    that is blank (a run of the white-space code points that
    [String.prototype.trim] strips) or not a string like no note. *)
Theorem arguments_that_make_no_difference :
  forall ctx w,
    (forall named1 named2 unnamed1 unnamed2,
        named_prop named1 background = named_prop named2 background ->
        Ungated.sceneTransitionCallback ctx named1 unnamed1 w
        = Ungated.sceneTransitionCallback ctx named2 unnamed2 w)
    /\ (forall unnamed,
           Gated.sceneTransitionCallback ctx None unnamed w
           = Gated.sceneTransitionCallback ctx empty_bag unnamed w)
    /\ (forall s m b unnamed,
           truthy s = false -> truthy m = false ->
           Gated.sceneTransitionCallback ctx (named_with s m b) unnamed w
           = Gated.sceneTransitionCallback ctx (named_with VUndefined VUndefined b)
               unnamed w)
    /\ (forall named unnamed,
           (forall s, unnamed = VStr s -> Blank s) ->
           Gated.sceneTransitionCallback ctx named unnamed w
           = Gated.sceneTransitionCallback ctx named (VStr "") w).
Proof.
  intros ctx w. split; [|split; [|split]].
  - intros n1 n2 u1 u2 Hbg.
    rewrite !ungated_callback_unfold. unfold Ungated.generateBgOf.
    now rewrite Hbg.
  - reflexivity.
  - intros s m b unnamed Hs Hm.
    rewrite !gated_callback_unfold.
    unfold Gated.styleOf, Gated.maxOf, Gated.generateBgOf, js_or. cbn.
    now rewrite Hs, Hm.
  - intros named unnamed Hblank.
    rewrite !gated_callback_unfold.
    now rewrite (blank_note_is_default unnamed Hblank).
Qed.

Lemma arguments_that_make_no_difference_witness :
  Ungated.sceneTransitionCallback (host_replying (VStr "Hello there."))
    (named_with (VStr "noir") (VNum 10) VUndefined) (VStr "to the docks") empty_world
  = Ungated.sceneTransitionCallback (host_replying (VStr "Hello there."))
      no_named (VStr "") empty_world
  /\ Gated.sceneTransitionCallback (host_replying (VStr "Hello there."))
       (named_with (VStr "") (VNum 0) VUndefined)
       (VStr (" " ++ nbsp ++ ideographic_space)) empty_world
     = Gated.sceneTransitionCallback (host_replying (VStr "Hello there."))
         (named_with VUndefined VUndefined VUndefined) (VStr "") empty_world.
Proof.
  destruct (arguments_that_make_no_difference (host_replying (VStr "Hello there."))
              empty_world) as (Hu & _ & Hfalsy & Hblank).
  split.
  - exact (Hu (named_with (VStr "noir") (VNum 10) VUndefined) no_named
              (VStr "to the docks") (VStr "") eq_refl).
  - rewrite (Hfalsy (VStr "") (VNum 0) VUndefined
               (VStr (" " ++ nbsp ++ ideographic_space)) eq_refl eq_refl).
    apply Hblank. intros s Hs. injection Hs as <-.
    apply all_white_space_Blank. reflexivity.
Defined.

(* ================================================================== *)
(** * The menu button *)
(* ================================================================== *)

Lemma gated_first_calls ctx named unnamed w generate es prompt :
  generateQuietPrompt ctx = Some generate ->
  extensionSettings ctx = Some es ->
  let template :=
    Gated.quietPromptTemplate
      (js_or (sceneChangeInstructions
                (spread Gated.DEFAULT_SETTINGS
                   (match scene_transition_settings es with
                    | Some u => u
                    | None => empty_object
                    end)))
             (sceneChangeInstructions Gated.DEFAULT_SETTINGS))
      (Gated.styleOf named) (Gated.instructionOf unnamed) in
  substituteParams ctx template = inr prompt ->
  exists rest,
    calls (final (Gated.sceneTransitionCallback ctx named unnamed w))
    = (calls w ++
       CSubstituteParams template
       :: CGenerateQuietPrompt
            {| quietPrompt := prompt; quietToLoud := true;
               maxTokens := Some (Gated.tokenBudget (Gated.maxOf named)) |}
       :: rest)%list
    /\ existsb generation_call rest = false.
Proof.
  intros Hg Hes template Hsub.
  destruct (gated_log_shape ctx named unnamed w)
    as (line & gen & rest & Hgen & Hlog & _ & Hrest & _).
  rewrite (gated_generate_available _ _ _ _ _ _ Hg), Hes in Hgen.
  cbv zeta in Hgen. fold template in Hgen. rewrite Hsub in Hgen.
  injection Hgen as _ Hcalls. apply app_inv_head in Hcalls. subst gen.
  exists rest. rewrite Hlog. split; [reflexivity | assumption].
Qed.

Lemma gated_top_catch_raises e t :
  gated_top_catch e = inl t ->
  stack_TypeError t /\ (e = ThrownUndefined \/ e = ThrownNull).
Proof. unfold stack_TypeError. destruct e; cbn; intros [= <-]; auto. Qed.

Lemma ungated_top_catch_raises e t :
  ungated_top_catch e = inl t ->
  message_TypeError t /\ (e = ThrownUndefined \/ e = ThrownNull).
Proof. unfold message_TypeError. destruct e; cbn; intros [= <-]; auto. Qed.

(** All a run can throw is the [TypeError] of the [catch] at its top, and
    only after a call of the insertion rejected with [undefined] or
    [null]. *)
Lemma gated_callback_raises ctx named unnamed w t w' :
  Gated.sceneTransitionCallback ctx named unnamed w = (inl t, w') ->
  stack_TypeError t /\ ~ insertion_throws_readable ctx.
Proof.
  intros Hrun.
  destruct (gated_callback_paths ctx named unnamed w)
    as (line & gen & _ & _ & [[_ Hcb] | [_ (r & ins & Hins & _ & Hcb)]]).
  - rewrite Hcb in Hrun. discriminate Hrun.
  - destruct r as [e|u].
    + rewrite Hcb in Hrun. injection Hrun as Hcatch _.
      destruct (gated_top_catch_raises _ _ Hcatch) as (Htype & Hnullish).
      split; [exact Htype|]. intros Hreadable.
      destruct (insert_throws_readable _ _ _ _ _ Hreadable Hins) as (m & ->).
      destruct Hnullish; discriminate.
    + destruct (extensionSettings ctx).
      * destruct Hcb as (settings & avail & _ & Hcb).
        rewrite Hcb in Hrun. discriminate Hrun.
      * rewrite Hcb in Hrun. discriminate Hrun.
Qed.

Lemma ungated_callback_raises ctx named unnamed w t w' :
  Ungated.sceneTransitionCallback ctx named unnamed w = (inl t, w') ->
  message_TypeError t /\ ~ insertion_throws_readable ctx.
Proof.
  intros Hrun.
  destruct (ungated_callback_paths ctx named unnamed w)
    as (rg & gen & _ & _ & Hpaths).
  destruct rg as [t'|line].
  { destruct Hpaths as ([-> | ->] & Hcb); rewrite Hcb in Hrun; discriminate Hrun. }
  destruct Hpaths as [[_ Hcb] | [_ (r & ins & Hins & _ & Hcb)]].
  - rewrite Hcb in Hrun. discriminate Hrun.
  - destruct r as [e|u].
    + rewrite Hcb in Hrun. injection Hrun as Hcatch _.
      destruct (ungated_top_catch_raises _ _ Hcatch) as (Htype & Hnullish).
      split; [exact Htype|]. intros Hreadable. rewrite insert_same in Hins.
      destruct (insert_throws_readable _ _ _ _ _ Hreadable Hins) as (m & ->).
      destruct Hnullish; discriminate.
    + destruct (extensionSettings ctx).
      * destruct Hcb as (settings & _ & Hcb).
        rewrite Hcb in Hrun. discriminate Hrun.
      * rewrite Hcb in Hrun. discriminate Hrun.
Qed.

(** X16: a click on the "Change Scene" menu button is the command
    without arguments: the run it awaits is the same run as the callback
    with no argument bag and an empty note.  That run answers a string
    whenever the values thrown by the calls of the insertion have a
    message that can be read; all it can throw is the [TypeError] of the
    [catch] at its top, reading [stack] in [Gated] and [message] in
    [Ungated].  When the backend is reached, the directive carries the
    built-in note and an empty style line, and the token limit is
    [120]. *)
Theorem menu_button_is_the_bare_command :
  forall ctx w,
    (insertion_throws_readable ctx ->
     (exists answer w', gated_menu_button_click ctx w = (inr answer, w'))
     /\ (exists answer w', ungated_menu_button_click ctx w = (inr answer, w')))
    /\ (forall t w',
           gated_menu_button_click ctx w = (inl t, w') ->
           t = TypeError_reading "stack" \/ t = TypeError_reading_null "stack")
    /\ (forall t w',
           ungated_menu_button_click ctx w = (inl t, w') ->
           t = TypeError_reading "message" \/ t = TypeError_reading_null "message")
    /\ gated_menu_button_click ctx w
       = Gated.sceneTransitionCallback ctx None (VStr "") w
    /\ ungated_menu_button_click ctx w
       = Ungated.sceneTransitionCallback ctx None (VStr "") w
    /\ (forall generate es prompt,
           generateQuietPrompt ctx = Some generate ->
           extensionSettings ctx = Some es ->
           let instructions :=
             js_String
               (js_or (sceneChangeInstructions
                         (spread Gated.DEFAULT_SETTINGS
                            (match scene_transition_settings es with
                             | Some u => u
                             | None => empty_object
                             end)))
                      (sceneChangeInstructions Gated.DEFAULT_SETTINGS)) in
           let directive :=
             "[OOC Scene Direction]" ++ nl ++ instructions ++ nl ++ nl
             ++ "Scene notes: Allow the character to transition to a new scene that makes sense."
             ++ nl
             ++ "Return only the character's spoken or internal line (no extra narrative)." in
           substituteParams ctx directive = inr prompt ->
           exists rest,
             calls (final (gated_menu_button_click ctx w))
             = (calls w ++
                CSubstituteParams directive
                :: CGenerateQuietPrompt
                     {| quietPrompt := prompt; quietToLoud := true;
                        maxTokens := Some (NumInt 120) |}
                :: rest)%list
             /\ existsb generation_call rest = false).
Proof.
  intros ctx w. split; [|split; [|split; [|split; [|split]]]].
  - intros Hreadable. split.
    + destruct (gated_three_answers ctx empty_bag (VStr "") w Hreadable)
        as (s & w' & H & _).
      exists s, w'. exact H.
    + destruct (ungated_three_answers ctx empty_bag (VStr "") w Hreadable)
        as (s & w' & H & _).
      exists s, w'. exact H.
  - intros t w' H. exact (proj1 (gated_callback_raises ctx empty_bag (VStr "") w t w' H)).
  - intros t w' H. exact (proj1 (ungated_callback_raises ctx empty_bag (VStr "") w t w' H)).
  - reflexivity.
  - reflexivity.
  - intros generate es prompt Hg Hes instructions directive Hsub.
    exact (gated_first_calls ctx empty_bag (VStr "") w generate es prompt Hg Hes Hsub).
Qed.

Lemma menu_button_is_the_bare_command_witness :
  exists rest,
    calls (final (gated_menu_button_click (host_replying (VStr "Hello there."))
                    empty_world))
    = (calls empty_world ++
       CSubstituteParams
         ("[OOC Scene Direction]" ++ nl
          ++ js_String (sceneChangeInstructions Gated.DEFAULT_SETTINGS) ++ nl ++ nl
          ++ "Scene notes: Allow the character to transition to a new scene that makes sense."
          ++ nl
          ++ "Return only the character's spoken or internal line (no extra narrative).")
       :: CGenerateQuietPrompt
            {| quietPrompt :=
                 "[OOC Scene Direction]" ++ nl
                 ++ js_String (sceneChangeInstructions Gated.DEFAULT_SETTINGS) ++ nl ++ nl
                 ++ "Scene notes: Allow the character to transition to a new scene that makes sense."
                 ++ nl
                 ++ "Return only the character's spoken or internal line (no extra narrative).";
               quietToLoud := true;
               maxTokens := Some (NumInt 120) |}
       :: rest)%list
    /\ existsb generation_call rest = false.
Proof.
  destruct (menu_button_is_the_bare_command (host_replying (VStr "Hello there."))
              empty_world) as (_ & _ & _ & _ & _ & H).
  exact (H (fun _ => inr (VStr "Hello there.")) no_extensions _ eq_refl eq_refl eq_refl).
Defined.
